(** * Liturgical date resolution and tiered reading lookup

    A shallow embedding of [calendar_service.py] and [lectionary_service.py]
    together with the parts of Python's [datetime], [str] and [json] they
    rely on, followed by the properties of the specification that concern
    them.

    Conventions.
    - Python [int] is [Z]; [//] and [%] are [Z.div] and [Z.modulo], which
      round towards minus infinity like Python's.
    - Python [str] is [string]; a character is a code point below 256
      (Latin-1), a range closed under [str.lower] and [str.strip].
    - A call that may raise returns an [option], whose [None] stands for
      the exception; [get_readings] returns an [outcome], which names the
      exception.
    - JSON-like Python values ([dict], [list], [str], [int], [bool],
      [None]) are values of [Json.value]; a [dict] keeps insertion order. *)

From Stdlib Require Import ZArith List String Ascii Bool Lia DecimalString
  DecimalPos.
Import ListNotations.

Local Open Scope string_scope.
Local Open Scope Z_scope.

(* ================================================================== *)
(** ** Python's [datetime.date] (after CPython's [_pydatetime.py])     *)
(* ================================================================== *)

Module PyDate.

Record date := mkdate { year : Z; month : Z; day : Z }.

Definition MINYEAR : Z := 1.
Definition MAXYEAR : Z := 9999.
Definition _MAXORDINAL : Z := 3652059.

Definition _DAYS_IN_MONTH : list Z :=
  [-1; 31; 28; 31; 30; 31; 30; 31; 31; 30; 31; 30; 31].

Definition _DAYS_BEFORE_MONTH : list Z :=
  [-1; 0; 31; 59; 90; 120; 151; 181; 212; 243; 273; 304; 334].

Definition index (l : list Z) (i : Z) : Z := nth (Z.to_nat i) l 0.

Definition _is_leap (y : Z) : bool :=
  (y mod 4 =? 0) && (negb (y mod 100 =? 0) || (y mod 400 =? 0)).

Definition _days_before_year (y : Z) : Z :=
  let y := y - 1 in y * 365 + y / 4 - y / 100 + y / 400.

Definition _days_in_month (y m : Z) : Z :=
  if (m =? 2) && _is_leap y then 29 else index _DAYS_IN_MONTH m.

Definition _days_before_month (y m : Z) : Z :=
  index _DAYS_BEFORE_MONTH m + (if (2 <? m) && _is_leap y then 1 else 0).

Definition _ymd2ord (y m d : Z) : Z :=
  _days_before_year y + _days_before_month y m + d.

Definition _DI400Y : Z := 146097.
Definition _DI100Y : Z := 36524.
Definition _DI4Y : Z := 1461.

Definition _ord2ymd (n : Z) : date :=
  let n := n - 1 in
  let n400 := n / _DI400Y in
  let n := n mod _DI400Y in
  let y := n400 * 400 + 1 in
  let n100 := n / _DI100Y in
  let n := n mod _DI100Y in
  let n4 := n / _DI4Y in
  let n := n mod _DI4Y in
  let n1 := n / 365 in
  let n := n mod 365 in
  let y := y + n100 * 100 + n4 * 4 + n1 in
  if (n1 =? 4) || (n100 =? 4) then mkdate (y - 1) 12 31
  else
    let leapyear := (n1 =? 3) && (negb (n4 =? 24) || (n100 =? 3)) in
    let m := Z.shiftr (n + 50) 5 in
    let preceding :=
      index _DAYS_BEFORE_MONTH m + (if (2 <? m) && leapyear then 1 else 0) in
    if n <? preceding then
      let m := m - 1 in
      let preceding :=
        preceding
        - (index _DAYS_IN_MONTH m + (if (m =? 2) && leapyear then 1 else 0)) in
      mkdate y m (n - preceding + 1)
    else mkdate y m (n - preceding + 1).

(** The fields a [date] object can hold ([_check_date_fields]). *)
Definition valid_fields (y m d : Z) : bool :=
  (MINYEAR <=? y) && (y <=? MAXYEAR) && (1 <=? m) && (m <=? 12)
  && (1 <=? d) && (d <=? _days_in_month y m).

Definition valid (dt : date) : bool :=
  valid_fields (year dt) (month dt) (day dt).

(** [date(y, m, d)]; [None] is [ValueError]. *)
Definition new (y m d : Z) : option date :=
  if valid_fields y m d then Some (mkdate y m d) else None.

Definition toordinal (dt : date) : Z :=
  _ymd2ord (year dt) (month dt) (day dt).

Definition fromordinal (n : Z) : date := _ord2ymd n.

(** [dt.weekday()]: Monday is 0 and Sunday is 6. *)
Definition weekday (dt : date) : Z := (toordinal dt + 6) mod 7.

(** [dt + timedelta(days=n)]; [None] is [OverflowError]. *)
Definition add_days (dt : date) (n : Z) : option date :=
  let o := toordinal dt + n in
  if (0 <? o) && (o <=? _MAXORDINAL) then Some (fromordinal o) else None.

(** [dt - timedelta(days=n)]. *)
Definition sub_days (dt : date) (n : Z) : option date := add_days dt (- n).

(** Comparison of dates is comparison of [(year, month, day)]. *)
Definition compare (a b : date) : comparison :=
  match year a ?= year b with
  | Eq => match month a ?= month b with
          | Eq => day a ?= day b
          | c => c
          end
  | c => c
  end.

Definition ltb (a b : date) : bool :=
  match compare a b with Lt => true | _ => false end.

Definition geb (a b : date) : bool := negb (ltb a b).

Definition eqb (a b : date) : bool :=
  match compare a b with Eq => true | _ => false end.

End PyDate.

Import PyDate.

Notation "a <d b" := (ltb a b = true) (at level 70, no associativity).
Notation "a <=d b" := (geb b a = true) (at level 70, no associativity).

(* ================================================================== *)
(** ** Python's [str] on Latin-1 text                                  *)
(* ================================================================== *)

Module PyStr.

Definition code (c : ascii) : Z := Z.of_N (N_of_ascii c).
Definition chr (n : Z) : ascii := ascii_of_N (Z.to_N n).

(** [c.isspace()] for a code point below 256. *)
Definition isspace (c : ascii) : bool :=
  let n := code c in
  ((9 <=? n) && (n <=? 13)) || ((28 <=? n) && (n <=? 32))
  || (n =? 133) || (n =? 160).

(** [c.isupper()] for a code point below 256: [A-Z], and the accented
    capitals U+00C0..U+00DE without the multiplication sign U+00D7. *)
Definition isupper (c : ascii) : bool :=
  let n := code c in
  ((65 <=? n) && (n <=? 90))
  || ((192 <=? n) && (n <=? 222) && negb (n =? 215)).

Definition lower_char (c : ascii) : ascii :=
  if isupper c then chr (code c + 32) else c.

(** [s.lower()] *)
Fixpoint lower (s : string) : string :=
  match s with
  | EmptyString => EmptyString
  | String c r => String (lower_char c) (lower r)
  end.

(** [s.lstrip()], [s.rstrip()] and [s.strip()] *)
Fixpoint lstrip (s : string) : string :=
  match s with
  | EmptyString => EmptyString
  | String c r => if isspace c then lstrip r else s
  end.

Fixpoint rstrip (s : string) : string :=
  match s with
  | EmptyString => EmptyString
  | String c r =>
      match rstrip r with
      | EmptyString => if isspace c then EmptyString else String c EmptyString
      | r' => String c r'
      end
  end.

Definition strip (s : string) : string := rstrip (lstrip s).

(** [len(s)] *)
Definition len (s : string) : Z := Z.of_nat (String.length s).

(** [s.startswith(p)] *)
Fixpoint startswith (p s : string) : bool :=
  match p, s with
  | EmptyString, _ => true
  | String a p', String b s' => Ascii.eqb a b && startswith p' s'
  | String _ _, EmptyString => false
  end.

(** [p in s] *)
Fixpoint contains (p s : string) : bool :=
  startswith p s
  || match s with
     | EmptyString => false
     | String _ r => contains p r
     end.

(** [s.replace(old, new)] for a non-empty [old]: occurrences are replaced
    from left to right without overlap; [skip] counts the characters of
    an occurrence still to be dropped. *)
Fixpoint replace_from (old new s : string) (skip : nat) : string :=
  match s with
  | EmptyString => EmptyString
  | String c r =>
      match skip with
      | S k => replace_from old new r k
      | O =>
          if startswith old s
          then (new ++ replace_from old new r (String.length old - 1))%string
          else String c (replace_from old new r 0)
      end
  end.

Definition replace (old new s : string) : string := replace_from old new s 0.

(** [str(n)] for an [int] *)
Definition str (n : Z) : string := NilZero.string_of_int (Z.to_int n).

(** ["%0wd" % n] for [0 <= n] *)
Definition zfill (w : nat) (n : Z) : string :=
  let s := str n in
  (string_of_list_ascii (repeat "0"%char (w - String.length s)) ++ s)%string.

(** Truth value of a string: [bool(s)]. *)
Definition truthy (s : string) : bool :=
  match s with EmptyString => false | _ => true end.

(** [l[i]] on a list, with Python's negative indices; [None] is
    [IndexError]. *)
Definition getitem {A} (l : list A) (i : Z) : option A :=
  let n := Z.of_nat (List.length l) in
  if (0 <=? i) && (i <? n) then nth_error l (Z.to_nat i)
  else if (- n <=? i) && (i <? 0) then nth_error l (Z.to_nat (n + i))
  else None.

End PyStr.

Import PyStr.


(** Sequencing of calls that may raise. *)
Notation "x <- e ;; k" :=
  (match e with Some x => k | None => None end)
  (at level 61, e at next level, right associativity).

(** [d.get(k, default)] and [d[k]] on a dictionary given as its list of
    items. *)
Section Dict.
Context {K V : Type} (eqk : K -> K -> bool).

Fixpoint dict_lookup (d : list (K * V)) (k : K) : option V :=
  match d with
  | [] => None
  | (k', v) :: r => if eqk k' k then Some v else dict_lookup r k
  end.

Definition dict_get (d : list (K * V)) (k : K) (default : V) : V :=
  match dict_lookup d k with Some v => v | None => default end.
End Dict.

(** The formats of dates used by the two services. *)
Module PyDateFormat.

(** [dt.isoformat()] *)
Definition isoformat (dt : date) : string :=
  (zfill 4 (year dt) ++ "-" ++ zfill 2 (month dt) ++ "-"
   ++ zfill 2 (day dt))%string.

(** [dt.strftime("%Y-%m-%d")] with the C library of Linux, which does
    not pad the year *)
Definition strftime_Y_m_d (dt : date) : string :=
  (str (year dt) ++ "-" ++ zfill 2 (month dt) ++ "-" ++ zfill 2 (day dt))%string.

Definition month_names : list string :=
  [""; "January"; "February"; "March"; "April"; "May"; "June"; "July";
   "August"; "September"; "October"; "November"; "December"].

(** [dt.strftime("%B %d")] in the C locale *)
Definition strftime_B_d (dt : date) : string :=
  (nth (Z.to_nat (month dt)) month_names "" ++ " " ++ zfill 2 (day dt))%string.

Definition isdigit (c : ascii) : bool := (48 <=? code c) && (code c <=? 57).
Definition digit (c : ascii) : Z := code c - 48.

(** The alternatives of a directive of [strptime], in the order the
    regular expression tries them: each is the value read and the text
    left. *)
Definition read_Y (s : string) : list (Z * string) :=
  match s with
  | String a (String b (String c (String d r)))  =>
      if isdigit a && isdigit b && isdigit c && isdigit d
      then [(1000 * digit a + 100 * digit b + 10 * digit c + digit d, r)]
      else []
  | _ => []
  end.

(** [1[0-2]|0[1-9]|[1-9]] *)
Definition read_m (s : string) : list (Z * string) :=
  match s with
  | String a r =>
      (match r with
       | String b r' =>
           (if (code a =? 49) && (48 <=? code b) && (code b <=? 50)
            then [(10 + digit b, r')] else [])
           ++ (if (code a =? 48) && (49 <=? code b) && (code b <=? 57)
               then [(digit b, r')] else [])
       | EmptyString => []
       end)
      ++ (if (49 <=? code a) && (code a <=? 57) then [(digit a, r)] else [])
  | EmptyString => []
  end.

(** [3[01]|[12]\d|0[1-9]|[1-9]| [1-9]] *)
Definition read_d (s : string) : list (Z * string) :=
  match s with
  | String a r =>
      (match r with
       | String b r' =>
           (if (code a =? 51) && (48 <=? code b) && (code b <=? 49)
            then [(30 + digit b, r')] else [])
           ++ (if (49 <=? code a) && (code a <=? 50) && isdigit b
               then [(10 * digit a + digit b, r')] else [])
           ++ (if (code a =? 48) && (49 <=? code b) && (code b <=? 57)
               then [(digit b, r')] else [])
       | EmptyString => []
       end)
      ++ (if (49 <=? code a) && (code a <=? 57) then [(digit a, r)] else [])
      ++ (match r with
          | String b r' =>
              if (code a =? 32) && (49 <=? code b) && (code b <=? 57)
              then [(digit b, r')] else []
          | EmptyString => []
          end)
  | EmptyString => []
  end.

Definition read_dash (s : string) : option string :=
  match s with
  | String c r => if code c =? 45 then Some r else None
  | EmptyString => None
  end.

Fixpoint first_some {A B} (f : A -> option B) (l : list A) : option B :=
  match l with
  | [] => None
  | a :: r => match f a with Some b => Some b | None => first_some f r end
  end.

(** The match of ["%Y-%m-%d"] against a prefix of [s]: the three fields
    and the text left over. *)
Definition match_Y_m_d (s : string) : option (Z * Z * Z * string) :=
  first_some (fun '(y, s1) =>
    s2 <- read_dash s1 ;;
    first_some (fun '(m, s3) =>
      s4 <- read_dash s3 ;;
      first_some (fun '(d, s5) => Some (y, m, d, s5)) (read_d s4))
      (read_m s2))
    (read_Y s).

(** [datetime.strptime(s, "%Y-%m-%d").date()]; [None] is [ValueError]
    (no match, text left unconverted, or fields that are no date). *)
Definition strptime_date (s : string) : option date :=
  match match_Y_m_d s with
  | Some (y, m, d, EmptyString) => new y m d
  | _ => None
  end.

(** What the services accept for a date: a string, a [date], or a
    [datetime] (a date and a time of day in microseconds). *)
Inductive date_arg :=
| ArgStr (s : string)
| ArgDate (d : date)
| ArgDatetime (d : date) (time_of_day : Z).

Definition to_date (a : date_arg) : option date :=
  match a with
  | ArgStr s => strptime_date s
  | ArgDate d => Some d
  | ArgDatetime d _ => Some d
  end.

End PyDateFormat.

Import PyDateFormat.

(* ================================================================== *)
(** ** [calendar_service.py]                                           *)
(* ================================================================== *)

Module Calendar.

(** Easter Sunday (Meeus/Jones/Butcher algorithm). *)
Definition _computus (year : Z) : option date :=
  let a := year mod 19 in
  let b := year / 100 in
  let c := year mod 100 in
  let d := b / 4 in
  let e := b mod 4 in
  let f := (b + 8) / 25 in
  let g := (b - f + 1) / 3 in
  let h := (19 * a + b - d - g + 15) mod 30 in
  let i := c / 4 in
  let k := c mod 4 in
  let l := (32 + 2 * e + 2 * i - h - k) mod 7 in
  let m := (a + 11 * h + 22 * l) / 451 in
  let month := (h + l - 7 * m + 114) / 31 in
  let day := ((h + l - 7 * m + 114) mod 31) + 1 in
  new year month day.

(** First Sunday of Advent for given year. *)
Definition _first_sunday_of_advent (year : Z) : option date :=
  christmas <- new year 12 25 ;;
  let days_to_sunday := (weekday christmas + 1) mod 7 in
  fourth_sunday <- sub_days christmas days_to_sunday ;;
  sub_days fourth_sunday (3 * 7).

(** RCL Year: A, B, or C.  Year A = years divisible by 3 (based on
    liturgical year start at Advent); [None] is an exception
    ([KeyError], or one of the date computations failing). *)
Definition calculate_rcl_year (dt : date) : option string :=
  advent <- _first_sunday_of_advent (PyDate.year dt) ;;
  let year := if geb dt advent then PyDate.year dt else PyDate.year dt - 1 in
  dict_lookup Z.eqb [(0, "A"); (1, "B"); (2, "C")] (year mod 3).

(** Daily Office lectionary year: One (odd) or Two (even). *)
Definition calculate_lectionary_year (dt : date) : option string :=
  advent <- _first_sunday_of_advent (PyDate.year dt) ;;
  let year := if geb dt advent then PyDate.year dt else PyDate.year dt - 1 in
  Some (if year mod 2 =? 1 then "Year One" else "Year Two").

(** Church of England -> Episcopal name mapping *)
Definition SEASON_MAP : list (string * string) :=
  [ ("Advent", "Advent");
    ("Christmas", "Christmas");
    ("Epiphany", "The Season after the Epiphany");
    ("before Lent", "The Season after the Epiphany");
    ("Lent", "Lent");
    ("Easter", "Easter");
    ("Pentecost", "The Season after Pentecost");
    ("before Advent", "The Season after Pentecost");
    ("Ordinary Time", "The Season after Pentecost") ].

Definition COLOUR_MAP : list (string * string) :=
  [ ("Advent", "Purple");
    ("Christmas", "White");
    ("The Season after the Epiphany", "Green");
    ("Lent", "Purple");
    ("Easter", "White");
    ("The Season after Pentecost", "Green") ].

Definition EPIPHANY_NAMES : list (Z * string) :=
  [ (1, "The First Sunday after the Epiphany: The Baptism of our Lord");
    (2, "The Second Sunday after the Epiphany");
    (3, "The Third Sunday after the Epiphany");
    (4, "The Fourth Sunday after the Epiphany");
    (5, "The Fifth Sunday after the Epiphany");
    (6, "The Sixth Sunday after the Epiphany");
    (7, "The Seventh Sunday after the Epiphany");
    (8, "The Eighth Sunday after the Epiphany");
    (9, "The Last Sunday after the Epiphany") ].

Definition LENT_NAMES : list (Z * string) :=
  [ (1, "The First Sunday in Lent");
    (2, "The Second Sunday in Lent");
    (3, "The Third Sunday in Lent");
    (4, "The Fourth Sunday in Lent");
    (5, "The Fifth Sunday in Lent");
    (6, "Palm Sunday") ].

Definition EASTER_NAMES : list (Z * string) :=
  [ (1, "Easter Day");
    (2, "The Second Sunday of Easter");
    (3, "The Third Sunday of Easter");
    (4, "The Fourth Sunday of Easter");
    (5, "The Fifth Sunday of Easter");
    (6, "The Sixth Sunday of Easter");
    (7, "The Sunday after the Ascension");
    (8, "The Day of Pentecost") ].

(** Map liturgical-calendar output to Episcopal BCP day name; [None] is
    the [IndexError] of [ordinals[...]]. *)
Definition _map_episcopal_name (season : string) (weekno : Z)
    (cal_name : string) : option string :=
  let mapped_season := dict_get String.eqb SEASON_MAP season season in
  if (mapped_season =? "Advent")%string then
    let ordinals := ["First"; "Second"; "Third"; "Fourth"] in
    if negb (weekno =? 0)%Z then
      o <- getitem ordinals (Z.min (weekno - 1) 3) ;;
      Some ("The " ++ o ++ " Sunday of Advent")
    else Some "Advent"
  else if (mapped_season =? "The Season after the Epiphany")%string then
    if ("Epiphany" =? cal_name)%string || (cal_name =? "The Epiphany")%string
    then Some "The Epiphany"
    else Some (dict_get Z.eqb EPIPHANY_NAMES weekno
                 ("The Season after the Epiphany (Week " ++ str weekno ++ ")"))
  else if (mapped_season =? "Lent")%string then
    Some (dict_get Z.eqb LENT_NAMES weekno ("Lent Week " ++ str weekno))
  else if (mapped_season =? "Easter")%string then
    Some (dict_get Z.eqb EASTER_NAMES weekno ("Easter Week " ++ str weekno))
  else if (mapped_season =? "The Season after Pentecost")%string then
    if negb (weekno =? 0)%Z && (0 <? weekno)%Z then
      let proper := weekno + 1 in
      Some ("Proper " ++ str proper ++ " (The Season after Pentecost)")
    else Some "The Season after Pentecost"
  else Some (if truthy cal_name then cal_name else mapped_season).

(** What the [liturgical_calendar] package answers: a dictionary of
    which the service reads three keys; [None] is an absent key. *)
Record cal_dict := mkcal {
  cal_season : option string;
  cal_weekno : option Z;
  cal_name : option string
}.

Definition or_default {A} (o : option A) (d : A) : A :=
  match o with Some a => a | None => d end.

(** The external calendar authority: whether the import succeeded and,
    if so, the function; its [None] is a raised exception. *)
Record authority := mkauthority {
  HAS_LITURGICAL_PKG : bool;
  liturgical_calendar : string -> option cal_dict
}.

(** The dictionary [get_calendar_info] returns; [raw_calendar] is
    present on the package path only. *)
Record calendar_info := mkinfo {
  info_date : string;
  is_sunday : bool;
  rcl_year : string;
  lectionary_year : string;
  easter_date : string;
  day_name : string;
  season : string;
  colour : string;
  raw_calendar : option cal_dict
}.

(** The season of the built-in calculator (the fallback of
    [get_calendar_info]). *)
Definition fallback_season (dt : date) : option string :=
  easter_dt <- _computus (year dt) ;;
  ash_wed <- sub_days easter_dt 46 ;;
  pentecost <- add_days easter_dt 49 ;;
  advent <- _first_sunday_of_advent (year dt) ;;
  epiphany <- new (year dt) 1 6 ;;
  if geb dt advent then Some "Advent"
  else
    christmas <- new (year dt) 12 25 ;;
    if geb dt christmas then Some "Christmas"
    else if ltb dt epiphany then Some "Christmas"
    else if ltb dt ash_wed then Some "The Season after the Epiphany"
    else if ltb dt easter_dt then Some "Lent"
    else if ltb dt pentecost then Some "Easter"
    else Some "The Season after Pentecost".

(** The package path of [get_calendar_info]: the body of its [try];
    [None] is an exception, caught by the [except] clause. *)
Definition package_path (pkg : authority) (dt : date)
    (date_s : string) (sunday : bool) (rcl lect easter : string)
    : option calendar_info :=
  cal <- liturgical_calendar pkg (strftime_Y_m_d dt) ;;
  let pkg_season := or_default (cal_season cal) "" in
  let weekno := or_default (cal_weekno cal) 0 in
  let cal_name := or_default (cal_name cal) "" in
  let mapped_season := dict_get String.eqb SEASON_MAP pkg_season pkg_season in
  day_name <- _map_episcopal_name pkg_season weekno cal_name ;;
  Some (mkinfo date_s sunday rcl lect easter day_name mapped_season
          (dict_get String.eqb COLOUR_MAP mapped_season "Green") (Some cal)).

(** Return full liturgical calendar info for a date; [None] is an
    exception raised to the caller. *)
Definition get_calendar_info (pkg : authority) (arg : date_arg)
    : option calendar_info :=
  dt <- to_date arg ;;
  rcl <- calculate_rcl_year dt ;;
  lect <- calculate_lectionary_year dt ;;
  easter <- _computus (year dt) ;;
  let date_s := isoformat dt in
  let sunday := weekday dt =? 6 in
  let easter_s := isoformat easter in
  match
    (if HAS_LITURGICAL_PKG pkg
     then package_path pkg dt date_s sunday rcl lect easter_s
     else None)
  with
  | Some result => Some result
  | None =>
      season <- fallback_season dt ;;
      Some (mkinfo date_s sunday rcl lect easter_s season season
              (dict_get String.eqb COLOUR_MAP season "Green") None)
  end.

End Calendar.

Import Calendar.

(* ================================================================== *)
(** ** Vocabulary of the specification                                 *)
(* ================================================================== *)

Module Spec.

(** The first Sunday of Advent: walk backward from December 25 to the
    preceding Sunday (one day back from a Monday, seven from a Sunday),
    then subtract three full weeks. *)
Definition first_sunday_of_advent (Y : Z) : option date :=
  christmas <- new Y 12 25 ;;
  sub_days christmas (weekday christmas + 1 + 3 * 7).

(** The liturgical year of a date: its calendar year, shifted back by
    one if the date precedes that year's first Sunday of Advent. *)
Definition liturgical_year (D : date) : option Z :=
  advent <- first_sunday_of_advent (year D) ;;
  Some (if geb D advent then year D else year D - 1).

(** The week in which the service has not yet begun Advent although it
    has begun: November 27 to December 3 of a year whose Christmas Day
    is a Sunday. *)
Definition late_advent_week (D : date) : Prop :=
  weekday (mkdate (year D) 12 25) = 6
  /\ ((month D = 11 /\ 27 <= day D) \/ (month D = 12 /\ day D <= 3)).

(** [{0:"A", 1:"B", 2:"C"}[L mod 3]] *)
Definition sunday_cycle (L : Z) : string :=
  if L mod 3 =? 0 then "A" else if L mod 3 =? 1 then "B" else "C".

(** The daily-office cycle with the labels of the service. *)
Definition daily_cycle (L : Z) : string :=
  if Z.odd L then "Year One" else "Year Two".

(** The daily-office cycle with the bare labels. *)
Definition daily_cycle_bare (L : Z) : string :=
  if Z.odd L then "One" else "Two".

(** [lo <= d <= hi] within one year, by month and day. *)
Definition between (lo_m lo_d hi_m hi_d : Z) (d : date) : Prop :=
  (lo_m < month d \/ (month d = lo_m /\ lo_d <= day d))
  /\ (month d < hi_m \/ (month d = hi_m /\ day d <= hi_d)).

(** No calendar authority is installed. *)
Definition no_authority : authority := mkauthority false (fun _ => None).

(** A calendar authority whose every call raises. *)
Definition raising_authority : authority := mkauthority true (fun _ => None).

End Spec.

Import Spec.

(** Integers [lo, lo + 1, ..., lo + n - 1], for checks over a range of
    years. *)
Fixpoint Zrange (lo : Z) (n : nat) : list Z :=
  match n with
  | O => []
  | S k => lo :: Zrange (lo + 1) k
  end.

(** The checks a year passes: Easter exists, is a Sunday of that year
    between March 22 and April 25, and the dates derived from it exist. *)
Definition easter_check (y : Z) : bool :=
  match _computus y with
  | Some d =>
      (year d =? y) && (weekday d =? 6)
      && (((month d =? 3) && (22 <=? day d)) || ((month d =? 4) && (day d <=? 25)))
      && match sub_days d 46, add_days d 49 with
         | Some _, Some _ => true
         | _, _ => false
         end
  | None => false
  end.

(** The first Sunday of Advent of a year is a Sunday of that year from
    November 27 to December 3; the service computes the same date, except
    when Christmas Day is a Sunday: then Advent begins on November 27 and
    the service computes December 4. *)
Definition advent_agreement_check (y : Z) : bool :=
  match first_sunday_of_advent y, _first_sunday_of_advent y with
  | Some a, Some c =>
      (year a =? y) && (weekday a =? 6)
      && (((month a =? 11) && (27 <=? day a)) || ((month a =? 12) && (day a <=? 3)))
      && (if weekday (mkdate y 12 25) =? 6
          then eqb a (mkdate y 11 27) && eqb c (mkdate y 12 4)
          else eqb a c)
  | _, _ => false
  end.

(** The first Sunday of Advent the service computes exists, is a Sunday
    of that year, and lies between November 28 and December 4. *)
Definition advent_check (y : Z) : bool :=
  match _first_sunday_of_advent y with
  | Some d =>
      (year d =? y) && (weekday d =? 6)
      && (((month d =? 11) && (28 <=? day d)) || ((month d =? 12) && (day d <=? 4)))
  | None => false
  end.

(* ================================================================== *)
(** ** Python values that JSON can carry                               *)
(* ================================================================== *)

Module Json.

(** [None], [bool], [int], [str], [list] and [dict] with string keys; a
    [dict] is the list of its items in insertion order. *)
#[warnings="-register-all"] Inductive value :=
| JNull
| JBool (b : bool)
| JNum (n : Z)
| JStr (s : string)
| JArr (l : list value)
| JObj (items : list (string * value)).

(** [bool(v)] *)
Definition truth (v : value) : bool :=
  match v with
  | JNull => false
  | JBool b => b
  | JNum n => negb (n =? 0)
  | JStr s => truthy s
  | JArr l => match l with [] => false | _ => true end
  | JObj items => match items with [] => false | _ => true end
  end.

(** [d[k] = x] on the items of a [dict]: a present key keeps its place. *)
Fixpoint items_set (items : list (string * value)) (k : string) (x : value)
    : list (string * value) :=
  match items with
  | [] => [(k, x)]
  | (k', v) :: r =>
      if (k' =? k)%string then (k, x) :: r else (k', v) :: items_set r k x
  end.

(** [v[k] = x] for a string [k]; [None] is [TypeError] (only a [dict]
    takes a string subscript). *)
Definition setitem (v : value) (k : string) (x : value) : option value :=
  match v with
  | JObj items => Some (JObj (items_set items k x))
  | _ => None
  end.

(** [v[k]] for a string [k] on a [dict]. *)
Definition getitem (v : value) (k : string) : option value :=
  match v with
  | JObj items => dict_lookup String.eqb items k
  | _ => None
  end.

(** [v.get(k, default)]; [None] is [AttributeError] (only a [dict] has
    [get]). *)
Definition get (v : value) (k : string) (default : value) : option value :=
  match v with
  | JObj items => Some (dict_get String.eqb items k default)
  | _ => None
  end.

(** [v == s] for a string [s] *)
Definition eq_str (v : value) (s : string) : bool :=
  match v with
  | JStr s' => (s' =? s)%string
  | _ => false
  end.

(** The elements [for x in v] visits; [None] is [TypeError] (not
    iterable). *)
Definition iterate (v : value) : option (list value) :=
  match v with
  | JArr l => Some l
  | JObj items => Some (map (fun kv => JStr (fst kv)) items)
  | JStr s =>
      Some (map (fun c => JStr (String c EmptyString)) (list_ascii_of_string s))
  | _ => None
  end.

(** [json.dumps] and [json.loads]; the [None] of [loads] is
    [JSONDecodeError]. *)
Class Codec := {
  dumps : value -> string;
  loads : string -> option value
}.

End Json.

Import Json.

(** A codec in the default format of Python's [json] module, for values
    without floats: [", "] and [": "] as separators, and every character
    outside the printable ASCII range escaped. *)
Module PyJson.

Definition dquote : string := String (chr 34) EmptyString.
Definition backslash : ascii := chr 92.

Definition hex_digit (n : Z) : ascii :=
  if n <? 10 then chr (48 + n) else chr (87 + n).

Definition escape_char (c : ascii) : string :=
  let n := code c in
  let esc (x : string) := String backslash x in
  if n =? 34 then esc dquote
  else if n =? 92 then esc (String backslash EmptyString)
  else if n =? 10 then esc "n"
  else if n =? 13 then esc "r"
  else if n =? 9 then esc "t"
  else if n =? 8 then esc "b"
  else if n =? 12 then esc "f"
  else if (32 <=? n) && (n <=? 126) then String c EmptyString
  else esc (String "u" (String "0" (String "0"
         (String (hex_digit (n / 16))
            (String (hex_digit (n mod 16)) EmptyString))))).

Fixpoint escape (s : string) : string :=
  match s with
  | EmptyString => EmptyString
  | String c r => (escape_char c ++ escape r)%string
  end.

Definition quote (s : string) : string := (dquote ++ escape s ++ dquote)%string.

Fixpoint join (sep : string) (l : list string) : string :=
  match l with
  | [] => EmptyString
  | [x] => x
  | x :: r => (x ++ sep ++ join sep r)%string
  end.

Fixpoint print (v : value) : string :=
  match v with
  | JNull => "null"
  | JBool true => "true"
  | JBool false => "false"
  | JNum n => str n
  | JStr s => quote s
  | JArr l => ("[" ++ join ", " (map print l) ++ "]")%string
  | JObj items =>
      ("{" ++ join ", "
                (map (fun kv => (quote (fst kv) ++ ": " ++ print (snd kv))%string)
                   items)
           ++ "}")%string
  end.

Definition is_ws (c : ascii) : bool :=
  let n := code c in (n =? 32) || (n =? 9) || (n =? 10) || (n =? 13).

Fixpoint skip_ws (s : string) : string :=
  match s with
  | String c r => if is_ws c then skip_ws r else s
  | EmptyString => EmptyString
  end.

Definition hex_value (c : ascii) : option Z :=
  let n := code c in
  if (48 <=? n) && (n <=? 57) then Some (n - 48)
  else if (97 <=? n) && (n <=? 102) then Some (n - 87)
  else if (65 <=? n) && (n <=? 70) then Some (n - 55)
  else None.

(** The text of a string literal after its opening quote. *)
Fixpoint read_string (s : string) : option (string * string) :=
  match s with
  | EmptyString => None
  | String c r =>
      if code c =? 34 then Some (EmptyString, r)
      else if code c =? 92 then
        match r with
        | String e r1 =>
            let continue (x : ascii) (rest : string) :=
              match read_string rest with
              | Some (t, rest') => Some (String x t, rest')
              | None => None
              end in
            let n := code e in
            if n =? 34 then continue (chr 34) r1
            else if n =? 92 then continue (chr 92) r1
            else if n =? 47 then continue (chr 47) r1
            else if n =? 110 then continue (chr 10) r1
            else if n =? 114 then continue (chr 13) r1
            else if n =? 116 then continue (chr 9) r1
            else if n =? 98 then continue (chr 8) r1
            else if n =? 102 then continue (chr 12) r1
            else if n =? 117 then
              match r1 with
              | String a (String b (String x (String y r2))) =>
                  match hex_value a, hex_value b, hex_value x, hex_value y with
                  | Some 0, Some 0, Some h, Some l => continue (chr (16 * h + l)) r2
                  | _, _, _, _ => None
                  end
              | _ => None
              end
            else None
        | EmptyString => None
        end
      else if code c <? 32 then None
      else
        match read_string r with
        | Some (t, rest) => Some (String c t, rest)
        | None => None
        end
  end.

Fixpoint read_digits (acc : Z) (s : string) : Z * string :=
  match s with
  | String c r => if isdigit c then read_digits (10 * acc + digit c) r else (acc, s)
  | EmptyString => (acc, s)
  end.

Definition read_number (s : string) : option (value * string) :=
  match s with
  | String c r =>
      if code c =? 45 then
        match r with
        | String d _ =>
            if isdigit d then
              let '(n, rest) := read_digits 0 r in Some (JNum (- n), rest)
            else None
        | EmptyString => None
        end
      else if isdigit c then
        let '(n, rest) := read_digits 0 s in Some (JNum n, rest)
      else None
  | EmptyString => None
  end.

Definition read_literal (lit : string) (v : value) (s : string)
    : option (value * string) :=
  if startswith lit s
  then Some (v, substring (String.length lit) (String.length s) s)
  else None.

(** The value at the head of [s] and the text after it; [fuel] bounds
    the number of nested and successive values. *)
Fixpoint read_value (fuel : nat) (s : string) : option (value * string) :=
  match fuel with
  | O => None
  | S fuel =>
      match skip_ws s with
      | String c r =>
          let n := code c in
          if n =? 123 then
            match skip_ws r with
            | String c' r' =>
                if code c' =? 125 then Some (JObj [], r')
                else read_members fuel (skip_ws r) []
            | EmptyString => None
            end
          else if n =? 91 then
            match skip_ws r with
            | String c' r' =>
                if code c' =? 93 then Some (JArr [], r')
                else read_elements fuel r []
            | EmptyString => None
            end
          else if n =? 34 then
            match read_string r with
            | Some (t, rest) => Some (JStr t, rest)
            | None => None
            end
          else if n =? 116 then read_literal "true" (JBool true) (String c r)
          else if n =? 102 then read_literal "false" (JBool false) (String c r)
          else if n =? 110 then read_literal "null" JNull (String c r)
          else read_number (String c r)
      | EmptyString => None
      end
  end

with read_elements (fuel : nat) (s : string) (acc : list value)
    : option (value * string) :=
  match fuel with
  | O => None
  | S fuel =>
      match read_value fuel s with
      | Some (v, rest) =>
          match skip_ws rest with
          | String c r =>
              if code c =? 44 then read_elements fuel r (v :: acc)
              else if code c =? 93 then Some (JArr (rev (v :: acc)), r)
              else None
          | EmptyString => None
          end
      | None => None
      end
  end

with read_members (fuel : nat) (s : string) (acc : list (string * value))
    : option (value * string) :=
  match fuel with
  | O => None
  | S fuel =>
      match s with
      | String q r =>
          if code q =? 34 then
            match read_string r with
            | Some (k, rest) =>
                match skip_ws rest with
                | String c r1 =>
                    if code c =? 58 then
                      match read_value fuel r1 with
                      | Some (v, rest1) =>
                          match skip_ws rest1 with
                          | String c2 r2 =>
                              if code c2 =? 44
                              then read_members fuel (skip_ws r2) (items_set acc k v)
                              else if code c2 =? 125
                              then Some (JObj (items_set acc k v), r2)
                              else None
                          | EmptyString => None
                          end
                      | None => None
                      end
                    else None
                | EmptyString => None
                end
            | None => None
            end
          else None
      | EmptyString => None
      end
  end.

Definition parse (s : string) : option value :=
  match read_value (S (String.length s)) s with
  | Some (v, rest) =>
      match skip_ws rest with
      | EmptyString => Some v
      | _ => None
      end
  | None => None
  end.

#[export] Instance codec : Codec := {| dumps := print; loads := parse |}.

End PyJson.

(* ================================================================== *)
(** ** [lectionary_service.py]                                         *)
(* ================================================================== *)

Module Lectionary.

(** Built-in Year A readings (RCL).  Ordered list: most specific
    patterns first to avoid substring collisions. *)
Definition BUILTIN_YEAR_A : list (string * value) :=
  [
    ("The First Sunday of Advent",
     JObj
      [("first_lesson", JStr "Isaiah 2:1-5");
       ("psalm", JStr "Psalm 122");
       ("second_lesson", JStr "Romans 13:11-14");
       ("gospel", JStr "Matthew 24:36-44")]);
    ("The Second Sunday of Advent",
     JObj
      [("first_lesson", JStr "Isaiah 11:1-10");
       ("psalm", JStr "Psalm 72:1-7, 18-19");
       ("second_lesson", JStr "Romans 15:4-13");
       ("gospel", JStr "Matthew 3:1-12")]);
    ("The Third Sunday of Advent",
     JObj
      [("first_lesson", JStr "Isaiah 35:1-10");
       ("psalm", JStr "Psalm 146:4-9 or Canticle 15");
       ("second_lesson", JStr "James 5:7-10");
       ("gospel", JStr "Matthew 11:2-11")]);
    ("The Fourth Sunday of Advent",
     JObj
      [("first_lesson", JStr "Isaiah 7:10-16");
       ("psalm", JStr "Psalm 80:1-7, 16-18");
       ("second_lesson", JStr "Romans 1:1-7");
       ("gospel", JStr "Matthew 1:18-25")]);
    ("Christmas",
     JObj
      [("first_lesson", JStr "Isaiah 9:2-7");
       ("psalm", JStr "Psalm 96");
       ("second_lesson", JStr "Titus 2:11-14");
       ("gospel", JStr "Luke 2:1-20")]);
    ("The Epiphany",
     JObj
      [("first_lesson", JStr "Isaiah 60:1-6");
       ("psalm", JStr "Psalm 72:1-7, 10-14");
       ("second_lesson", JStr "Ephesians 3:1-12");
       ("gospel", JStr "Matthew 2:1-12")]);
    ("The First Sunday after the Epiphany",
     JObj
      [("first_lesson", JStr "Isaiah 42:1-9");
       ("psalm", JStr "Psalm 29");
       ("second_lesson", JStr "Acts 10:34-43");
       ("gospel", JStr "Matthew 3:13-17")]);
    ("The Second Sunday after the Epiphany",
     JObj
      [("first_lesson", JStr "Isaiah 49:1-7");
       ("psalm", JStr "Psalm 40:1-12");
       ("second_lesson", JStr "1 Corinthians 1:1-9");
       ("gospel", JStr "John 1:29-42")]);
    ("The Third Sunday after the Epiphany",
     JObj
      [("first_lesson", JStr "Isaiah 9:1-4");
       ("psalm", JStr "Psalm 27:1, 5-13");
       ("second_lesson", JStr "1 Corinthians 1:10-18");
       ("gospel", JStr "Matthew 4:12-23")]);
    ("The Fourth Sunday after the Epiphany",
     JObj
      [("first_lesson", JStr "Micah 6:1-8");
       ("psalm", JStr "Psalm 15");
       ("second_lesson", JStr "1 Corinthians 1:18-31");
       ("gospel", JStr "Matthew 5:1-12")]);
    ("The Fifth Sunday after the Epiphany",
     JObj
      [("first_lesson", JStr "Isaiah 58:1-9a");
       ("psalm", JStr "Psalm 112:1-9");
       ("second_lesson", JStr "1 Corinthians 2:1-12");
       ("gospel", JStr "Matthew 5:13-20")]);
    ("The Sixth Sunday after the Epiphany",
     JObj
      [("first_lesson", JStr "Deuteronomy 30:15-20");
       ("psalm", JStr "Psalm 119:1-8");
       ("second_lesson", JStr "1 Corinthians 3:1-9");
       ("gospel", JStr "Matthew 5:21-37")]);
    ("The Seventh Sunday after the Epiphany",
     JObj
      [("first_lesson", JStr "Leviticus 19:1-2, 9-18");
       ("psalm", JStr "Psalm 119:33-40");
       ("second_lesson", JStr "1 Corinthians 3:10-11, 16-23");
       ("gospel", JStr "Matthew 5:38-48")]);
    ("The Last Sunday after the Epiphany",
     JObj
      [("first_lesson", JStr "Exodus 24:12-18");
       ("psalm", JStr "Psalm 2 or Psalm 99");
       ("second_lesson", JStr "2 Peter 1:16-21");
       ("gospel", JStr "Matthew 17:1-9")]);
    ("The First Sunday in Lent",
     JObj
      [("first_lesson", JStr "Genesis 2:15-17; 3:1-7");
       ("psalm", JStr "Psalm 32");
       ("second_lesson", JStr "Romans 5:12-19");
       ("gospel", JStr "Matthew 4:1-11")]);
    ("The Second Sunday in Lent",
     JObj
      [("first_lesson", JStr "Genesis 12:1-4a");
       ("psalm", JStr "Psalm 121");
       ("second_lesson", JStr "Romans 4:1-5, 13-17");
       ("gospel", JStr "John 3:1-17")]);
    ("The Third Sunday in Lent",
     JObj
      [("first_lesson", JStr "Exodus 17:1-7");
       ("psalm", JStr "Psalm 95");
       ("second_lesson", JStr "Romans 5:1-11");
       ("gospel", JStr "John 4:5-42")]);
    ("The Fourth Sunday in Lent",
     JObj
      [("first_lesson", JStr "1 Samuel 16:1-13");
       ("psalm", JStr "Psalm 23");
       ("second_lesson", JStr "Ephesians 5:8-14");
       ("gospel", JStr "John 9:1-41")]);
    ("The Fifth Sunday in Lent",
     JObj
      [("first_lesson", JStr "Ezekiel 37:1-14");
       ("psalm", JStr "Psalm 130");
       ("second_lesson", JStr "Romans 8:6-11");
       ("gospel", JStr "John 11:1-45")]);
    ("Palm Sunday",
     JObj
      [("first_lesson", JStr "Isaiah 50:4-9a");
       ("psalm", JStr "Psalm 31:9-16");
       ("second_lesson", JStr "Philippians 2:5-11");
       ("gospel", JStr "Matthew 26:14-27:66")]);
    ("Easter Day",
     JObj
      [("first_lesson", JStr "Acts 10:34-43");
       ("psalm", JStr "Psalm 118:1-2, 14-24");
       ("second_lesson", JStr "Colossians 3:1-4");
       ("gospel", JStr "Matthew 28:1-10")]);
    ("The Second Sunday of Easter",
     JObj
      [("first_lesson", JStr "Acts 2:14a, 22-32");
       ("psalm", JStr "Psalm 16");
       ("second_lesson", JStr "1 Peter 1:3-9");
       ("gospel", JStr "John 20:19-31")]);
    ("The Third Sunday of Easter",
     JObj
      [("first_lesson", JStr "Acts 2:14a, 36-41");
       ("psalm", JStr "Psalm 116:1-3, 10-17");
       ("second_lesson", JStr "1 Peter 1:17-23");
       ("gospel", JStr "Luke 24:13-35")]);
    ("The Day of Pentecost",
     JObj
      [("first_lesson", JStr "Acts 2:1-21");
       ("psalm", JStr "Psalm 104:25-35, 37");
       ("second_lesson", JStr "1 Corinthians 12:3b-13");
       ("gospel", JStr "John 20:19-23")]);
    ("Trinity Sunday",
     JObj
      [("first_lesson", JStr "Genesis 1:1-2:4a");
       ("psalm", JStr "Psalm 8");
       ("second_lesson", JStr "2 Corinthians 13:11-13");
       ("gospel", JStr "Matthew 28:16-20")])
  ].

(** The Redis server behind [self.redis_client]: whether its commands
    succeed, and for each key the time-to-live it was set with and its
    text. *)
Record redis := mkredis {
  redis_up : bool;
  redis_data : list (string * (Z * string))
}.

(** [client.get(key)]; the outer [None] is an exception. *)
Definition redis_get (r : redis) (key : string) : option (option string) :=
  if redis_up r
  then Some (match dict_lookup String.eqb (redis_data r) key with
             | Some (_, data) => Some data
             | None => None
             end)
  else None.

(** [client.setex(key, ttl, text)]; [None] is an exception. *)
Definition redis_setex (r : redis) (key : string) (ttl : Z) (text : string)
    : option redis :=
  if redis_up r
  then Some (mkredis true
               ((key, (ttl, text))
                :: filter (fun e => negb (fst e =? key)%string) (redis_data r)))
  else None.

Inductive file :=
| Missing
| Unreadable
| Content (text : string).

(** The service object and what it reaches: the cache client (absent
    when no URL was given or the connection failed), the path of the
    daily-office repository, the base URL of LectServe, the files on
    disk, whether [httpx] can be imported, and the answer of
    [httpx.get(url, timeout=10.0)] as status and body ([None] is a
    transport error or a timeout). *)
Record service := mkservice {
  redis_client : option redis;
  daily_office_path : option string;
  lectserve_base : string;
  files : string -> file;
  has_httpx : bool;
  http_get : string -> option (Z * string)
}.

Definition with_redis (self : service) (r : redis) : service :=
  mkservice (Some r) (daily_office_path self) (lectserve_base self)
    (files self) (has_httpx self) (http_get self).

Section WithCodec.
Context {json : Codec}.

(** *** Tier 1: Redis Cache *)

(** [None] of Python is [JNull] here, as in every tier. *)
Definition _cache_get (self : service) (key : string) : value :=
match redis_client self with
| None => JNull
| Some client =>
    match redis_get client key with
    | Some (Some data) =>
        if truthy data
        then match loads data with Some v => v | None => JNull end
        else JNull
    | Some None => JNull
    | None => JNull
    end
end.

Definition default_ttl : Z := 86400 * 7.

Definition _cache_set (self : service) (key : string) (data : value)
  : service :=
match redis_client self with
| None => self
| Some client =>
    match redis_setex client key default_ttl (dumps data) with
    | Some client' => with_redis self client'
    | None => self
    end
end.

(** *** Tier 2: Local JSON (daily-office repo) *)

(** The loop over the offices; the outer [None] is an exception
  ([AttributeError] on an element that is no [dict]). *)
Fixpoint find_office (offices : list value) (target : string)
  : option (option value) :=
match offices with
| [] => Some None
| office :: rest =>
    match get office "day" (JStr "") with
    | Some d =>
        if eq_str d target then Some (Some office)
        else find_office rest target
    | None => None
    end
end.

Definition _lookup_daily_office (self : service) (dt : date) : value :=
match daily_office_path self with
| None => JNull
| Some path =>
    let attempt : option value :=
      let json_dir := (path ++ "/json/readings")%string in
      advent <- new (year dt) 11 27 ;;
      let year_num := if ltb dt advent then year dt - 1 else year dt in
      let filename :=
        if year_num mod 2 =? 1 then "year-one.json" else "year-two.json" in
      let filepath := (json_dir ++ "/" ++ filename)%string in
      match files self filepath with
      | Missing => Some JNull
      | Unreadable => None
      | Content text =>
          offices <- loads text ;;
          let target := replace " 0" " " (strftime_B_d dt) in
          elements <- iterate offices ;;
          found <- find_office elements target ;;
          match found with
          | Some office =>
              Some (JObj [("source", JStr "daily-office-json");
                          ("readings", office)])
          | None => Some JNull
          end
      end in
    match attempt with
    | Some v => v
    | None => JNull
    end
end.

(** *** Tier 3: LectServe API *)

Definition _lookup_lectserve (self : service) (dt : date) : value :=
let attempt : option value :=
  if has_httpx self then
    let url :=
      (lectserve_base self ++ "/date/" ++ isoformat dt ++ "?lect=rcl")%string in
    resp <- http_get self url ;;
    if fst resp =? 200 then
      data <- loads (snd resp) ;;
      Some (JObj [("source", JStr "lectserve"); ("readings", data)])
    else Some JNull
  else None in
match attempt with
| Some v => v
| None => JNull
end.

(** *** Tier 4: Built-in Year A data *)

Definition builtin_result (readings : value) : value :=
JObj [("source", JStr "builtin-year-a"); ("readings", readings)].

(** One turn of the partial-match loop on [(best_match, best_len)]. *)
Definition partial_step (name_lower : string) (best : value * Z)
  (entry : string * value) : value * Z :=
let '(pattern, readings) := entry in
let p_lower := lower pattern in
if contains p_lower name_lower && (snd best <? len p_lower)
then (builtin_result readings, len p_lower)
else best.

(** Ordered pattern matching to avoid substring collisions. *)
Definition _lookup_builtin (day_name : string) : value :=
if negb (truthy day_name) then JNull
else
  let name_lower := strip (lower day_name) in
  match
    find (fun entry => (lower (fst entry) =? name_lower)%string) BUILTIN_YEAR_A
  with
  | Some (_, readings) => builtin_result readings
  | None =>
      (* Partial match fallback (longest match wins) *)
      fst (fold_left (partial_step name_lower) BUILTIN_YEAR_A (JNull, 0))
  end.

(** *** Public API *)

Inductive exn := ValueError | TypeError.

Inductive outcome :=
| Raised (e : exn)
| Returned (v : value).

Definition no_readings : value :=
JObj [("source", JStr "none"); ("readings", JNull);
      ("message", JStr "No readings found")].

(** Get RCL readings for a date using 4-tier strategy: the outcome of
  the call and the service after it. *)
Definition get_readings (self : service) (arg : date_arg)
  (day_name : option string) : outcome * service :=
match to_date arg with
| None => (Raised ValueError, self)
| Some dt =>
    let cache_key := ("rcl:" ++ isoformat dt)%string in
    (* Tier 1: Redis *)
    let cached := _cache_get self cache_key in
    if truth cached then
      match setitem cached "source" (JStr "redis-cache") with
      | Some cached' => (Returned cached', self)
      | None => (Raised TypeError, self)
      end
    else
      (* Tier 2: Local JSON *)
      let result := _lookup_daily_office self dt in
      (* Tier 3: LectServe API *)
      let result :=
        if negb (truth result) then _lookup_lectserve self dt else result in
      (* Tier 4: Built-in *)
      let result :=
        match day_name with
        | Some name =>
            if negb (truth result) && truthy name
            then _lookup_builtin name else result
        | None => result
        end in
      if truth result
      then (Returned result, _cache_set self cache_key result)
      else (Returned no_readings, self)
end.

End WithCodec.

End Lectionary.

Import Lectionary.

(* ================================================================== *)
(** ** Vocabulary of the specification: the reading lookup             *)
(* ================================================================== *)

Module ReadingSpec.

(** The entry's name equals the stripped day name, case-insensitively. *)
Definition exact_match (day_name : string) (e : string * value) : Prop :=
  lower (fst e) = lower (strip day_name).

(** The entry's case-folded name is a substring of the case-folded day
    name. *)
Definition candidate (day_name : string) (e : string * value) : Prop :=
  contains (lower (fst e)) (lower day_name) = true.

(** Entry [e], at place [i] of the table, comes first when the
    candidates are ranked by length of name, longest first, and then by
    place in the table. *)
Definition ranked_first (day_name : string) (i : nat) (e : string * value)
    : Prop :=
  nth_error BUILTIN_YEAR_A i = Some e
  /\ candidate day_name e
  /\ forall j e',
       nth_error BUILTIN_YEAR_A j = Some e' -> candidate day_name e' ->
       len (fst e') < len (fst e)
       \/ (len (fst e') = len (fst e) /\ (i <= j)%nat).

(** The key of the cache entry of a date. *)
Definition cache_key (dt : date) : string := ("rcl:" ++ isoformat dt)%string.

(** The entry of the cache under a key, if the cache can be read. *)
Definition cache_entry (self : service) (key : string)
    : option (Z * string) :=
  match redis_client self with
  | Some r => if redis_up r then dict_lookup String.eqb (redis_data r) key
              else None
  | None => None
  end.

(** The cache is empty or unreachable. *)
Definition cache_silent (self : service) (key : string) : Prop :=
  cache_entry self key = None.

(** The local dataset is unavailable: not configured, or its files are
    absent or cannot be read. *)
Definition dataset_unavailable (self : service) : Prop :=
  daily_office_path self = None
  \/ forall p text, files self p <> Content text.

(** The remote service is unreachable. *)
Definition remote_unreachable (self : service) : Prop :=
  has_httpx self = false \/ forall url, http_get self url = None.

(** The dataset file the local tier opens for a date. *)
Definition dataset_file (path : string) (dt : date) : string :=
  let year_num :=
    if ltb dt (mkdate (year dt) 11 27) then year dt - 1 else year dt in
  let filename :=
    if year_num mod 2 =? 1 then "year-one.json" else "year-two.json" in
  ((path ++ "/json/readings") ++ "/" ++ filename)%string.

(** The day key the local tier looks for. *)
Definition dataset_day (dt : date) : string :=
  replace " 0" " " (strftime_B_d dt).

(** The URL the remote tier requests. *)
Definition lectserve_url (self : service) (dt : date) : string :=
  (lectserve_base self ++ "/date/" ++ isoformat dt ++ "?lect=rcl")%string.

Section Misses.
Context {json : Codec}.

(** The ways the cache tier misses. *)
Inductive cache_miss (self : service) (key : string) : Prop :=
| cache_not_configured :
  redis_client self = None -> cache_miss self key
| cache_failing r :
  redis_client self = Some r -> redis_up r = false -> cache_miss self key
| cache_no_entry r :
  redis_client self = Some r ->
  dict_lookup String.eqb (redis_data r) key = None -> cache_miss self key
| cache_empty_payload r ttl :
  redis_client self = Some r ->
  dict_lookup String.eqb (redis_data r) key = Some (ttl, EmptyString) ->
  cache_miss self key
| cache_malformed_payload r ttl data :
  redis_client self = Some r ->
  dict_lookup String.eqb (redis_data r) key = Some (ttl, data) ->
  loads data = None -> cache_miss self key
| cache_false_payload r ttl data v :
  redis_client self = Some r ->
  dict_lookup String.eqb (redis_data r) key = Some (ttl, data) ->
  loads data = Some v -> truth v = false -> cache_miss self key.

(** No element of the list is a [dict] whose ["day"] is the target, up
  to the end of the list or to the first element that is no [dict]. *)
Inductive no_office (target : string) : list value -> Prop :=
| no_office_end : no_office target []
| no_office_bad office rest :
  get office "day" (JStr "") = None -> no_office target (office :: rest)
| no_office_next office rest d :
  get office "day" (JStr "") = Some d -> eq_str d target = false ->
  no_office target rest -> no_office target (office :: rest).

(** The ways the local-dataset tier misses. *)
Inductive dataset_miss (self : service) (dt : date) : Prop :=
| dataset_not_configured :
  daily_office_path self = None -> dataset_miss self dt
| dataset_file_missing path :
  daily_office_path self = Some path ->
  files self (dataset_file path dt) = Missing -> dataset_miss self dt
| dataset_file_unreadable path :
  daily_office_path self = Some path ->
  files self (dataset_file path dt) = Unreadable -> dataset_miss self dt
| dataset_file_corrupt path text :
  daily_office_path self = Some path ->
  files self (dataset_file path dt) = Content text ->
  loads text = None -> dataset_miss self dt
| dataset_not_iterable path text offices :
  daily_office_path self = Some path ->
  files self (dataset_file path dt) = Content text ->
  loads text = Some offices -> iterate offices = None ->
  dataset_miss self dt
| dataset_no_entry path text offices elements :
  daily_office_path self = Some path ->
  files self (dataset_file path dt) = Content text ->
  loads text = Some offices -> iterate offices = Some elements ->
  no_office (dataset_day dt) elements -> dataset_miss self dt.

(** The ways the remote tier misses. *)
Inductive remote_miss (self : service) (dt : date) : Prop :=
| remote_no_client :
  has_httpx self = false -> remote_miss self dt
| remote_transport_error :
  http_get self (lectserve_url self dt) = None -> remote_miss self dt
| remote_bad_status status body :
  http_get self (lectserve_url self dt) = Some (status, body) ->
  status <> 200 -> remote_miss self dt
| remote_bad_body body :
  http_get self (lectserve_url self dt) = Some (200, body) ->
  loads body = None -> remote_miss self dt.

End Misses.

(** The ways the built-in tier misses. *)
Inductive builtin_miss : option string -> Prop :=
| builtin_no_name : builtin_miss None
| builtin_empty_name : builtin_miss (Some EmptyString)
| builtin_no_entry name :
    (forall e, In e BUILTIN_YEAR_A -> ~ candidate name e) ->
    builtin_miss (Some name).

(** What a tier returns: nothing, or a [dict] of a source and
    readings. *)
Definition tier_result (v : value) : Prop :=
  v = JNull \/ exists s x, v = JObj [("source", JStr s); ("readings", x)].

(** A service with no cache, no local dataset and no network. *)
Definition offline_service : service :=
  mkservice None None "https://lectserve.com" (fun _ => Missing) false
    (fun _ => None).

(** A service with an empty cache that answers, no local dataset and no
    network. *)
Definition cached_service : service :=
  mkservice (Some (mkredis true [])) None "https://lectserve.com"
    (fun _ => Missing) false (fun _ => None).

(** A service whose cache is down, whose dataset file for 2026 is
    corrupt, and whose remote service answers 503. *)
Definition failing_service : service :=
  mkservice (Some (mkredis false [])) (Some "/srv/daily-office")
    "https://lectserve.com" (fun _ => Content "{not json")
    true (fun _ => Some (503, "Service Unavailable")).

(** A service without cache whose remote service answers. *)
Definition online_service : service :=
  mkservice None None "https://lectserve.com" (fun _ => Missing) true
    (fun _ => Some (200, "{}")).

(** The Year-A readings of the third Sunday after the Epiphany. *)
Definition epiphany_3_readings : value :=
  JObj [("first_lesson", JStr "Isaiah 9:1-4");
        ("psalm", JStr "Psalm 27:1, 5-13");
        ("second_lesson", JStr "1 Corinthians 1:10-18");
        ("gospel", JStr "Matthew 4:12-23")].

End ReadingSpec.

Import ReadingSpec.

(** Shapes of strings used in the proofs about matching. *)
Definition first_nonspace (p : string) : bool :=
  match p with
  | String c _ => negb (isspace c)
  | EmptyString => false
  end.

Fixpoint last_nonspace (p : string) : bool :=
  match p with
  | EmptyString => false
  | String c EmptyString => negb (isspace c)
  | String _ p' => last_nonspace p'
  end.

Fixpoint distinct (l : list string) : bool :=
  match l with
  | [] => true
  | x :: r => negb (existsb (String.eqb x) r) && distinct r
  end.

(* ================================================================== *)
(** ** The constructor of the service and the callers in [app.py]      *)
(* ================================================================== *)

Module Startup.

(** What the constructor of [LectionaryService] meets: whether the
    [redis] package and the URL give a client ([None] is an exception of
    the import or of [from_url]), and the rest of the world the service
    will reach. *)
Record environment := mkenv {
  redis_from_url : string -> option redis;
  env_files : string -> file;
  env_has_httpx : bool;
  env_http_get : string -> option (Z * string)
}.

(** [LectionaryService(redis_url, daily_office_path, lectserve_base)]:
    the client is kept only if the URL is given, the connection is made
    and [ping()] answers. *)
Definition LectionaryService (env : environment) (redis_url : option string)
    (daily_office_path : option string) (lectserve_base : string) : service :=
  let path :=
    match daily_office_path with
    | Some p => if truthy p then Some p else None
    | None => None
    end in
  let client :=
    match redis_url with
    | Some url =>
        if truthy url then
          match redis_from_url env url with
          | Some r => if redis_up r then Some r else None
          | None => None
          end
        else None
    | None => None
    end in
  mkservice client path lectserve_base (env_files env) (env_has_httpx env)
    (env_http_get env).

End Startup.

Import Startup.

Module App.

(** What an endpoint gives to the framework: an [HTTPException] it
    raises, the body it returns, or another exception it lets through,
    which the framework answers with status 500. *)
Inductive reply (A : Type) :=
| HTTPException (status_code : Z) (detail : string)
| Return (body : A)
| Unhandled.

Arguments HTTPException {A} status_code detail.
Arguments Return {A} body.
Arguments Unhandled {A}.

(** The body of [/api/lectionary/{date_str}]. *)
Record lectionary_body := mkbody {
  body_date : string;
  body_calendar : calendar_info;
  body_readings : value
}.

Definition invalid_date : string := "Invalid date. Use YYYY-MM-DD.".

(** Get liturgical calendar info only (YYYY-MM-DD). *)
Definition get_calendar (pkg : authority) (date_str : string)
    : reply calendar_info :=
  match strptime_date date_str with
  | None => HTTPException 400 invalid_date
  | Some dt =>
      match get_calendar_info pkg (ArgDate dt) with
      | Some cal => Return cal
      | None => Unhandled
      end
  end.

Section WithCodec.
Context {json : Codec}.

(** Get liturgical calendar info and RCL readings for a date
    (YYYY-MM-DD): the reply and the service [_lectionary] after the call. *)
Definition get_lectionary (pkg : authority) (_lectionary : service)
    (date_str : string) : reply lectionary_body * service :=
  match strptime_date date_str with
  | None => (HTTPException 400 invalid_date, _lectionary)
  | Some dt =>
      match get_calendar_info pkg (ArgDate dt) with
      | None => (Unhandled, _lectionary)
      | Some cal =>
          match get_readings _lectionary (ArgDate dt) (Some (day_name cal)) with
          | (Returned readings, after) =>
              (Return (mkbody (isoformat dt) cal readings), after)
          | (Raised _, after) => (Unhandled, after)
          end
      end
  end.

End WithCodec.

End App.

Import App.

(* ================================================================== *)
(** ** Further vocabulary and checks                                   *)
(* ================================================================== *)

(** A number that orders the dates of the calendar as their comparison
    does. *)
Definition date_key (d : date) : Z := (year d * 13 + month d) * 32 + day d.

(** The month and the day after the year of ["%Y-%m-%d"]. *)
Definition match_m_d (s2 : string) : option (Z * Z * string) :=
  first_some (fun '(m, s3) =>
    s4 <- read_dash s3 ;;
    first_some (fun '(d, s5) => Some (m, d, s5)) (read_d s4))
    (read_m s2).

(** [zfill 4 y] is four digits that read [y]. *)
Definition year_text_check (y : Z) : bool :=
  match zfill 4 y with
  | String a (String b (String c (String d EmptyString))) =>
      isdigit a && isdigit b && isdigit c && isdigit d
      && (1000 * digit a + 100 * digit b + 10 * digit c + digit d =? y)
  | _ => false
  end.

(** The text of a month and a day reads back as that month and day. *)
Definition month_day_text_check (m d : Z) : bool :=
  match match_m_d (zfill 2 m ++ "-" ++ zfill 2 d) with
  | Some (m', d', EmptyString) => (m' =? m) && (d' =? d)
  | _ => false
  end.

(** The day key of the local dataset is the month name and the day
    without padding. *)
Definition day_key_check (m d : Z) : bool :=
  (replace " 0" " " (strftime_B_d (mkdate 1 m d))
   =? nth (Z.to_nat m) month_names "" ++ " " ++ str d)%string.

(** The five names under which a result names its source. *)
Definition source_labels : list string :=
  ["redis-cache"; "daily-office-json"; "lectserve"; "builtin-year-a"; "none"].

(** A [dict] of the four reading slots, each with a citation. *)
Definition four_citations (readings : value) : Prop :=
  exists a b c d,
    readings = JObj [("first_lesson", JStr a); ("psalm", JStr b);
                     ("second_lesson", JStr c); ("gospel", JStr d)]
    /\ a <> EmptyString /\ b <> EmptyString /\ c <> EmptyString
    /\ d <> EmptyString.

Definition four_citations_check (readings : value) : bool :=
  match readings with
  | JObj [(k1, JStr a); (k2, JStr b); (k3, JStr c); (k4, JStr d)] =>
      (k1 =? "first_lesson")%string && (k2 =? "psalm")%string
      && (k3 =? "second_lesson")%string && (k4 =? "gospel")%string
      && truthy a && truthy b && truthy c && truthy d
  | _ => false
  end.

(** The Sunday names the calendar takes from its tables. *)
Definition calendar_sunday_names : list string :=
  ["The First Sunday of Advent"; "The Second Sunday of Advent";
   "The Third Sunday of Advent"; "The Fourth Sunday of Advent"]
  ++ map snd EPIPHANY_NAMES ++ map snd LENT_NAMES ++ map snd EASTER_NAMES.

(** The readings of the table under a name. *)
Definition table_readings (name : string) : option value :=
  dict_lookup String.eqb BUILTIN_YEAR_A name.

(** The dates that bound the seasons of a year are dates of the calendar
    and follow one another: January 6, Ash Wednesday, Easter, Pentecost,
    the Sunday computed for Advent, December 25; Ash Wednesday is a
    Wednesday and Pentecost a Sunday. *)
Definition season_order_check (y : Z) : bool :=
  match _computus y, _first_sunday_of_advent y with
  | Some e, Some adv =>
      match sub_days e 46, add_days e 49 with
      | Some ash, Some pent =>
          valid e && valid ash && valid pent && valid adv
          && (weekday ash =? 2) && (weekday pent =? 6)
          && (date_key (mkdate y 1 6) <? date_key ash)
          && (date_key ash <? date_key e)
          && (date_key e <? date_key pent)
          && (date_key pent <? date_key adv)
          && (date_key adv <? date_key (mkdate y 12 25))
      | _, _ => false
      end
  | _, _ => false
  end.

(** Equality of values, decided. *)
Fixpoint value_eqb (a b : value) {struct a} : bool :=
  match a, b with
  | JNull, JNull => true
  | JBool x, JBool y => Bool.eqb x y
  | JNum x, JNum y => x =? y
  | JStr x, JStr y => (x =? y)%string
  | JArr l, JArr m =>
      (fix go (l m : list value) : bool :=
         match l, m with
         | [], [] => true
         | x :: l', y :: m' => value_eqb x y && go l' m'
         | _, _ => false
         end) l m
  | JObj l, JObj m =>
      (fix go (l m : list (string * value)) : bool :=
         match l, m with
         | [], [] => true
         | (k, x) :: l', (k', y) :: m' =>
             (k =? k')%string && value_eqb x y && go l' m'
         | _, _ => false
         end) l m
  | _, _ => false
  end.

(** If the name of the entry starts the Sunday name, the lookup of the
    Sunday name gives the readings of the entry. *)
Definition prefix_entry_check (name : string) (e : string * value) : bool :=
  implb (startswith (fst e) name)
    (value_eqb (_lookup_builtin name) (builtin_result (snd e))).

(** A Sunday name that no name of the table starts gives nothing, but for
    the eighth Sunday after the Epiphany, which gives the readings of the
    Epiphany. *)
Definition orphan_name_check (name : string) : bool :=
  if (name =? "The Eighth Sunday after the Epiphany")%string
  then match table_readings "The Epiphany" with
       | Some x => value_eqb (_lookup_builtin name) (builtin_result x)
       | None => false
       end
  else value_eqb (_lookup_builtin name) JNull.

Definition sunday_name_check (name : string) : bool :=
  forallb (prefix_entry_check name) BUILTIN_YEAR_A
  && (existsb (fun e => startswith (fst e) name) BUILTIN_YEAR_A
      || orphan_name_check name).

(** Whether a value is a [dict]. *)
Definition is_dict (v : value) : bool :=
  match v with JObj _ => true | _ => false end.

(** The source a result names. *)
Definition source_of (v : value) : option value := getitem v "source".

(** The dataset file of a date, without its directory. *)
Definition dataset_filename (dt : date) : string :=
  let year_num :=
    if ltb dt (mkdate (year dt) 11 27) then year dt - 1 else year dt in
  if year_num mod 2 =? 1 then "year-one.json" else "year-two.json".

(** The sources of tiers 2 to 4. *)
Definition found_labels : list string :=
  ["daily-office-json"; "lectserve"; "builtin-year-a"].

(** The six seasons of the built-in calculator. *)
Definition season_names : list string :=
  ["Advent"; "Christmas"; "The Season after the Epiphany"; "Lent"; "Easter";
   "The Season after Pentecost"].

(** What the built-in tier finds under the name of a season. *)
Definition season_readings_check (s : string) : bool :=
  if (s =? "Christmas")%string then
    match table_readings "Christmas" with
    | Some x => value_eqb (_lookup_builtin s) (builtin_result x)
    | None => false
    end
  else if (s =? "The Season after the Epiphany")%string then
    match table_readings "The Epiphany" with
    | Some x => value_eqb (_lookup_builtin s) (builtin_result x)
    | None => false
    end
  else value_eqb (_lookup_builtin s) JNull.

(** A local dataset of two offices for January 25 and one for January
    26, behind an entry for another day. *)
Definition sample_offices : value :=
  JArr [JObj [("day", JStr "January 24"); ("psalm", JStr "Psalm 30")];
        JObj [("day", JStr "January 25"); ("psalm", JStr "Psalm 19")];
        JObj [("day", JStr "January 25"); ("psalm", JStr "Psalm 20")];
        JObj [("day", JStr "January 26"); ("psalm", JStr "Psalm 25")]].

(** A service without cache whose dataset files hold [sample_offices]. *)
Definition dataset_service : service :=
  mkservice None (Some "/srv/daily-office") "https://lectserve.com"
    (fun _ => Content (PyJson.print sample_offices)) false (fun _ => None).

Section ReadingsSteps.
Context {json : Codec}.

(** What tiers 2 to 4 of [get_readings] hand over, once the cache has
    missed. *)
Definition lower_tiers (self : service) (dt : date)
    (day_name : option string) : value :=
  let result := _lookup_daily_office self dt in
  let result :=
    if negb (truth result) then _lookup_lectserve self dt else result in
  match day_name with
  | Some name =>
      if negb (truth result) && truthy name
      then _lookup_builtin name else result
  | None => result
  end.

End ReadingsSteps.

(** An office of the dataset for another day, and one for the day. *)
Definition other_day (target : string) (office : value) : Prop :=
  exists d, get office "day" (JStr "") = Some d /\ eq_str d target = false.

Definition names_day (target : string) (office : value) : Prop :=
  exists d, get office "day" (JStr "") = Some d /\ eq_str d target = true.

(** Every month and day gives its key of the local dataset. *)
Definition day_key_all : bool :=
  forallb (fun m => forallb (day_key_check m) (Zrange 1 (Z.to_nat 31)))
    (Zrange 1 (Z.to_nat 12)).

(** What the calendar package answers on the first Sunday after the
    Epiphany, and a package that gives this answer. *)
Definition baptism_answer : cal_dict :=
  mkcal (Some "Epiphany") (Some 1) (Some "The Baptism of Christ").

Definition baptism_authority : authority :=
  mkauthority true (fun _ => Some baptism_answer).

(* ================================================================== *)
(** ** Values that Python can hold, and the cost of reading them       *)
(* ================================================================== *)

(** The keys of every [dict] inside the value are distinct, as they are
    in Python. *)
Fixpoint well_formed (v : value) : bool :=
  match v with
  | JArr l =>
      (fix all (l : list value) : bool :=
         match l with
         | [] => true
         | x :: r => well_formed x && all r
         end) l
  | JObj items =>
      distinct (map fst items)
      && (fix all (l : list (string * value)) : bool :=
            match l with
            | [] => true
            | (_, x) :: r => well_formed x && all r
            end) items
  | _ => true
  end.

(** The number of readings of a value, of an element or of a member
    [PyJson.read_value] makes for the text of a value. *)
Fixpoint reads (v : value) : nat :=
  match v with
  | JArr l =>
      S ((fix sum (l : list value) : nat :=
            match l with
            | [] => O
            | x :: r => S (reads x + sum r)
            end) l)
  | JObj items =>
      S ((fix sum (l : list (string * value)) : nat :=
            match l with
            | [] => O
            | (_, x) :: r => S (reads x + sum r)
            end) items)
  | _ => 1%nat
  end.

(** The text after a number starts with no digit. *)
Definition delimited (rest : string) : Prop :=
  match rest with
  | String c _ => isdigit c = false
  | EmptyString => True
  end.

(** The value of the digits of a decimal numeral read after [acc]. *)
Fixpoint uint_value (acc : Z) (d : Decimal.uint) : Z :=
  match d with
  | Decimal.Nil => acc
  | Decimal.D0 l => uint_value (10 * acc + 0) l
  | Decimal.D1 l => uint_value (10 * acc + 1) l
  | Decimal.D2 l => uint_value (10 * acc + 2) l
  | Decimal.D3 l => uint_value (10 * acc + 3) l
  | Decimal.D4 l => uint_value (10 * acc + 4) l
  | Decimal.D5 l => uint_value (10 * acc + 5) l
  | Decimal.D6 l => uint_value (10 * acc + 6) l
  | Decimal.D7 l => uint_value (10 * acc + 7) l
  | Decimal.D8 l => uint_value (10 * acc + 8) l
  | Decimal.D9 l => uint_value (10 * acc + 9) l
  end.

(** The readings of the elements of an array and of the members of a
    [dict]. *)
Definition element_reads (l : list value) : nat :=
  fold_right (fun x n => S (reads x + n)) O l.

Definition member_reads (items : list (string * value)) : nat :=
  fold_right (fun kv n => S (reads (snd kv) + n)) O items.

(** The text of a member of a [dict]. *)
Definition member_text (kv : string * value) : string :=
  (PyJson.quote (fst kv) ++ ": " ++ PyJson.print (snd kv))%string.

Definition all_well_formed (l : list value) : Prop :=
  Forall (fun x => well_formed x = true) l.

Definition members_well_formed (items : list (string * value)) : Prop :=
  NoDup (map fst items) /\ Forall (fun kv => well_formed (snd kv) = true) items.

(** The reader gives a well-formed value back from its text, whatever
    follows the text. *)
Definition reads_back (v : value) : Prop :=
  well_formed v = true ->
  forall fuel rest,
    (reads v <= fuel)%nat -> delimited rest ->
    PyJson.read_value fuel (PyJson.print v ++ rest) = Some (v, rest).

(** Every entry of the built-in table is well formed. *)
Definition table_well_formed : bool :=
  forallb (fun e => well_formed (snd e)) BUILTIN_YEAR_A.
(* ================================================================== *)
(** * Properties                                                       *)
(* ================================================================== *)

(** ** The string primitives on examples *)

Example lower_ex : lower "The Day of PENTECOST" = "the day of pentecost".
Proof. reflexivity. Qed.

Example strip_ex : strip "  Palm Sunday " = "Palm Sunday".
Proof. reflexivity. Qed.

Example replace_ex : replace " 0" " " "January 05" = "January 5".
Proof. reflexivity. Qed.

Example str_ex : str 0 = "0" /\ str 12 = "12" /\ str (-3) = "-3".
Proof. repeat split; reflexivity. Qed.

Example zfill_ex : zfill 4 33 = "0033" /\ zfill 2 7 = "07" /\ zfill 2 25 = "25".
Proof. repeat split; reflexivity. Qed.

Example isoformat_ex : isoformat (mkdate 2026 1 5) = "2026-01-05".
Proof. reflexivity. Qed.

Example strptime_ex :
  strptime_date "2026-01-25" = Some (mkdate 2026 1 25)
  /\ strptime_date "2026-1-5" = Some (mkdate 2026 1 5)
  /\ strptime_date "2026-1-05" = Some (mkdate 2026 1 5)
  /\ strptime_date "2026-01- 5" = Some (mkdate 2026 1 5)
  /\ strptime_date "2026-02-30" = None
  /\ strptime_date "2026-01-255" = None
  /\ strptime_date "2026-13-01" = None
  /\ strptime_date "2026-010-5" = None
  /\ strptime_date "0000-01-01" = None
  /\ strptime_date "26-01-25" = None.
Proof. repeat split; reflexivity. Qed.

Example strftime_ex :
  strftime_Y_m_d (mkdate 999 1 5) = "999-01-05"
  /\ isoformat (mkdate 999 1 5) = "0999-01-05"
  /\ replace " 0" " " (strftime_B_d (mkdate 2026 1 5)) = "January 5"
  /\ replace " 0" " " (strftime_B_d (mkdate 2026 11 30)) = "November 30".
Proof. repeat split; reflexivity. Qed.

Example getitem_ex :
  PyStr.getitem ["First"; "Second"; "Third"; "Fourth"] (Z.min (-1 - 1) 3)
  = Some "Third"
  /\ PyStr.getitem ["First"; "Second"; "Third"; "Fourth"] (Z.min (-5 - 1) 3)
     = None
  /\ PyStr.getitem ["First"; "Second"; "Third"; "Fourth"] (Z.min (9 - 1) 3)
     = Some "Fourth".
Proof. repeat split; reflexivity. Qed.

Example ordinal_ex :
  toordinal (mkdate 2025 12 25) = 739610
  /\ fromordinal 739610 = mkdate 2025 12 25
  /\ weekday (mkdate 2025 12 25) = 3
  /\ fromordinal 1 = mkdate 1 1 1
  /\ fromordinal _MAXORDINAL = mkdate 9999 12 31.
Proof. repeat split; reflexivity. Qed.

(* ================================================================== *)
(** ** Dates                                                           *)
(* ================================================================== *)

Lemma Zrange_In (lo : Z) (n : nat) (y : Z) :
  lo <= y < lo + Z.of_nat n -> In y (Zrange lo n).
Proof.
  revert lo. induction n as [|n IH]; intros lo Hy; [lia|].
  simpl. destruct (Z.eq_dec lo y) as [->|Hne]; [now left|].
  right. apply IH. lia.
Qed.

Lemma forallb_Zrange (P : Z -> bool) (lo : Z) (n : nat) :
  forallb P (Zrange lo n) = true ->
  forall y, lo <= y < lo + Z.of_nat n -> P y = true.
Proof.
  intros H y Hy. rewrite forallb_forall in H. apply H, Zrange_In, Hy.
Qed.

Lemma valid_year (d : date) : valid d = true -> 1 <= year d <= 9999.
Proof.
  unfold valid, valid_fields, MINYEAR, MAXYEAR. intros H.
  repeat (apply andb_prop in H; destruct H as [H ?]). lia.
Qed.

Lemma valid_month_day (d : date) :
  valid d = true -> 1 <= month d <= 12 /\ 1 <= day d <= 31.
Proof.
  unfold valid, valid_fields. intros H.
  repeat (apply andb_prop in H; destruct H as [H ?]).
  assert (Hm : 1 <= month d <= 12) by lia. split; [exact Hm|].
  assert (Hd : _days_in_month (year d) (month d) <= 31).
  { unfold _days_in_month.
    destruct ((month d =? 2) && _is_leap (year d)); [lia|].
    assert (Hc : month d = 1 \/ month d = 2 \/ month d = 3 \/ month d = 4
                 \/ month d = 5 \/ month d = 6 \/ month d = 7 \/ month d = 8
                 \/ month d = 9 \/ month d = 10 \/ month d = 11
                 \/ month d = 12) by lia.
    repeat (destruct Hc as [-> | Hc]; [vm_compute; discriminate|]).
    rewrite Hc. vm_compute; discriminate. }
  lia.
Qed.

Lemma new_valid (y m d : Z) (dt : date) :
  new y m d = Some dt -> dt = mkdate y m d /\ valid dt = true.
Proof.
  unfold new. destruct (valid_fields y m d) eqn:E; [|discriminate].
  intros [= <-]. split; [reflexivity | exact E].
Qed.

(** Comparison of dates orders the years first. *)
Lemma geb_year (a b : date) : geb a b = true -> year b <= year a.
Proof.
  unfold geb, ltb, compare.
  destruct (Z.compare_spec (year a) (year b)); intros; try lia; discriminate.
Qed.

Lemma ltb_year (a b : date) : ltb a b = true -> year a <= year b.
Proof.
  unfold ltb, compare.
  destruct (Z.compare_spec (year a) (year b)); intros; try lia; discriminate.
Qed.

Lemma geb_month_day (a b : date) :
  year a = year b ->
  (month b < month a \/ (month a = month b /\ day b <= day a)) ->
  geb a b = true.
Proof.
  intros Hy H. unfold geb, ltb, compare. rewrite Hy, Z.compare_refl.
  destruct (Z.compare_spec (month a) (month b)); try lia; try reflexivity.
  destruct (Z.compare_spec (day a) (day b)); try lia; reflexivity.
Qed.

(** *** Every year from 1 to 9999 passes the checks *)

Lemma easter_check_all : forallb easter_check (Zrange 1 (Z.to_nat 9999)) = true.
Proof. vm_compute. reflexivity. Qed.

Lemma advent_check_all : forallb advent_check (Zrange 1 (Z.to_nat 9999)) = true.
Proof. vm_compute. reflexivity. Qed.

Lemma computus_defined (y : Z) :
  1 <= y <= 9999 ->
  exists e ash pent,
    _computus y = Some e /\ year e = y /\ weekday e = 6
    /\ between 3 22 4 25 e
    /\ sub_days e 46 = Some ash /\ add_days e 49 = Some pent.
Proof.
  intros Hy.
  pose proof (forallb_Zrange _ _ _ easter_check_all y ltac:(lia)) as H.
  unfold easter_check in H.
  destruct (_computus y) as [e|]; [|discriminate].
  destruct (sub_days e 46) as [ash|] eqn:Eash;
    [|rewrite andb_false_r in H; discriminate].
  destruct (add_days e 49) as [pent|] eqn:Epent;
    [|rewrite andb_false_r in H; discriminate].
  rewrite andb_true_r in H.
  apply andb_prop in H as [H H3]. apply andb_prop in H as [H1 H2].
  exists e, ash, pent. unfold between.
  apply Z.eqb_eq in H1, H2.
  assert (Hb : (month e = 3 /\ 22 <= day e) \/ (month e = 4 /\ day e <= 25)).
  { apply orb_prop in H3 as [H3|H3]; apply andb_prop in H3 as [Hm Hd];
      apply Z.eqb_eq in Hm; apply Z.leb_le in Hd; [left|right]; split; assumption. }
  repeat split; try assumption; try reflexivity; lia.
Qed.

Lemma advent_defined (y : Z) :
  1 <= y <= 9999 ->
  exists a,
    _first_sunday_of_advent y = Some a /\ year a = y /\ weekday a = 6
    /\ between 11 28 12 4 a.
Proof.
  intros Hy.
  pose proof (forallb_Zrange _ _ _ advent_check_all y ltac:(lia)) as H.
  unfold advent_check in H.
  destruct (_first_sunday_of_advent y) as [a|]; [|discriminate].
  apply andb_prop in H as [H H3]. apply andb_prop in H as [H1 H2].
  exists a. unfold between.
  apply Z.eqb_eq in H1, H2.
  assert (Hb : (month a = 11 /\ 28 <= day a) \/ (month a = 12 /\ day a <= 4)).
  { apply orb_prop in H3 as [H3|H3]; apply andb_prop in H3 as [Hm Hd];
      apply Z.eqb_eq in Hm; apply Z.leb_le in Hd; [left|right]; split; assumption. }
  repeat split; try assumption; try reflexivity; lia.
Qed.

Lemma advent_some_year (y : Z) (a : date) :
  _first_sunday_of_advent y = Some a -> 1 <= y <= 9999 /\ year a = y.
Proof.
  intros H.
  assert (Hy : 1 <= y <= 9999).
  { unfold _first_sunday_of_advent in H.
    destruct (new y 12 25) as [c|] eqn:E; [|discriminate].
    apply new_valid in E as [-> E]. apply valid_year in E. exact E. }
  split; [exact Hy|].
  destruct (advent_defined y Hy) as (a' & Ha & Hy' & _).
  congruence.
Qed.

Lemma days_in_month_ge_28 (y m : Z) : 1 <= m <= 12 -> 28 <= _days_in_month y m.
Proof.
  intros Hm. unfold _days_in_month.
  destruct ((m =? 2) && _is_leap y); [lia|].
  assert (Hc : m = 1 \/ m = 2 \/ m = 3 \/ m = 4 \/ m = 5 \/ m = 6 \/ m = 7
               \/ m = 8 \/ m = 9 \/ m = 10 \/ m = 11 \/ m = 12) by lia.
  repeat (destruct Hc as [-> | Hc]; [vm_compute; discriminate|]).
  subst m. vm_compute; discriminate.
Qed.

Lemma new_in_range (y m d : Z) :
  1 <= y <= 9999 -> 1 <= m <= 12 -> 1 <= d <= 28 ->
  new y m d = Some (mkdate y m d).
Proof.
  intros Hy Hm Hd. unfold new.
  assert (E : valid_fields y m d = true).
  { unfold valid_fields, MINYEAR, MAXYEAR.
    pose proof (days_in_month_ge_28 y m Hm).
    repeat (apply andb_true_intro; split); apply Z.leb_le; lia. }
  rewrite E. reflexivity.
Qed.

(* ================================================================== *)
(** ** The Computus and the first Sunday of Advent                     *)
(* ================================================================== *)

(** C2.  For every year Y from 1900 to 2200, [_computus Y] returns a date
    of year Y that falls between March 22 and April 25 inclusive and is a
    Sunday. *)
Theorem computus_between_march_22_and_april_25 (Y : Z) :
  1900 <= Y <= 2200 ->
  exists d,
    _computus Y = Some d /\ year d = Y /\ between 3 22 4 25 d /\ weekday d = 6.
Proof.
  intros HY.
  destruct (computus_defined Y ltac:(lia)) as (e & _ & _ & He & Hy & Hw & Hb & _).
  exists e. repeat split; try assumption; apply Hb.
Qed.

Lemma computus_between_march_22_and_april_25_witness :
  1900 <= 2025 <= 2200
  /\ exists d,
       _computus 2025 = Some d /\ year d = 2025 /\ between 3 22 4 25 d
       /\ weekday d = 6.
Proof.
  split; [lia | apply (computus_between_march_22_and_april_25 2025); lia].
Defined.

(** What the service computes for every year: a Sunday of that year from
    November 28 to December 4. *)
Lemma first_sunday_of_advent_computed (Y : Z) :
  1 <= Y <= 9999 ->
  exists a,
    _first_sunday_of_advent Y = Some a /\ year a = Y /\ weekday a = 6
    /\ between 11 28 12 4 a.
Proof. apply advent_defined. Qed.

(** C3, at the year 2022.  Christmas Day 2022 is a Sunday; the walk back
    to a Sunday then stays on December 25 and the function returns
    December 4, outside November 27 .. December 3, while the Sunday four
    weeks before Christmas is November 27. *)
Theorem first_sunday_of_advent_2022 :
  weekday (mkdate 2022 12 25) = 6
  /\ _first_sunday_of_advent 2022 = Some (mkdate 2022 12 4)
  /\ ~ between 11 27 12 3 (mkdate 2022 12 4)
  /\ weekday (mkdate 2022 11 27) = 6
  /\ sub_days (mkdate 2022 12 25) 28 = Some (mkdate 2022 11 27).
Proof.
  repeat split; try reflexivity.
  unfold between; simpl. lia.
Qed.

(* ================================================================== *)
(** ** The reading cycles                                              *)
(* ================================================================== *)

Lemma rcl_table_lookup (L : Z) :
  dict_lookup Z.eqb [(0, "A"); (1, "B"); (2, "C")] (L mod 3)
  = Some (sunday_cycle L).
Proof.
  unfold sunday_cycle, dict_lookup.
  pose proof (Z.mod_pos_bound L 3 ltac:(lia)) as Hb.
  rewrite !(Z.eqb_sym _ (L mod 3)).
  destruct (L mod 3 =? 0) eqn:E0; [reflexivity|].
  destruct (L mod 3 =? 1) eqn:E1; [reflexivity|].
  destruct (L mod 3 =? 2) eqn:E2; [reflexivity|].
  apply Z.eqb_neq in E0, E1, E2. lia.
Qed.

Lemma mod_2_odd (L : Z) : (L mod 2 =? 1) = Z.odd L.
Proof. rewrite Zmod_odd. destruct (Z.odd L); reflexivity. Qed.

Lemma eqb_eq (a b : date) : eqb a b = true -> a = b.
Proof.
  unfold eqb, compare. destruct a as [y m d], b as [y' m' d']. simpl.
  destruct (Z.compare_spec y y'); try discriminate.
  destruct (Z.compare_spec m m'); try discriminate.
  destruct (Z.compare_spec d d'); try discriminate.
  intros _. congruence.
Qed.

Lemma advent_agreement_all :
  forallb advent_agreement_check (Zrange 1 (Z.to_nat 9999)) = true.
Proof. vm_compute. reflexivity. Qed.

(** The first Sunday of Advent and the date the service computes for it. *)
Lemma advent_agreement (y : Z) :
  1 <= y <= 9999 ->
  exists a c,
    first_sunday_of_advent y = Some a /\ _first_sunday_of_advent y = Some c
    /\ year a = y /\ weekday a = 6 /\ between 11 27 12 3 a
    /\ (weekday (mkdate y 12 25) = 6 -> a = mkdate y 11 27 /\ c = mkdate y 12 4)
    /\ (weekday (mkdate y 12 25) <> 6 -> a = c).
Proof.
  intros Hy.
  pose proof (forallb_Zrange _ _ _ advent_agreement_all y ltac:(lia)) as H.
  unfold advent_agreement_check in H.
  destruct (first_sunday_of_advent y) as [a|]; [|discriminate].
  destruct (_first_sunday_of_advent y) as [c|]; [|discriminate].
  apply andb_prop in H as [H H4]. apply andb_prop in H as [H H3].
  apply andb_prop in H as [H1 H2]. apply Z.eqb_eq in H1, H2.
  assert (Hb : (month a = 11 /\ 27 <= day a) \/ (month a = 12 /\ day a <= 3)).
  { apply orb_prop in H3 as [H3|H3]; apply andb_prop in H3 as [Hm Hd];
      apply Z.eqb_eq in Hm; apply Z.leb_le in Hd; [left|right]; split; assumption. }
  exists a, c. unfold between.
  repeat split; try assumption; try reflexivity; try lia.
  - destruct (Z.eqb_spec (weekday (mkdate y 12 25)) 6); [|contradiction].
    apply andb_prop in H4 as [H4 _]. apply eqb_eq, H4.
  - destruct (Z.eqb_spec (weekday (mkdate y 12 25)) 6); [|contradiction].
    apply andb_prop in H4 as [_ H4]. apply eqb_eq, H4.
  - intros Hw. destruct (Z.eqb_spec (weekday (mkdate y 12 25)) 6);
      [contradiction|]. apply eqb_eq, H4.
Qed.

Lemma first_sunday_of_advent_year (y : Z) (a : date) :
  first_sunday_of_advent y = Some a -> 1 <= y <= 9999 /\ year a = y.
Proof.
  intros H.
  assert (Hy : 1 <= y <= 9999).
  { unfold first_sunday_of_advent in H.
    destruct (new y 12 25) as [c|] eqn:E; [|discriminate].
    apply new_valid in E as [-> E]. apply valid_year in E. exact E. }
  split; [exact Hy|].
  destruct (advent_agreement y Hy) as (a' & c & Ha & _ & Hy' & _).
  congruence.
Qed.

(** Outside the late week the service places a date on the same side of
    the computed Sunday as of the first Sunday of Advent. *)
Lemma advent_side_agrees (D a c : date) :
  valid D = true ->
  first_sunday_of_advent (year D) = Some a ->
  _first_sunday_of_advent (year D) = Some c ->
  ~ late_advent_week D ->
  geb D c = geb D a.
Proof.
  intros HD Ha Hc Hlate. pose proof (valid_year D HD) as Hy.
  destruct (advent_agreement (year D) Hy)
    as (a' & c' & Ha' & Hc' & _ & _ & _ & Hsun & Hweek).
  assert (a' = a) by congruence. assert (c' = c) by congruence. subst a' c'.
  destruct (Z.eq_dec (weekday (mkdate (year D) 12 25)) 6) as [Hw|Hw].
  - destruct (Hsun Hw) as [-> ->].
    assert (Hout : ~ ((month D = 11 /\ 27 <= day D)
                      \/ (month D = 12 /\ day D <= 3)))
      by (unfold late_advent_week in Hlate; tauto).
    unfold geb, ltb, compare. simpl. rewrite Z.compare_refl.
    destruct (Z.compare_spec (month D) 12), (Z.compare_spec (month D) 11);
      try lia; try reflexivity.
    + destruct (Z.compare_spec (day D) 4); try reflexivity; exfalso; lia.
    + destruct (Z.compare_spec (day D) 27); try reflexivity; exfalso; lia.
  - rewrite (Hweek Hw). reflexivity.
Qed.

(** Both cycle functions return, and outside the late week they return
    the cycles of the liturgical year. *)
Lemma cycles_of_valid_date (D : date) :
  valid D = true ->
  exists L,
    liturgical_year D = Some L
    /\ (exists x, calculate_rcl_year D = Some x)
    /\ (exists x, calculate_lectionary_year D = Some x)
    /\ (~ late_advent_week D ->
        calculate_rcl_year D = Some (sunday_cycle L)
        /\ calculate_lectionary_year D = Some (daily_cycle L)).
Proof.
  intros HD. pose proof (valid_year D HD) as Hy.
  destruct (advent_agreement (year D) Hy) as (a & c & Ha & Hc & _).
  exists (if geb D a then year D else year D - 1).
  unfold liturgical_year, calculate_rcl_year, calculate_lectionary_year.
  rewrite Ha, Hc. repeat split.
  - rewrite rcl_table_lookup. eauto.
  - eauto.
  - rewrite (advent_side_agrees D a c HD Ha Hc H). apply rcl_table_lookup.
  - rewrite (advent_side_agrees D a c HD Ha Hc H).
    unfold daily_cycle. rewrite mod_2_odd. reflexivity.
Qed.

(** The liturgical year is the year of the Advent that opens the span
    the date lies in. *)
Lemma liturgical_year_of_span (D : date) (L Y : Z) (a a' : date) :
  liturgical_year D = Some L ->
  first_sunday_of_advent Y = Some a ->
  first_sunday_of_advent (Y + 1) = Some a' ->
  a <=d D -> D <d a' -> L = Y.
Proof.
  unfold liturgical_year. intros HL Ha Ha' Hge Hlt.
  destruct (first_sunday_of_advent_year _ _ Ha) as [_ Hya1].
  destruct (first_sunday_of_advent_year _ _ Ha') as [_ Hya2].
  pose proof (geb_year _ _ Hge) as H1.
  pose proof (ltb_year _ _ Hlt) as H2.
  assert (Hc : year D = Y \/ year D = Y + 1) by lia.
  destruct Hc as [Hc | Hc]; rewrite Hc in HL.
  - rewrite Ha, Hge in HL. congruence.
  - rewrite Ha' in HL. unfold geb in HL. rewrite Hlt in HL. simpl in HL.
    injection HL. lia.
Qed.

(** C1, with the labels the service returns and outside the late week.
    For every calendar date D with liturgical year L, except from
    November 27 to December 3 of a year whose Christmas Day is a Sunday,
    [calculate_rcl_year D] is the letter of [L mod 3] and
    [calculate_lectionary_year D] is ["Year One"] when L is odd and
    ["Year Two"] when L is even; and L is the year Y for every date from
    the first Sunday of Advent of Y through the day before the first
    Sunday of Advent of Y + 1, so both cycles are constant there. *)
Theorem cycles_follow_liturgical_year (D : date) :
  valid D = true ->
  ~ late_advent_week D ->
  exists L,
    liturgical_year D = Some L
    /\ calculate_rcl_year D = Some (sunday_cycle L)
    /\ calculate_lectionary_year D = Some (daily_cycle L)
    /\ forall Y a a',
         first_sunday_of_advent Y = Some a ->
         first_sunday_of_advent (Y + 1) = Some a' ->
         a <=d D -> D <d a' -> L = Y.
Proof.
  intros HD Hlate.
  destruct (cycles_of_valid_date D HD) as (L & HL & _ & _ & Hcycles).
  destruct (Hcycles Hlate) as [Hrcl Hlect].
  exists L. repeat split; try assumption.
  intros Y a a'. apply liturgical_year_of_span. exact HL.
Qed.

Lemma cycles_follow_liturgical_year_witness :
  valid (mkdate 2026 1 25) = true
  /\ ~ late_advent_week (mkdate 2026 1 25)
  /\ exists L,
       liturgical_year (mkdate 2026 1 25) = Some L
       /\ calculate_rcl_year (mkdate 2026 1 25) = Some (sunday_cycle L)
       /\ calculate_lectionary_year (mkdate 2026 1 25) = Some (daily_cycle L)
       /\ forall Y a a',
            first_sunday_of_advent Y = Some a ->
            first_sunday_of_advent (Y + 1) = Some a' ->
            a <=d mkdate 2026 1 25 -> mkdate 2026 1 25 <d a' -> L = Y.
Proof.
  assert (Hlate : ~ late_advent_week (mkdate 2026 1 25)).
  { unfold late_advent_week. simpl. intros [H _]. vm_compute in H. discriminate. }
  split; [reflexivity|]. split; [exact Hlate|].
  apply (cycles_follow_liturgical_year (mkdate 2026 1 25));
    [reflexivity | exact Hlate].
Defined.

(** In the late week of 2022 the cycles are still those of the year
    before: on November 27, 2022, the first Sunday of Advent, the
    liturgical year is 2022 (cycles A and Two) and the service answers C
    and One. *)
Lemma late_advent_week_2022 :
  late_advent_week (mkdate 2022 11 27)
  /\ first_sunday_of_advent 2022 = Some (mkdate 2022 11 27)
  /\ liturgical_year (mkdate 2022 11 27) = Some 2022
  /\ sunday_cycle 2022 = "A"
  /\ calculate_rcl_year (mkdate 2022 11 27) = Some "C"
  /\ daily_cycle 2022 = "Year Two"
  /\ calculate_lectionary_year (mkdate 2022 11 27) = Some "Year One".
Proof.
  unfold late_advent_week. simpl.
  repeat split; try reflexivity; lia.
Qed.

(** C1 as the claim words it fails on the label: on Christmas Day 2025
    the liturgical year is 2025, which is odd, and the daily-office cycle
    returned is ["Year One"], not ["One"]. *)
Lemma daily_cycle_label_counterexample :
  liturgical_year (mkdate 2025 12 25) = Some 2025
  /\ Z.odd 2025 = true
  /\ calculate_lectionary_year (mkdate 2025 12 25) = Some "Year One"
  /\ calculate_lectionary_year (mkdate 2025 12 25)
     <> Some (daily_cycle_bare 2025).
Proof.
  repeat split; try reflexivity. vm_compute. discriminate.
Qed.

(* ================================================================== *)
(** ** The built-in season calculator                                  *)
(* ================================================================== *)

Lemma fallback_season_defined (D : date) :
  valid D = true -> exists s, fallback_season D = Some s.
Proof.
  intros HD. pose proof (valid_year D HD) as Hy.
  destruct (computus_defined _ Hy) as (e & ash & pent & He & _ & _ & _ & Hash & Hpent).
  destruct (advent_defined _ Hy) as (adv & Hadv & _).
  unfold fallback_season.
  rewrite He, Hash, Hpent, Hadv.
  rewrite !new_in_range by lia.
  destruct (geb D adv); [eauto|].
  destruct (geb D _); [eauto|].
  repeat (destruct (ltb D _); [eauto|]). eauto.
Qed.

(** The branch for December 25 onwards is never reached: Advent is tested
    first and has begun by December 4. *)
Lemma fallback_season_late_december (D : date) :
  valid D = true -> month D = 12 -> 25 <= day D ->
  fallback_season D = Some "Advent".
Proof.
  intros HD Hm Hd. pose proof (valid_year D HD) as Hy.
  destruct (computus_defined _ Hy) as (e & ash & pent & He & _ & _ & _ & Hash & Hpent).
  destruct (advent_defined _ Hy) as (adv & Hadv & Hya & _ & Hb).
  unfold fallback_season.
  rewrite He, Hash, Hpent, Hadv.
  rewrite !new_in_range by lia.
  assert (Hge : geb D adv = true).
  { apply geb_month_day; [congruence|]. unfold between in Hb. lia. }
  rewrite Hge. reflexivity.
Qed.

(** C4, at Christmas Day 2025 without the calendar package: the built-in
    calculator answers season ["Advent"] and colour ["Purple"], where the
    claim has ["Christmas"] and ["White"]. *)
Theorem christmas_day_2025_is_assigned_advent :
  fallback_season (mkdate 2025 12 25) = Some "Advent"
  /\ exists r,
       get_calendar_info no_authority (ArgStr "2025-12-25") = Some r
       /\ season r = "Advent" /\ colour r = "Purple"
       /\ season r <> "Christmas" /\ colour r <> "White".
Proof.
  split; [reflexivity|].
  eexists. split; [vm_compute; reflexivity|].
  simpl. repeat split; discriminate.
Qed.

(* ================================================================== *)
(** ** The calendar info provider                                      *)
(* ================================================================== *)

Lemma season_map_unmapped_not_advent (s : string) :
  dict_lookup String.eqb SEASON_MAP s = None -> (s =? "Advent")%string = false.
Proof.
  unfold SEASON_MAP, dict_lookup. rewrite (String.eqb_sym s).
  destruct ("Advent" =? s)%string; [discriminate | reflexivity].
Qed.

(** An unmapped season never makes [_map_episcopal_name] raise. *)
Lemma map_episcopal_name_unmapped (s : string) (w : Z) (name : string) :
  dict_lookup String.eqb SEASON_MAP s = None ->
  exists dn, _map_episcopal_name s w name = Some dn.
Proof.
  intros Hs. unfold _map_episcopal_name, dict_get. rewrite Hs.
  rewrite (season_map_unmapped_not_advent s Hs).
  repeat match goal with
         | |- context [if ?b then _ else _] => destruct b
         end; eauto.
Qed.

(** [_map_episcopal_name] in the season after the Epiphany. *)
Lemma map_episcopal_name_epiphany (s : string) (w : Z) (name : string) :
  dict_get String.eqb SEASON_MAP s s = "The Season after the Epiphany" ->
  _map_episcopal_name s w name
  = if ("Epiphany" =? name)%string || (name =? "The Epiphany")%string
    then Some "The Epiphany"
    else Some (dict_get Z.eqb EPIPHANY_NAMES w
                 ("The Season after the Epiphany (Week " ++ str w ++ ")")).
Proof.
  intros H. unfold _map_episcopal_name. rewrite H. reflexivity.
Qed.

(** The name the ordinal tables give in the season after the Epiphany is
    never the bare season name. *)
Lemma epiphany_positional_name_not_season (w : Z) (name : string) :
  _map_episcopal_name "The Season after the Epiphany" w name
  <> Some "The Season after the Epiphany".
Proof.
  rewrite map_episcopal_name_epiphany by reflexivity.
  destruct (("Epiphany" =? name)%string || (name =? "The Epiphany")%string);
    [discriminate|].
  unfold dict_get, EPIPHANY_NAMES, dict_lookup.
  repeat match goal with
         | |- context [Z.eqb ?k w] => destruct (Z.eqb k w); [discriminate|]
         end.
  intros H. injection H as H. discriminate H.
Qed.

(** C9 as the claim words it fails.  On Sunday 2026-01-11, the first
    Sunday after the Epiphany, the built-in path names the day by its
    season, which no week index maps to through the ordinal table. *)
Lemma fallback_day_name_counterexample :
  exists r,
    get_calendar_info no_authority (ArgStr "2026-01-11") = Some r
    /\ is_sunday r = true
    /\ season r = "The Season after the Epiphany"
    /\ day_name r = "The Season after the Epiphany"
    /\ day_name r
       <> "The First Sunday after the Epiphany: The Baptism of our Lord"
    /\ forall w name, _map_episcopal_name (season r) w name <> Some (day_name r).
Proof.
  eexists. split; [vm_compute; reflexivity|].
  cbn [is_sunday season day_name].
  repeat split; try discriminate.
  intros w name. apply epiphany_positional_name_not_season.
Qed.

(** [_map_episcopal_name] in Lent and in Easter. *)
Lemma map_episcopal_name_lent (s : string) (w : Z) (name : string) :
  dict_get String.eqb SEASON_MAP s s = "Lent" ->
  _map_episcopal_name s w name
  = Some (dict_get Z.eqb LENT_NAMES w ("Lent Week " ++ str w)).
Proof.
  intros H. unfold _map_episcopal_name. rewrite H. reflexivity.
Qed.

Lemma map_episcopal_name_easter (s : string) (w : Z) (name : string) :
  dict_get String.eqb SEASON_MAP s s = "Easter" ->
  _map_episcopal_name s w name
  = Some (dict_get Z.eqb EASTER_NAMES w ("Easter Week " ++ str w)).
Proof.
  intros H. unfold _map_episcopal_name. rewrite H. reflexivity.
Qed.

(** A week outside a table has no entry in it. *)
Lemma epiphany_names_outside (w : Z) :
  w < 1 \/ 9 < w -> dict_lookup Z.eqb EPIPHANY_NAMES w = None.
Proof.
  intros Hw. unfold EPIPHANY_NAMES, dict_lookup.
  repeat match goal with
         | |- context [Z.eqb ?k w] => destruct (Z.eqb_spec k w); [lia|]
         end.
  reflexivity.
Qed.

Lemma lent_names_outside (w : Z) :
  w < 1 \/ 6 < w -> dict_lookup Z.eqb LENT_NAMES w = None.
Proof.
  intros Hw. unfold LENT_NAMES, dict_lookup.
  repeat match goal with
         | |- context [Z.eqb ?k w] => destruct (Z.eqb_spec k w); [lia|]
         end.
  reflexivity.
Qed.

Lemma easter_names_outside (w : Z) :
  w < 1 \/ 8 < w -> dict_lookup Z.eqb EASTER_NAMES w = None.
Proof.
  intros Hw. unfold EASTER_NAMES, dict_lookup.
  repeat match goal with
         | |- context [Z.eqb ?k w] => destruct (Z.eqb_spec k w); [lia|]
         end.
  reflexivity.
Qed.

(** The package path of [get_calendar_info]: when the package answers
    and [_map_episcopal_name] returns, the result carries the name it
    returns, the mapped season and its colour. *)
Lemma package_info (pkg : authority) (D : date) (cal : cal_dict)
    (dn : string) :
  valid D = true ->
  HAS_LITURGICAL_PKG pkg = true ->
  liturgical_calendar pkg (strftime_Y_m_d D) = Some cal ->
  _map_episcopal_name (or_default (cal_season cal) "")
    (or_default (cal_weekno cal) 0) (or_default (cal_name cal) "") = Some dn ->
  exists r,
    get_calendar_info pkg (ArgDate D) = Some r
    /\ day_name r = dn
    /\ season r
       = dict_get String.eqb SEASON_MAP (or_default (cal_season cal) "")
           (or_default (cal_season cal) "")
    /\ colour r = dict_get String.eqb COLOUR_MAP (season r) "Green"
    /\ raw_calendar r = Some cal.
Proof.
  intros HD Hhas Hcal Hdn.
  destruct (cycles_of_valid_date D HD) as (_ & _ & (rcl & Hrcl) & (lect & Hlect) & _).
  destruct (computus_defined _ (valid_year D HD)) as (e & _ & _ & He & _).
  unfold get_calendar_info, to_date.
  rewrite Hrcl, Hlect, He, Hhas. unfold package_path.
  rewrite Hcal. cbn beta iota zeta. rewrite Hdn.
  eexists. split; [reflexivity|]. cbn [season day_name colour raw_calendar].
  repeat split; reflexivity.
Qed.

(** When the package answers and [_map_episcopal_name] raises, the
    result is the one of the built-in computation. *)
Lemma package_raise (pkg : authority) (D : date) (cal : cal_dict) :
  HAS_LITURGICAL_PKG pkg = true ->
  liturgical_calendar pkg (strftime_Y_m_d D) = Some cal ->
  _map_episcopal_name (or_default (cal_season cal) "")
    (or_default (cal_weekno cal) 0) (or_default (cal_name cal) "") = None ->
  get_calendar_info pkg (ArgDate D) = get_calendar_info no_authority (ArgDate D).
Proof.
  intros Hhas Hcal Hdn.
  unfold get_calendar_info, to_date. cbn beta iota.
  destruct (calculate_rcl_year D); [|reflexivity]. cbn beta iota.
  destruct (calculate_lectionary_year D); [|reflexivity]. cbn beta iota.
  destruct (_computus (year D)); [|reflexivity]. cbn beta iota zeta.
  rewrite Hhas. unfold package_path. rewrite Hcal. cbn beta iota zeta.
  rewrite Hdn. reflexivity.
Qed.

(** C9, as the service behaves.
    (a) When the calendar package is absent or its call raises, the
    result is built from the built-in computation alone, the day name
    being the season name; it is the result obtained without any package.
    (b) When the package answers, [get_calendar_info] names the day by
    [_map_episcopal_name] applied to the season, the week and the name of
    the answer: whenever that call returns, its value is the day name of
    the result, whose season is the one [SEASON_MAP] gives and whose
    colour is the one [COLOUR_MAP] has for it or ["Green"]; when it
    raises, the result is that of the built-in computation.  A season
    without an entry in [SEASON_MAP] does not start the fallback: it is
    kept as the season.
    (c) So the ordinal tables name the day on the package path.  In the
    season after the Epiphany a day the package names "Epiphany" or "The
    Epiphany" is "The Epiphany"; any other day of week 1 is "The First
    Sunday after the Epiphany: The Baptism of our Lord", of a week with
    an entry in [EPIPHANY_NAMES] that entry, and of a week outside 1..9
    the generated "(Week N)" label.  In Lent and in Easter the day is the
    entry of [LENT_NAMES] or [EASTER_NAMES] for the week, and outside the
    table the generated "Lent Week N" or "Easter Week N". *)
Theorem calendar_info_paths (pkg : authority) (D : date) :
  valid D = true ->
  ((HAS_LITURGICAL_PKG pkg = false
    \/ liturgical_calendar pkg (strftime_Y_m_d D) = None) ->
   exists r s,
     get_calendar_info pkg (ArgDate D) = Some r
     /\ get_calendar_info no_authority (ArgDate D) = Some r
     /\ fallback_season D = Some s
     /\ season r = s /\ day_name r = s
     /\ colour r = dict_get String.eqb COLOUR_MAP s "Green"
     /\ raw_calendar r = None)
  /\ (forall cal,
        HAS_LITURGICAL_PKG pkg = true ->
        liturgical_calendar pkg (strftime_Y_m_d D) = Some cal ->
        let s := or_default (cal_season cal) "" in
        let w := or_default (cal_weekno cal) 0 in
        let name := or_default (cal_name cal) "" in
        (forall dn,
           _map_episcopal_name s w name = Some dn ->
           exists r,
             get_calendar_info pkg (ArgDate D) = Some r
             /\ day_name r = dn
             /\ season r = dict_get String.eqb SEASON_MAP s s
             /\ colour r = dict_get String.eqb COLOUR_MAP (season r) "Green"
             /\ raw_calendar r = Some cal)
        /\ (_map_episcopal_name s w name = None ->
            get_calendar_info pkg (ArgDate D)
            = get_calendar_info no_authority (ArgDate D))
        /\ (dict_lookup String.eqb SEASON_MAP s = None ->
            exists r,
              get_calendar_info pkg (ArgDate D) = Some r
              /\ season r = s
              /\ _map_episcopal_name s w name = Some (day_name r)
              /\ colour r = dict_get String.eqb COLOUR_MAP s "Green"
              /\ raw_calendar r = Some cal)
        /\ (dict_get String.eqb SEASON_MAP s s
            = "The Season after the Epiphany" ->
            exists r,
              get_calendar_info pkg (ArgDate D) = Some r
              /\ season r = "The Season after the Epiphany"
              /\ raw_calendar r = Some cal
              /\ (name = "Epiphany" \/ name = "The Epiphany" ->
                  day_name r = "The Epiphany")
              /\ (name <> "Epiphany" -> name <> "The Epiphany" ->
                  (w = 1 ->
                   day_name r
                   = "The First Sunday after the Epiphany: The Baptism of our Lord")
                  /\ (forall n,
                        dict_lookup Z.eqb EPIPHANY_NAMES w = Some n ->
                        day_name r = n)
                  /\ (w < 1 \/ 9 < w ->
                      day_name r
                      = ("The Season after the Epiphany (Week " ++ str w ++ ")")%string)))
        /\ (dict_get String.eqb SEASON_MAP s s = "Lent" ->
            exists r,
              get_calendar_info pkg (ArgDate D) = Some r
              /\ season r = "Lent"
              /\ raw_calendar r = Some cal
              /\ (forall n,
                    dict_lookup Z.eqb LENT_NAMES w = Some n -> day_name r = n)
              /\ (w < 1 \/ 6 < w ->
                  day_name r = ("Lent Week " ++ str w)%string))
        /\ (dict_get String.eqb SEASON_MAP s s = "Easter" ->
            exists r,
              get_calendar_info pkg (ArgDate D) = Some r
              /\ season r = "Easter"
              /\ raw_calendar r = Some cal
              /\ (forall n,
                    dict_lookup Z.eqb EASTER_NAMES w = Some n -> day_name r = n)
              /\ (w < 1 \/ 8 < w ->
                  day_name r = ("Easter Week " ++ str w)%string))).
Proof.
  intros HD.
  split.
  - destruct (cycles_of_valid_date D HD) as (_ & _ & (rcl & Hrcl) & (lect & Hlect) & _).
    destruct (computus_defined _ (valid_year D HD)) as (e & _ & _ & He & _).
    destruct (fallback_season_defined D HD) as (s0 & Hs0).
    intros Hpkg.
    assert (Hpath : (if HAS_LITURGICAL_PKG pkg
                     then package_path pkg D (isoformat D) (weekday D =? 6)
                            rcl lect (isoformat e)
                     else None) = None).
    { destruct Hpkg as [-> | Hraise]; [reflexivity|].
      destruct (HAS_LITURGICAL_PKG pkg); [|reflexivity].
      unfold package_path. rewrite Hraise. reflexivity. }
    unfold get_calendar_info, to_date.
    rewrite Hrcl, Hlect, He, Hpath, Hs0. simpl.
    eexists; exists s0. repeat split; reflexivity.
  - intros cal Hhas Hcal s w name.
    pose proof (package_info pkg D cal) as Hinfo.
    fold s w name in Hinfo.
    split; [|split; [|split; [|split; [|split]]]].
    + intros dn Hdn. exact (Hinfo dn HD Hhas Hcal Hdn).
    + apply package_raise; assumption.
    + intros Hunmapped.
      destruct (map_episcopal_name_unmapped s w name Hunmapped) as (dn & Hdn).
      destruct (Hinfo dn HD Hhas Hcal Hdn) as (r & Hr & Hn & Hs & Hc & Hraw).
      assert (Hmap : dict_get String.eqb SEASON_MAP s s = s)
        by (unfold dict_get; rewrite Hunmapped; reflexivity).
      exists r. rewrite Hmap in Hs. rewrite Hs in Hc. rewrite Hn.
      repeat split; assumption.
    + intros Hmap.
      pose proof (map_episcopal_name_epiphany s w name Hmap) as Hname.
      destruct ((("Epiphany" =? name) || (name =? "The Epiphany"))%string)
        eqn:Hepi.
      * destruct (Hinfo _ HD Hhas Hcal Hname) as (r & Hr & Hn & Hs & _ & Hraw).
        exists r. rewrite Hmap in Hs.
        split; [exact Hr|]. split; [exact Hs|]. split; [exact Hraw|].
        split; [intros _; exact Hn|].
        intros H1 H2. apply orb_true_iff in Hepi as [H | H];
          apply String.eqb_eq in H; congruence.
      * destruct (Hinfo _ HD Hhas Hcal Hname) as (r & Hr & Hn & Hs & _ & Hraw).
        exists r. rewrite Hmap in Hs.
        split; [exact Hr|]. split; [exact Hs|]. split; [exact Hraw|].
        apply orb_false_iff in Hepi as [H1 H2].
        apply String.eqb_neq in H1, H2.
        split; [intros [H | H]; congruence|].
        intros _ _. rewrite Hn. split; [|split].
        -- intros ->. reflexivity.
        -- intros n Hl. unfold dict_get. rewrite Hl. reflexivity.
        -- intros Hw. unfold dict_get.
           rewrite (epiphany_names_outside w Hw). reflexivity.
    + intros Hmap.
      pose proof (map_episcopal_name_lent s w name Hmap) as Hname.
      destruct (Hinfo _ HD Hhas Hcal Hname) as (r & Hr & Hn & Hs & _ & Hraw).
      exists r. rewrite Hmap in Hs.
      split; [exact Hr|]. split; [exact Hs|]. split; [exact Hraw|].
      rewrite Hn. split.
      * intros n Hl. unfold dict_get. rewrite Hl. reflexivity.
      * intros Hw. unfold dict_get. rewrite (lent_names_outside w Hw).
        reflexivity.
    + intros Hmap.
      pose proof (map_episcopal_name_easter s w name Hmap) as Hname.
      destruct (Hinfo _ HD Hhas Hcal Hname) as (r & Hr & Hn & Hs & _ & Hraw).
      exists r. rewrite Hmap in Hs.
      split; [exact Hr|]. split; [exact Hs|]. split; [exact Hraw|].
      rewrite Hn. split.
      * intros n Hl. unfold dict_get. rewrite Hl. reflexivity.
      * intros Hw. unfold dict_get. rewrite (easter_names_outside w Hw).
        reflexivity.
Qed.

Lemma calendar_info_paths_witness :
  valid (mkdate 2026 1 11) = true
  /\ (exists r s,
        get_calendar_info raising_authority (ArgDate (mkdate 2026 1 11)) = Some r
        /\ get_calendar_info no_authority (ArgDate (mkdate 2026 1 11)) = Some r
        /\ fallback_season (mkdate 2026 1 11) = Some s
        /\ season r = s /\ day_name r = s
        /\ colour r = dict_get String.eqb COLOUR_MAP s "Green"
        /\ raw_calendar r = None)
  /\ (exists r,
        get_calendar_info baptism_authority (ArgDate (mkdate 2026 1 11)) = Some r
        /\ season r = "The Season after the Epiphany"
        /\ day_name r
           = "The First Sunday after the Epiphany: The Baptism of our Lord").
Proof.
  split; [reflexivity|]. split.
  - apply (proj1 (calendar_info_paths raising_authority (mkdate 2026 1 11)
                    eq_refl)).
    right. reflexivity.
  - destruct (proj2 (calendar_info_paths baptism_authority (mkdate 2026 1 11)
                       eq_refl)
                baptism_answer eq_refl eq_refl)
      as (_ & _ & _ & Hepi & _).
    destruct (Hepi eq_refl) as (r & Hr & Hs & _ & _ & Hn).
    exists r. split; [exact Hr|]. split; [exact Hs|].
    apply Hn; [discriminate | discriminate | reflexivity].
Defined.

(* ================================================================== *)
(** ** Strings: case folding, stripping and substrings                 *)
(* ================================================================== *)

Lemma isspace_lower_char (c : ascii) : isspace (lower_char c) = isspace c.
Proof.
  destruct c as [b0 b1 b2 b3 b4 b5 b6 b7].
  destruct b0, b1, b2, b3, b4, b5, b6, b7; reflexivity.
Qed.

Lemma length_lower (s : string) : String.length (lower s) = String.length s.
Proof. induction s as [|c r IH]; simpl; congruence. Qed.

Lemma len_lower (s : string) : len (lower s) = len s.
Proof. unfold len. rewrite length_lower. reflexivity. Qed.

Lemma lower_lstrip (s : string) : lstrip (lower s) = lower (lstrip s).
Proof.
  induction s as [|c r IH]; simpl; [reflexivity|].
  rewrite isspace_lower_char. destruct (isspace c); [exact IH | reflexivity].
Qed.

Lemma lower_rstrip (s : string) : rstrip (lower s) = lower (rstrip s).
Proof.
  induction s as [|c r IH]; simpl; [reflexivity|].
  rewrite IH, isspace_lower_char.
  destruct (rstrip r) as [|c' r']; simpl; [|reflexivity].
  destruct (isspace c); reflexivity.
Qed.

(** Case folding and stripping commute. *)
Lemma lower_strip (s : string) : strip (lower s) = lower (strip s).
Proof. unfold strip. rewrite lower_lstrip, lower_rstrip. reflexivity. Qed.

Lemma startswith_empty (p : string) :
  p <> EmptyString -> startswith p EmptyString = false.
Proof. destruct p; [congruence | reflexivity]. Qed.

Lemma last_nonspace_nonempty (p : string) :
  last_nonspace p = true -> p <> EmptyString.
Proof. destruct p; [discriminate | discriminate]. Qed.

Lemma last_nonspace_tail (c : ascii) (p : string) :
  p <> EmptyString -> last_nonspace (String c p) = last_nonspace p.
Proof. destruct p; [congruence | reflexivity]. Qed.

Lemma startswith_rstrip (p s : string) :
  last_nonspace p = true -> startswith p (rstrip s) = startswith p s.
Proof.
  revert p. induction s as [|a r IH]; intros p Hp; [reflexivity|].
  destruct p as [|c p']; [discriminate|].
  assert (Htail : p' <> EmptyString ->
                  startswith p' (rstrip r) = startswith p' r).
  { intros Hne. apply IH. rewrite <- (last_nonspace_tail c p' Hne). exact Hp. }
  simpl rstrip.
  destruct (rstrip r) as [|a0 s0] eqn:E.
  - destruct (isspace a) eqn:Ea.
    + simpl. destruct p' as [|c' p''].
      * simpl in Hp. destruct (Ascii.eqb_spec c a) as [->|]; [|reflexivity].
        rewrite Ea in Hp. discriminate.
      * rewrite <- Htail by discriminate. simpl. rewrite andb_false_r. reflexivity.
    + simpl. destruct p' as [|c' p'']; [reflexivity|].
      rewrite <- Htail by discriminate. reflexivity.
  - simpl. destruct p' as [|c' p'']; [reflexivity|].
    rewrite <- Htail by discriminate. reflexivity.
Qed.

Lemma contains_empty (p : string) :
  p <> EmptyString -> contains p EmptyString = false.
Proof. intros H. simpl. rewrite startswith_empty by exact H. reflexivity. Qed.

Lemma contains_rstrip (p s : string) :
  last_nonspace p = true -> contains p (rstrip s) = contains p s.
Proof.
  intros Hp. pose proof (last_nonspace_nonempty p Hp) as Hne.
  induction s as [|a r IH]; [reflexivity|].
  change (contains p (String a r))
    with (startswith p (String a r) || contains p r).
  rewrite <- (startswith_rstrip p (String a r) Hp), <- IH.
  simpl rstrip.
  destruct (rstrip r) as [|a0 s0].
  - destruct (isspace a).
    + rewrite contains_empty by exact Hne. simpl.
      rewrite startswith_empty by exact Hne. reflexivity.
    + reflexivity.
  - reflexivity.
Qed.

Lemma contains_lstrip (p s : string) :
  first_nonspace p = true -> contains p (lstrip s) = contains p s.
Proof.
  intros Hp. induction s as [|a r IH]; [reflexivity|].
  simpl lstrip. destruct (isspace a) eqn:Ea; [|reflexivity].
  rewrite IH. destruct p as [|c p']; [discriminate|].
  simpl. simpl in Hp.
  destruct (Ascii.eqb_spec c a) as [->|]; [|reflexivity].
  rewrite Ea in Hp. discriminate.
Qed.

(** Stripping the text does not change which patterns it contains, for a
    pattern that begins and ends with a character that is no space. *)
Lemma contains_strip (p s : string) :
  first_nonspace p = true -> last_nonspace p = true ->
  contains p (strip s) = contains p s.
Proof.
  intros H1 H2. unfold strip.
  rewrite contains_rstrip by exact H2. apply contains_lstrip, H1.
Qed.

Lemma distinct_injective {A} (f : A -> string) (l : list A) :
  distinct (map f l) = true ->
  forall a b, In a l -> In b l -> f a = f b -> a = b.
Proof.
  induction l as [|x r IH]; intros Hd a b Ha Hb Hf; [contradiction|].
  simpl in Hd. apply andb_prop in Hd as [Hx Hr].
  assert (Hnot : forall y, In y r -> f x <> f y).
  { intros y Hy Heq.
    assert (existsb (String.eqb (f x)) (map f r) = true).
    { apply existsb_exists. exists (f y). split.
      - apply in_map, Hy.
      - apply String.eqb_eq, Heq. }
    rewrite H in Hx. discriminate. }
  destruct Ha as [<-|Ha], Hb as [<-|Hb].
  - reflexivity.
  - exfalso. exact (Hnot b Hb Hf).
  - exfalso. exact (Hnot a Ha (eq_sym Hf)).
  - exact (IH Hr a b Ha Hb Hf).
Qed.

(* ================================================================== *)
(** ** Tier 4: the built-in table                                      *)
(* ================================================================== *)

(** The partial-match loop: either nothing beats the initial length, or
    the loop ends on the first of the longest matching entries. *)
Lemma partial_scan (name_lower : string) (l : list (string * value))
    (best : value * Z) :
  (fold_left (partial_step name_lower) l best = best
   /\ forall e, In e l -> contains (lower (fst e)) name_lower = true ->
                len (lower (fst e)) <= snd best)
  \/ exists i e,
       nth_error l i = Some e
       /\ contains (lower (fst e)) name_lower = true
       /\ snd best < len (lower (fst e))
       /\ fold_left (partial_step name_lower) l best
          = (builtin_result (snd e), len (lower (fst e)))
       /\ forall j e',
            nth_error l j = Some e' ->
            contains (lower (fst e')) name_lower = true ->
            len (lower (fst e')) <= len (lower (fst e))
            /\ ((j < i)%nat -> len (lower (fst e')) < len (lower (fst e))).
Proof.
  revert best. induction l as [|x r IH]; intros best.
  - left. split; [reflexivity | intros e []].
  - simpl fold_left.
    assert (Hstep : partial_step name_lower best x
                    = if contains (lower (fst x)) name_lower
                         && (snd best <? len (lower (fst x)))
                      then (builtin_result (snd x), len (lower (fst x)))
                      else best)
      by (destruct x; reflexivity).
    destruct (contains (lower (fst x)) name_lower
              && (snd best <? len (lower (fst x)))) eqn:Ex;
      rewrite Hstep; clear Hstep.
    + apply andb_prop in Ex as [Hc Hl]. apply Z.ltb_lt in Hl.
      destruct (IH (builtin_result (snd x), len (lower (fst x))))
        as [[Hout Hall] | (i & e & Hi & Hce & Hlt & Hout & Hall)].
      * right. exists 0%nat, x. repeat split; try assumption; try reflexivity.
        -- destruct j as [|j]; simpl in H.
           ++ injection H as <-. lia.
           ++ apply nth_error_In in H. exact (Hall e' H H0).
        -- lia.
      * right. exists (S i), e. simpl in Hlt.
        repeat split; try assumption; try lia.
        -- destruct j as [|j]; simpl in H.
           ++ injection H as <-. lia.
           ++ apply (Hall j e' H H0).
        -- destruct j as [|j]; simpl in H.
           ++ injection H as <-. lia.
           ++ intros Hj. apply (Hall j e' H H0). lia.
    + assert (Hx : contains (lower (fst x)) name_lower = true ->
                   len (lower (fst x)) <= snd best).
      { intros Hc. rewrite Hc in Ex. simpl in Ex. apply Z.ltb_ge in Ex. exact Ex. }
      destruct (IH best)
        as [[Hout Hall] | (i & e & Hi & Hce & Hlt & Hout & Hall)].
      * left. split; [exact Hout|].
        intros e [<-|He] Hc; [exact (Hx Hc) | exact (Hall e He Hc)].
      * right. exists (S i), e.
        repeat split; try assumption.
        -- destruct j as [|j]; simpl in H.
           ++ injection H as <-. specialize (Hx H0). lia.
           ++ apply (Hall j e' H H0).
        -- destruct j as [|j]; simpl in H.
           ++ injection H as <-. specialize (Hx H0). lia.
           ++ intros Hj. apply (Hall j e' H H0). lia.
Qed.

Lemma table_names_distinct :
  distinct (map (fun e => lower (fst e)) BUILTIN_YEAR_A) = true.
Proof. vm_compute. reflexivity. Qed.

Lemma table_names_shape :
  forallb (fun e => first_nonspace (lower (fst e))
                    && last_nonspace (lower (fst e))) BUILTIN_YEAR_A = true.
Proof. vm_compute. reflexivity. Qed.

Lemma table_name_shape (e : string * value) :
  In e BUILTIN_YEAR_A ->
  first_nonspace (lower (fst e)) = true /\ last_nonspace (lower (fst e)) = true.
Proof.
  intros He. pose proof table_names_shape as H.
  rewrite forallb_forall in H. apply andb_prop, H, He.
Qed.

(** On the names of the table, matching against the stripped name is
    matching against the name. *)
Lemma candidate_stripped (day_name : string) (e : string * value) :
  In e BUILTIN_YEAR_A ->
  contains (lower (fst e)) (strip (lower day_name))
  = contains (lower (fst e)) (lower day_name).
Proof.
  intros He. destruct (table_name_shape e He) as [H1 H2].
  apply contains_strip; assumption.
Qed.

Lemma table_name_length (e : string * value) :
  In e BUILTIN_YEAR_A -> 0 < len (lower (fst e)).
Proof.
  intros He. destruct (table_name_shape e He) as [_ H].
  apply last_nonspace_nonempty in H. unfold len.
  destruct (lower (fst e)); [congruence | simpl; lia].
Qed.

(** The exact-match loop finds the entry whose folded name is the folded,
    stripped day name. *)
Lemma exact_loop_finds (name_lower : string) (e : string * value) :
  In e BUILTIN_YEAR_A -> lower (fst e) = name_lower ->
  find (fun entry => (lower (fst entry) =? name_lower)%string) BUILTIN_YEAR_A
  = Some e.
Proof.
  intros He Hname.
  destruct (find _ BUILTIN_YEAR_A) as [e1|] eqn:E.
  - apply find_some in E as [He1 Heq]. apply String.eqb_eq in Heq.
    f_equal.
    apply (distinct_injective (fun e => lower (fst e)) BUILTIN_YEAR_A
             table_names_distinct e1 e He1 He).
    congruence.
  - pose proof (find_none _ _ E e He) as Hn. simpl in Hn.
    apply String.eqb_neq in Hn. contradiction.
Qed.

Lemma exact_loop_misses (name_lower : string) :
  (forall e, In e BUILTIN_YEAR_A -> lower (fst e) <> name_lower) ->
  find (fun entry => (lower (fst entry) =? name_lower)%string) BUILTIN_YEAR_A
  = None.
Proof.
  intros Hno. destruct (find _ BUILTIN_YEAR_A) as [e1|] eqn:E; [|reflexivity].
  apply find_some in E as [He1 Heq]. apply String.eqb_eq in Heq.
  exfalso. exact (Hno e1 He1 Heq).
Qed.

Lemma truthy_nonempty (s : string) : s <> EmptyString -> truthy s = true.
Proof. destruct s; [congruence | reflexivity]. Qed.

(** Without an exact match the lookup is the result of the partial-match
    loop. *)
Lemma lookup_builtin_partial (day_name : string) :
  day_name <> EmptyString ->
  (forall e, In e BUILTIN_YEAR_A -> ~ exact_match day_name e) ->
  _lookup_builtin day_name
  = fst (fold_left (partial_step (strip (lower day_name))) BUILTIN_YEAR_A
           (JNull, 0)).
Proof.
  intros Hne Hno. unfold _lookup_builtin.
  rewrite truthy_nonempty by exact Hne. simpl negb. cbv iota.
  rewrite exact_loop_misses; [reflexivity|].
  intros e He Heq. apply (Hno e He). unfold exact_match.
  rewrite <- lower_strip. exact Heq.
Qed.

(** No candidate: the lookup finds nothing. *)
Lemma lookup_builtin_none (day_name : string) :
  (forall e, In e BUILTIN_YEAR_A -> ~ candidate day_name e) ->
  _lookup_builtin day_name = JNull.
Proof.
  intros Hno. destruct day_name as [|c r] eqn:Edn; [reflexivity|].
  rewrite <- Edn in *. assert (Hne : day_name <> EmptyString) by (subst; discriminate).
  rewrite lookup_builtin_partial; [|exact Hne|].
  - destruct (partial_scan (strip (lower day_name)) BUILTIN_YEAR_A (JNull, 0))
      as [[Hout _] | (i & e & Hi & Hc & _)].
    + rewrite Hout. reflexivity.
    + apply nth_error_In in Hi.
      rewrite candidate_stripped in Hc by exact Hi.
      exfalso. exact (Hno e Hi Hc).
  - intros e He Hex. apply (Hno e He). unfold candidate.
    rewrite <- candidate_stripped by exact He.
    unfold exact_match in Hex. rewrite <- lower_strip in Hex. rewrite <- Hex.
    destruct (table_name_shape e He) as [_ Hl].
    apply last_nonspace_nonempty in Hl.
    destruct (lower (fst e)) as [|a s]; [congruence|].
    simpl. rewrite Ascii.eqb_refl. simpl.
    assert (Hpre : forall t, startswith t t = true).
    { induction t as [|x t IHt]; simpl; [reflexivity|].
      rewrite Ascii.eqb_refl. exact IHt. }
    rewrite Hpre. reflexivity.
Qed.

(** C5.  For every non-empty day name, [_lookup_builtin] returns the
    readings of the table entry whose name equals the stripped day name
    case-insensitively, if there is one; otherwise the readings of the
    entry that comes first when the entries whose case-folded name is a
    substring of the case-folded day name are ranked by length, longest
    first, and then by table order; and nothing if there is no such
    entry. *)
Theorem lookup_builtin_ranked (day_name : string) :
  day_name <> EmptyString ->
  (forall e, In e BUILTIN_YEAR_A -> exact_match day_name e ->
             _lookup_builtin day_name = builtin_result (snd e))
  /\ ((forall e, In e BUILTIN_YEAR_A -> ~ exact_match day_name e) ->
      (forall i e, ranked_first day_name i e ->
                   _lookup_builtin day_name = builtin_result (snd e))
      /\ ((forall e, In e BUILTIN_YEAR_A -> ~ candidate day_name e) ->
          _lookup_builtin day_name = JNull)).
Proof.
  intros Hne. split; [|intros Hno; split].
  - intros e He Hex. unfold _lookup_builtin.
    rewrite truthy_nonempty by exact Hne. simpl negb. cbv iota.
    rewrite (exact_loop_finds _ e He)
      by (unfold exact_match in Hex; rewrite lower_strip; exact Hex).
    destruct e; reflexivity.
  - intros i e (Hi & Hc & Hrank).
    rewrite lookup_builtin_partial by assumption.
    destruct (partial_scan (strip (lower day_name)) BUILTIN_YEAR_A (JNull, 0))
      as [[_ Hall] | (i0 & e0 & Hi0 & Hc0 & _ & Hout & Hall)].
    + pose proof (nth_error_In _ _ Hi) as He.
      pose proof (table_name_length e He) as Hlen.
      specialize (Hall e He). rewrite candidate_stripped in Hall by exact He.
      specialize (Hall Hc). simpl in Hall. lia.
    + rewrite Hout. simpl fst.
      pose proof (nth_error_In _ _ Hi) as He.
      pose proof (nth_error_In _ _ Hi0) as He0.
      rewrite candidate_stripped in Hc0 by exact He0.
      destruct (Hrank i0 e0 Hi0 Hc0) as [Hlt | [Heq Hle]];
        assert (Hc' : contains (lower (fst e)) (strip (lower day_name)) = true)
          by (rewrite candidate_stripped by exact He; exact Hc);
        destruct (Hall i e Hi Hc') as [Hle' Hfirst];
        rewrite !len_lower in *.
      * lia.
      * assert (i = i0).
        { destruct (Nat.lt_ge_cases i i0) as [Hlt|Hge];
            [specialize (Hfirst Hlt); lia | lia]. }
        subst i0. congruence.
  - apply lookup_builtin_none.
Qed.

Lemma lookup_builtin_ranked_witness :
  "Christmas Day" <> EmptyString
  /\ (forall e, In e BUILTIN_YEAR_A -> exact_match "Christmas Day" e ->
                _lookup_builtin "Christmas Day" = builtin_result (snd e))
  /\ ((forall e, In e BUILTIN_YEAR_A -> ~ exact_match "Christmas Day" e) ->
      (forall i e, ranked_first "Christmas Day" i e ->
                   _lookup_builtin "Christmas Day" = builtin_result (snd e))
      /\ ((forall e, In e BUILTIN_YEAR_A -> ~ candidate "Christmas Day" e) ->
          _lookup_builtin "Christmas Day" = JNull)).
Proof.
  split; [discriminate|].
  apply (lookup_builtin_ranked "Christmas Day"). discriminate.
Defined.

Example lookup_builtin_examples :
  _lookup_builtin "  palm SUNDAY " = builtin_result
    (JObj [("first_lesson", JStr "Isaiah 50:4-9a");
           ("psalm", JStr "Psalm 31:9-16");
           ("second_lesson", JStr "Philippians 2:5-11");
           ("gospel", JStr "Matthew 26:14-27:66")])
  /\ _lookup_builtin "The Epiphany and Christmas" = builtin_result
    (JObj [("first_lesson", JStr "Isaiah 60:1-6");
           ("psalm", JStr "Psalm 72:1-7, 10-14");
           ("second_lesson", JStr "Ephesians 3:1-12");
           ("gospel", JStr "Matthew 2:1-12")])
  /\ _lookup_builtin "Proper 12 (The Season after Pentecost)" = JNull
  /\ _lookup_builtin "" = JNull.
Proof. repeat split; reflexivity. Qed.

(* ================================================================== *)
(** ** The tiers of [get_readings]                                     *)
(* ================================================================== *)

Section Tiers.
Context {json : Codec}.

Lemma cache_miss_get (self : service) (key : string) :
  cache_miss self key -> truth (_cache_get self key) = false.
Proof.
  unfold _cache_get, redis_get.
  intros [H | r H Hup | r H Hno | r ttl H He | r ttl data H He Hl
          | r ttl data v H He Hl Hv]; rewrite H; try reflexivity.
  - rewrite Hup. reflexivity.
  - destruct (redis_up r); [|reflexivity]. rewrite Hno. reflexivity.
  - destruct (redis_up r); [|reflexivity]. rewrite He. reflexivity.
  - destruct (redis_up r); [|reflexivity]. rewrite He.
    destruct (truthy data); [|reflexivity]. rewrite Hl. reflexivity.
  - destruct (redis_up r); [|reflexivity]. rewrite He.
    destruct (truthy data); [|reflexivity]. rewrite Hl. exact Hv.
Qed.

Lemma cache_silent_get (self : service) (key : string) :
  cache_silent self key -> _cache_get self key = JNull.
Proof.
  unfold cache_silent, cache_entry, _cache_get, redis_get.
  destruct (redis_client self) as [r|]; [|reflexivity].
  destruct (redis_up r); [|reflexivity].
  intros ->. reflexivity.
Qed.

Lemma no_office_find (target : string) (l : list value) :
  no_office target l ->
  find_office l target = None \/ find_office l target = Some None.
Proof.
  induction 1 as [| office rest Hbad | office rest d Hd Hne _ IH]; simpl.
  - right. reflexivity.
  - rewrite Hbad. left. reflexivity.
  - rewrite Hd, Hne. exact IH.
Qed.

Lemma dataset_miss_lookup (self : service) (dt : date) :
  valid dt = true -> dataset_miss self dt -> _lookup_daily_office self dt = JNull.
Proof.
  intros Hv Hm. pose proof (valid_year dt Hv) as Hy.
  unfold _lookup_daily_office.
  destruct Hm as [H | path H Hf | path H Hf | path text H Hf Hl
                  | path text offices H Hf Hl Hi
                  | path text offices elements H Hf Hl Hi Hno];
    rewrite H; try reflexivity;
    rewrite new_in_range by lia;
    unfold dataset_file in Hf; rewrite Hf; try reflexivity.
  - rewrite Hl. reflexivity.
  - rewrite Hl, Hi. reflexivity.
  - rewrite Hl, Hi. unfold dataset_day in Hno.
    destruct (no_office_find _ _ Hno) as [-> | ->]; reflexivity.
Qed.

Lemma dataset_unavailable_lookup (self : service) (dt : date) :
  valid dt = true -> dataset_unavailable self ->
  _lookup_daily_office self dt = JNull.
Proof.
  intros Hv [H | H].
  - apply dataset_miss_lookup; [exact Hv|]. constructor 1. exact H.
  - destruct (daily_office_path self) as [path|] eqn:Ep.
    + destruct (files self (dataset_file path dt)) eqn:Ef.
      * apply dataset_miss_lookup; [exact Hv|]. econstructor 2; eassumption.
      * apply dataset_miss_lookup; [exact Hv|]. econstructor 3; eassumption.
      * exfalso. exact (H _ _ Ef).
    + apply dataset_miss_lookup; [exact Hv|]. constructor 1. exact Ep.
Qed.

Lemma remote_miss_lookup (self : service) (dt : date) :
  remote_miss self dt -> _lookup_lectserve self dt = JNull.
Proof.
  unfold _lookup_lectserve.
  intros [H | H | status body H Hs | body H Hl];
    unfold lectserve_url in H;
    destruct (has_httpx self); try reflexivity; try discriminate;
    rewrite H; try reflexivity; simpl.
  - apply Z.eqb_neq in Hs. rewrite Hs. reflexivity.
  - rewrite Hl. reflexivity.
Qed.

Lemma remote_unreachable_lookup (self : service) (dt : date) :
  remote_unreachable self -> _lookup_lectserve self dt = JNull.
Proof.
  intros [H | H]; apply remote_miss_lookup.
  - constructor 1. exact H.
  - constructor 2. apply H.
Qed.

(** Every tier returns nothing or a [dict] of a source and readings. *)
Lemma daily_office_shape (self : service) (dt : date) :
  tier_result (_lookup_daily_office self dt).
Proof.
  unfold _lookup_daily_office, tier_result.
  destruct (daily_office_path self); [|now left].
  destruct (new (year dt) 11 27); [|now left].
  destruct (files self _); try (now left).
  destruct (loads text); [|now left].
  destruct (iterate v); [|now left].
  destruct (find_office l _) as [[office|]|]; try (now left).
  right. eauto.
Qed.

Lemma lectserve_shape (self : service) (dt : date) :
  tier_result (_lookup_lectserve self dt).
Proof.
  unfold _lookup_lectserve, tier_result.
  destruct (has_httpx self); [|now left].
  destruct (http_get self _) as [[status body]|]; [|now left].
  simpl. destruct (status =? 200); [|now left].
  destruct (loads body); [|now left].
  right. eauto.
Qed.

Lemma partial_loop_shape (name_lower : string) (l : list (string * value))
    (best : value * Z) :
  tier_result (fst best) ->
  tier_result (fst (fold_left (partial_step name_lower) l best)).
Proof.
  revert best. induction l as [|[p r] l IH]; intros best Hb; [exact Hb|].
  simpl fold_left. apply IH. unfold partial_step.
  destruct (_ && _); [|exact Hb].
  right. unfold builtin_result. simpl. eauto.
Qed.

Lemma builtin_shape (day_name : string) : tier_result (_lookup_builtin day_name).
Proof.
  unfold _lookup_builtin.
  destruct (negb (truthy day_name)); [now left|].
  destruct (find _ BUILTIN_YEAR_A) as [[p r]|].
  - right. unfold builtin_result. eauto.
  - apply partial_loop_shape. now left.
Qed.

End Tiers.

(* ================================================================== *)
(** ** [get_readings]                                                  *)
(* ================================================================== *)

Lemma to_date_valid (arg : date_arg) (dt : date) :
  to_date arg = Some dt ->
  (forall d t, arg = ArgDate d \/ arg = ArgDatetime d t -> valid d = true) ->
  valid dt = true.
Proof.
  destruct arg as [s | d | d t]; simpl; intros H Hv.
  - unfold strptime_date in H.
    destruct (match_Y_m_d s) as [[[[y m] d] rest]|]; [|discriminate].
    destruct rest; [|discriminate].
    apply new_valid in H as [_ H]. exact H.
  - injection H as <-. apply (Hv d 0). left. reflexivity.
  - injection H as <-. apply (Hv d t). right. reflexivity.
Qed.

(** C7.  For every valid date, when the cache misses, the local dataset
    yields no matching entry, the remote service fails or answers with
    another status than 200, and no day name is given or it matches no
    entry of the built-in table, [get_readings] returns the result with
    source ["none"] and no readings, and changes nothing.  The failures
    inside a tier (a failing cache, a payload that is no JSON, a missing,
    unreadable or corrupt dataset file, a transport error, an unreadable
    body) are among the misses: none of them is raised to the caller. *)
Theorem all_tiers_miss {json : Codec} (self : service) (arg : date_arg)
    (dt : date) (day_name : option string) :
  to_date arg = Some dt ->
  valid dt = true ->
  cache_miss self (cache_key dt) ->
  dataset_miss self dt ->
  remote_miss self dt ->
  builtin_miss day_name ->
  get_readings self arg day_name = (Returned no_readings, self)
  /\ getitem no_readings "source" = Some (JStr "none")
  /\ getitem no_readings "readings" = Some JNull.
Proof.
  intros Harg Hv Hc Hd Hr Hb.
  split; [|split; reflexivity].
  unfold get_readings. rewrite Harg.
  fold (cache_key dt). rewrite (cache_miss_get _ _ Hc).
  rewrite (dataset_miss_lookup _ _ Hv Hd). simpl negb. cbv iota.
  rewrite (remote_miss_lookup _ _ Hr). simpl truth. simpl negb.
  destruct Hb as [ | | name Hno].
  - reflexivity.
  - reflexivity.
  - simpl andb. rewrite (lookup_builtin_none name Hno).
    destruct (truthy name); reflexivity.
Qed.

Lemma all_tiers_miss_witness :
  valid (mkdate 2026 1 25) = true
  /\ get_readings (json := PyJson.codec) failing_service
       (ArgStr "2026-01-25") None
     = (Returned no_readings, failing_service).
Proof.
  split; [reflexivity|].
  apply (all_tiers_miss (json := PyJson.codec) failing_service
           (ArgStr "2026-01-25") (mkdate 2026 1 25) None).
  - reflexivity.
  - reflexivity.
  - apply (cache_failing _ _ (mkredis false [])); reflexivity.
  - apply (dataset_file_corrupt _ _ "/srv/daily-office" "{not json");
      reflexivity.
  - apply (remote_bad_status _ _ 503 "Service Unavailable");
      [reflexivity | discriminate].
  - constructor.
Defined.

(** C10.  The day name is read by the built-in tier only: whenever the
    cache, the local dataset or the remote service produces the result,
    two calls that differ in the day name alone (given or not) have the
    same outcome and leave the same service. *)
Theorem day_name_reaches_builtin_tier_only {json : Codec} (self : service)
    (arg : date_arg) (dt : date) (name1 name2 : option string) :
  to_date arg = Some dt ->
  truth (_cache_get self (cache_key dt)) = true
  \/ truth (_lookup_daily_office self dt) = true
  \/ truth (_lookup_lectserve self dt) = true ->
  get_readings self arg name1 = get_readings self arg name2.
Proof.
  intros Hd Hhit. unfold get_readings. rewrite Hd. fold (cache_key dt).
  destruct (truth (_cache_get self (cache_key dt))); [reflexivity|].
  assert (Hres : truth (if negb (truth (_lookup_daily_office self dt))
                        then _lookup_lectserve self dt
                        else _lookup_daily_office self dt) = true).
  { destruct Hhit as [Hhit | [Hhit | Hhit]]; [discriminate | |].
    - rewrite Hhit. exact Hhit.
    - destruct (truth (_lookup_daily_office self dt)) eqn:E; [exact E | exact Hhit]. }
  destruct name1, name2; rewrite !Hres; simpl; rewrite ?Hres; reflexivity.
Qed.

Lemma day_name_reaches_builtin_tier_only_witness :
  to_date (ArgStr "2026-01-25") = Some (mkdate 2026 1 25)
  /\ get_readings (json := PyJson.codec) online_service (ArgStr "2026-01-25")
       (Some "The Third Sunday after the Epiphany")
     = get_readings (json := PyJson.codec) online_service (ArgStr "2026-01-25")
         None.
Proof.
  split; [reflexivity|].
  apply (day_name_reaches_builtin_tier_only (json := PyJson.codec)
           online_service (ArgStr "2026-01-25") (mkdate 2026 1 25)).
  - reflexivity.
  - right. right. reflexivity.
Defined.

(** C6 as the claim words it fails on the psalm: with no cache, no local
    dataset and no network, the readings returned for the third Sunday
    after the Epiphany cite ["Psalm 27:1, 5-13"], not ["Psalm 27"]. *)
Lemma epiphany_3_psalm_counterexample :
  cache_silent offline_service (cache_key (mkdate 2026 1 25))
  /\ dataset_unavailable offline_service
  /\ remote_unreachable offline_service
  /\ exists r readings,
       fst (get_readings (json := PyJson.codec) offline_service
              (ArgStr "2026-01-25")
              (Some "The Third Sunday after the Epiphany"))
       = Returned r
       /\ getitem r "readings" = Some readings
       /\ getitem readings "psalm" = Some (JStr "Psalm 27:1, 5-13")
       /\ getitem readings "psalm" <> Some (JStr "Psalm 27").
Proof.
  split; [reflexivity|]. split; [left; reflexivity|].
  split; [left; reflexivity|].
  eexists. eexists. split; [vm_compute; reflexivity|].
  split; [reflexivity|]. split; [reflexivity|]. discriminate.
Qed.

(** C6, with the citations of the table.  When the cache is empty or
    unreachable, the local dataset is unavailable and the remote service
    is unreachable, [get_readings("2026-01-25", day_name="The Third Sunday
    after the Epiphany")] answers from the built-in tier (source
    ["builtin-year-a"]) with first lesson Isaiah 9:1-4, psalm Psalm 27:1,
    5-13, second lesson 1 Corinthians 1:10-18 and gospel Matthew
    4:12-23. *)
Theorem epiphany_3_from_builtin_tier {json : Codec} (self : service) :
  cache_silent self (cache_key (mkdate 2026 1 25)) ->
  dataset_unavailable self ->
  remote_unreachable self ->
  fst (get_readings self (ArgStr "2026-01-25")
         (Some "The Third Sunday after the Epiphany"))
  = Returned
      (JObj [("source", JStr "builtin-year-a");
             ("readings",
              JObj [("first_lesson", JStr "Isaiah 9:1-4");
                    ("psalm", JStr "Psalm 27:1, 5-13");
                    ("second_lesson", JStr "1 Corinthians 1:10-18");
                    ("gospel", JStr "Matthew 4:12-23")])]).
Proof.
  intros Hc Hd Hr.
  unfold get_readings.
  change (to_date (ArgStr "2026-01-25")) with (Some (mkdate 2026 1 25)).
  cbv iota beta. fold (cache_key (mkdate 2026 1 25)).
  rewrite (cache_silent_get _ _ Hc). simpl truth. cbv iota.
  rewrite (dataset_unavailable_lookup self (mkdate 2026 1 25) eq_refl Hd).
  simpl truth. simpl negb.
  cbv iota.
  rewrite (remote_unreachable_lookup _ _ Hr). simpl truth. simpl negb.
  change (truthy "The Third Sunday after the Epiphany") with true.
  simpl andb. cbv iota.
  change (_lookup_builtin "The Third Sunday after the Epiphany")
    with (builtin_result epiphany_3_readings).
  reflexivity.
Qed.

Lemma epiphany_3_from_builtin_tier_witness :
  cache_silent offline_service (cache_key (mkdate 2026 1 25))
  /\ dataset_unavailable offline_service
  /\ remote_unreachable offline_service
  /\ fst (get_readings (json := PyJson.codec) offline_service
            (ArgStr "2026-01-25") (Some "The Third Sunday after the Epiphany"))
     = Returned (builtin_result epiphany_3_readings).
Proof.
  split; [reflexivity|]. split; [left; reflexivity|].
  split; [left; reflexivity|].
  apply (epiphany_3_from_builtin_tier (json := PyJson.codec) offline_service).
  - reflexivity.
  - left. reflexivity.
  - left. reflexivity.
Defined.

(* ================================================================== *)
(** ** The write-back to the cache                                     *)
(* ================================================================== *)

Section WriteBack.
Context {json : Codec}.

Lemma cache_set_up (self : service) (client : redis) (key : string)
    (data : value) :
  redis_client self = Some client -> redis_up client = true ->
  _cache_set self key data
  = with_redis self
      (mkredis true
         ((key, (default_ttl, dumps data))
          :: filter (fun e => negb (fst e =? key)%string) (redis_data client))).
Proof.
  intros Hc Hup. unfold _cache_set, redis_setex. rewrite Hc, Hup. reflexivity.
Qed.

Lemma cache_entry_after_set (self : service) (key text : string) (ttl : Z)
    (rest : list (string * (Z * string))) :
  cache_entry (with_redis self (mkredis true ((key, (ttl, text)) :: rest))) key
  = Some (ttl, text).
Proof.
  unfold cache_entry, with_redis. cbn [redis_client redis_up redis_data].
  cbn [dict_lookup]. rewrite String.eqb_refl. reflexivity.
Qed.

Lemma cache_get_after_set (self : service) (key text : string) (ttl : Z)
    (rest : list (string * (Z * string))) :
  _cache_get (with_redis self (mkredis true ((key, (ttl, text)) :: rest))) key
  = if truthy text
    then match loads text with Some v => v | None => JNull end
    else JNull.
Proof.
  unfold _cache_get, redis_get, with_redis.
  cbn [redis_client redis_up redis_data dict_lookup].
  rewrite String.eqb_refl. reflexivity.
Qed.

(** What tiers 2 to 4 hand over is nothing or a [dict] of a source and
    readings. *)
Lemma lower_tiers_shape (self : service) (dt : date)
    (day_name : option string) :
  tier_result
    (match day_name with
     | Some name =>
         if negb (truth (if negb (truth (_lookup_daily_office self dt))
                         then _lookup_lectserve self dt
                         else _lookup_daily_office self dt))
            && truthy name
         then _lookup_builtin name
         else if negb (truth (_lookup_daily_office self dt))
              then _lookup_lectserve self dt
              else _lookup_daily_office self dt
     | None =>
         if negb (truth (_lookup_daily_office self dt))
         then _lookup_lectserve self dt
         else _lookup_daily_office self dt
     end).
Proof.
  assert (H23 : tier_result (if negb (truth (_lookup_daily_office self dt))
                             then _lookup_lectserve self dt
                             else _lookup_daily_office self dt)).
  { destruct (negb _); [apply lectserve_shape | apply daily_office_shape]. }
  destruct day_name as [name|]; [|exact H23].
  destruct (_ && _); [apply builtin_shape | exact H23].
Qed.

End WriteBack.

(* ================================================================== *)
(** ** [json.loads] reads back what [json.dumps] writes                *)
(* ================================================================== *)

Lemma append_assoc (a b c : string) : ((a ++ b) ++ c = a ++ b ++ c)%string.
Proof. induction a as [|x a IH]; simpl; [reflexivity | rewrite IH; reflexivity]. Qed.

Lemma length_append (a b : string) :
  String.length (a ++ b) = (String.length a + String.length b)%nat.
Proof. induction a as [|x a IH]; simpl; [reflexivity | rewrite IH; reflexivity]. Qed.

(** One character of a string literal. *)
Lemma read_string_escape_char (c : ascii) (t : string) :
  PyJson.read_string (PyJson.escape_char c ++ t)
  = match PyJson.read_string t with
    | Some (u, r) => Some (String c u, r)
    | None => None
    end.
Proof.
  destruct c as [[] [] [] [] [] [] [] []]; reflexivity.
Qed.

Lemma read_string_escape (s rest : string) :
  PyJson.read_string (PyJson.escape s ++ PyJson.dquote ++ rest)
  = Some (s, rest).
Proof.
  induction s as [|c s IH]; [reflexivity|].
  cbn [PyJson.escape]. rewrite append_assoc, read_string_escape_char, IH.
  reflexivity.
Qed.

Lemma read_digits_uint (d : Decimal.uint) (acc : Z) (rest : string) :
  delimited rest ->
  PyJson.read_digits acc (NilEmpty.string_of_uint d ++ rest)
  = (uint_value acc d, rest).
Proof.
  intros Hrest. revert acc.
  induction d; intros acc; cbn [NilEmpty.string_of_uint uint_value];
    try (cbn [append PyJson.read_digits]; apply IHd).
  cbn [append]. destruct rest as [|c r]; [reflexivity|].
  cbn [PyJson.read_digits]. cbn in Hrest. rewrite Hrest. reflexivity.
Qed.

Lemma uint_value_acc (d : Decimal.uint) (p : positive) :
  uint_value (Z.pos p) d = Z.pos (Pos.of_uint_acc d p).
Proof.
  revert p. induction d; intros p; cbn [uint_value Pos.of_uint_acc];
    [reflexivity | ..];
    match goal with
    | |- uint_value ?a _ = Z.pos (Pos.of_uint_acc _ ?q) =>
        replace a with (Z.pos q) by lia; apply IHd
    end.
Qed.

Lemma uint_value_of_uint (d : Decimal.uint) :
  uint_value 0 d = Z.of_N (Pos.of_uint d).
Proof.
  induction d; cbn [uint_value Pos.of_uint]; [reflexivity | exact IHd | ..];
    cbn [Z.mul Z.add Z.of_N]; apply uint_value_acc.
Qed.

Lemma uint_value_pos (p : positive) : uint_value 0 (Pos.to_uint p) = Z.pos p.
Proof. rewrite uint_value_of_uint, Unsigned.of_to. reflexivity. Qed.

(** The numeral of a positive number starts with a digit. *)
Lemma numeral_head (p : positive) :
  exists c t,
    NilEmpty.string_of_uint (Pos.to_uint p) = String c t
    /\ isdigit c = true.
Proof.
  pose proof (Unsigned.to_uint_nonnil p) as H.
  destruct (Pos.to_uint p); [congruence | ..];
    cbn [NilEmpty.string_of_uint]; eexists _, _; split; reflexivity.
Qed.

Lemma str_pos (p : positive) :
  str (Z.pos p) = NilEmpty.string_of_uint (Pos.to_uint p).
Proof.
  unfold str. cbn [Z.to_int NilZero.string_of_int NilZero.string_of_uint].
  pose proof (Unsigned.to_uint_nonnil p) as H.
  destruct (Pos.to_uint p); [congruence | ..]; reflexivity.
Qed.

Lemma str_neg (p : positive) :
  str (Z.neg p) = String "-" (NilEmpty.string_of_uint (Pos.to_uint p)).
Proof.
  unfold str. cbn [Z.to_int NilZero.string_of_int NilZero.string_of_uint].
  pose proof (Unsigned.to_uint_nonnil p) as H.
  destruct (Pos.to_uint p); [congruence | ..]; reflexivity.
Qed.

Lemma read_number_str (n : Z) (rest : string) :
  delimited rest ->
  PyJson.read_number (str n ++ rest) = Some (JNum n, rest).
Proof.
  intros Hrest. destruct n as [|p|p].
  - change (str 0) with "0". cbn [append].
    unfold PyJson.read_number.
    change (code "0" =? 45) with false. change (isdigit "0") with true.
    cbn beta iota.
    change (String "0" rest)
      with (NilEmpty.string_of_uint (Decimal.D0 Decimal.Nil) ++ rest)%string.
    rewrite read_digits_uint by exact Hrest. reflexivity.
  - rewrite str_pos. destruct (numeral_head p) as (c & t & Hs & Hc).
    pose proof (read_digits_uint (Pos.to_uint p) 0 rest Hrest) as Hd.
    rewrite Hs in *. cbn [append] in *. unfold PyJson.read_number.
    assert (H45 : (code c =? 45) = false).
    { unfold isdigit in Hc. apply andb_prop in Hc as [H1 H2].
      apply Z.leb_le in H1. apply Z.eqb_neq. lia. }
    rewrite H45, Hc, Hd, uint_value_pos. reflexivity.
  - rewrite str_neg. destruct (numeral_head p) as (c & t & Hs & Hc).
    pose proof (read_digits_uint (Pos.to_uint p) 0 rest Hrest) as Hd.
    rewrite Hs in *. cbn [append] in *. unfold PyJson.read_number.
    change (code "-" =? 45) with true. cbn beta iota.
    rewrite Hc, Hd, uint_value_pos. reflexivity.
Qed.

(** The text of a number starts with a digit or a minus sign. *)
Lemma str_head (n : Z) :
  exists c t, str n = String c t /\ (isdigit c = true \/ code c = 45).
Proof.
  destruct n as [|p|p].
  - exists "0"%char, EmptyString. split; [reflexivity | left; reflexivity].
  - rewrite str_pos. destruct (numeral_head p) as (c & t & Hs & Hc).
    exists c, t. auto.
  - rewrite str_neg. eexists _, _. split; [reflexivity | right; reflexivity].
Qed.

(** *** Well-formed values *)

Lemma existsb_eqb_In (x : string) (l : list string) :
  existsb (String.eqb x) l = true <-> In x l.
Proof.
  rewrite existsb_exists. split.
  - intros (y & Hy & He). apply String.eqb_eq in He. subst. exact Hy.
  - intros H. exists x. split; [exact H | apply String.eqb_refl].
Qed.

Lemma distinct_NoDup (l : list string) : distinct l = true <-> NoDup l.
Proof.
  induction l as [|x l IH]; cbn [distinct].
  - split; [constructor | reflexivity].
  - rewrite andb_true_iff, negb_true_iff, IH. split.
    + intros [Hx Hl]. constructor; [|exact Hl].
      intros Hin. apply existsb_eqb_In in Hin. congruence.
    + intros H. inversion H as [|? ? Hx Hl]. split; [|exact Hl].
      destruct (existsb (String.eqb x) l) eqn:E; [|reflexivity].
      apply existsb_eqb_In in E. contradiction.
Qed.

Lemma well_formed_array (l : list value) :
  well_formed (JArr l) = true <-> all_well_formed l.
Proof.
  unfold all_well_formed. cbn [well_formed].
  induction l as [|x l IH].
  - split; [constructor | reflexivity].
  - rewrite andb_true_iff, IH. split.
    + intros [Hx Hl]. constructor; assumption.
    + intros H. inversion H. auto.
Qed.

Lemma well_formed_values (items : list (string * value)) :
  (fix all (l : list (string * value)) : bool :=
     match l with
     | [] => true
     | (_, x) :: r => well_formed x && all r
     end) items = true
  <-> Forall (fun kv => well_formed (snd kv) = true) items.
Proof.
  induction items as [|[k x] l IH].
  - split; [constructor | reflexivity].
  - rewrite andb_true_iff, IH. split.
    + intros [Hx Hl]. constructor; assumption.
    + intros H. inversion H. auto.
Qed.

Lemma well_formed_object (items : list (string * value)) :
  well_formed (JObj items) = true <-> members_well_formed items.
Proof.
  unfold members_well_formed. cbn [well_formed].
  rewrite andb_true_iff, distinct_NoDup, well_formed_values. reflexivity.
Qed.

Lemma items_set_fresh (acc : list (string * value)) (k : string) (v : value) :
  ~ In k (map fst acc) -> items_set acc k v = (acc ++ [(k, v)])%list.
Proof.
  induction acc as [|[k' x] acc IH]; cbn [items_set map fst In app];
    [reflexivity|].
  intros H. destruct (String.eqb_spec k' k) as [->|Hne].
  - exfalso. apply H. left. reflexivity.
  - rewrite IH; [reflexivity|]. intros Hin. apply H. right. exact Hin.
Qed.

Lemma items_set_well_formed (acc : list (string * value)) (k : string)
    (v : value) :
  members_well_formed acc -> well_formed v = true ->
  members_well_formed (items_set acc k v).
Proof.
  unfold members_well_formed. intros [Hk Hv] Hw.
  assert (Hkeys : map fst (items_set acc k v) = map fst acc
                  \/ (~ In k (map fst acc)
                      /\ map fst (items_set acc k v)
                         = (map fst acc ++ [k])%list)).
  { clear Hk Hv. induction acc as [|[k' x] acc IH]; cbn [items_set map fst].
    - right. split; [intros []|reflexivity].
    - destruct (String.eqb_spec k' k) as [->|Hne].
      + left. reflexivity.
      + cbn [map fst]. destruct IH as [IH | [Hn IH]].
        * left. rewrite IH. reflexivity.
        * right. split; [|rewrite IH; reflexivity].
          intros [H | H]; [congruence | contradiction]. }
  split.
  - destruct Hkeys as [-> | [Hn ->]]; [exact Hk|].
    apply NoDup_app; [exact Hk | constructor; [intros []|constructor] |].
    intros x Hx [<- | []]. contradiction.
  - clear Hk Hkeys. induction acc as [|[k' x] acc IH]; cbn [items_set].
    + constructor; [exact Hw | constructor].
    + inversion Hv as [|? ? Hx Hl]. destruct (k' =? k)%string.
      * constructor; [exact Hw | exact Hl].
      * constructor; [exact Hx | apply IH; exact Hl].
Qed.

(** *** What the reader returns is well formed *)

Lemma read_number_well_formed (s : string) (v : value) (rest : string) :
  PyJson.read_number s = Some (v, rest) -> well_formed v = true.
Proof.
  unfold PyJson.read_number. destruct s as [|c r]; [discriminate|].
  destruct (code c =? 45).
  - destruct r as [|d r']; [discriminate|].
    destruct (isdigit d); [|discriminate].
    destruct (PyJson.read_digits 0 (String d r')). intros [= <- _]. reflexivity.
  - destruct (isdigit c); [|discriminate].
    destruct (PyJson.read_digits 0 (String c r)). intros [= <- _]. reflexivity.
Qed.

Lemma read_literal_value (lit : string) (x : value) (s : string) (v : value)
    (rest : string) :
  PyJson.read_literal lit x s = Some (v, rest) -> v = x.
Proof.
  unfold PyJson.read_literal. destruct (startswith lit s); [|discriminate].
  intros [= <- _]. reflexivity.
Qed.

Lemma read_value_S (fuel : nat) (s : string) :
  PyJson.read_value (S fuel) s
  = match PyJson.skip_ws s with
    | String c r =>
        let n := code c in
        if n =? 123 then
          match PyJson.skip_ws r with
          | String c' r' =>
              if code c' =? 125 then Some (JObj [], r')
              else PyJson.read_members fuel (PyJson.skip_ws r) []
          | EmptyString => None
          end
        else if n =? 91 then
          match PyJson.skip_ws r with
          | String c' r' =>
              if code c' =? 93 then Some (JArr [], r')
              else PyJson.read_elements fuel r []
          | EmptyString => None
          end
        else if n =? 34 then
          match PyJson.read_string r with
          | Some (t, rest) => Some (JStr t, rest)
          | None => None
          end
        else if n =? 116 then PyJson.read_literal "true" (JBool true) (String c r)
        else if n =? 102 then PyJson.read_literal "false" (JBool false) (String c r)
        else if n =? 110 then PyJson.read_literal "null" JNull (String c r)
        else PyJson.read_number (String c r)
    | EmptyString => None
    end.
Proof. reflexivity. Qed.

Lemma read_elements_S (fuel : nat) (s : string) (acc : list value) :
  PyJson.read_elements (S fuel) s acc
  = match PyJson.read_value fuel s with
    | Some (v, rest) =>
        match PyJson.skip_ws rest with
        | String c r =>
            if code c =? 44 then PyJson.read_elements fuel r (v :: acc)
            else if code c =? 93 then Some (JArr (rev (v :: acc)), r)
            else None
        | EmptyString => None
        end
    | None => None
    end.
Proof. reflexivity. Qed.

Lemma read_members_S (fuel : nat) (s : string)
    (acc : list (string * value)) :
  PyJson.read_members (S fuel) s acc
  = match s with
    | String q r =>
        if code q =? 34 then
          match PyJson.read_string r with
          | Some (k, rest) =>
              match PyJson.skip_ws rest with
              | String c r1 =>
                  if code c =? 58 then
                    match PyJson.read_value fuel r1 with
                    | Some (v, rest1) =>
                        match PyJson.skip_ws rest1 with
                        | String c2 r2 =>
                            if code c2 =? 44
                            then PyJson.read_members fuel (PyJson.skip_ws r2)
                                   (items_set acc k v)
                            else if code c2 =? 125
                            then Some (JObj (items_set acc k v), r2)
                            else None
                        | EmptyString => None
                        end
                    | None => None
                    end
                  else None
              | EmptyString => None
              end
          | None => None
          end
        else None
    | EmptyString => None
    end.
Proof. reflexivity. Qed.

Lemma readers_well_formed (fuel : nat) :
  (forall s v rest,
     PyJson.read_value fuel s = Some (v, rest) -> well_formed v = true)
  /\ (forall s acc v rest,
        all_well_formed acc ->
        PyJson.read_elements fuel s acc = Some (v, rest) ->
        well_formed v = true)
  /\ (forall s acc v rest,
        members_well_formed acc ->
        PyJson.read_members fuel s acc = Some (v, rest) ->
        well_formed v = true).
Proof.
  induction fuel as [|fuel (IHv & IHe & IHm)].
  { repeat split; intros; discriminate. }
  split; [|split].
  - intros s v rest. rewrite read_value_S.
    destruct (PyJson.skip_ws s) as [|c r]; [discriminate|]. cbv zeta.
    destruct (code c =? 123).
    { destruct (PyJson.skip_ws r) as [|c' r'] eqn:Er; [discriminate|].
      destruct (code c' =? 125); [intros [= <- _]; reflexivity|].
      apply IHm. split; constructor. }
    destruct (code c =? 91).
    { destruct (PyJson.skip_ws r) as [|c' r']; [discriminate|].
      destruct (code c' =? 93); [intros [= <- _]; reflexivity|].
      apply IHe. constructor. }
    destruct (code c =? 34).
    { destruct (PyJson.read_string r) as [[t rest0]|]; [|discriminate].
      intros [= <- _]. reflexivity. }
    destruct (code c =? 116).
    { intros H. apply read_literal_value in H. subst. reflexivity. }
    destruct (code c =? 102).
    { intros H. apply read_literal_value in H. subst. reflexivity. }
    destruct (code c =? 110).
    { intros H. apply read_literal_value in H. subst. reflexivity. }
    apply read_number_well_formed.
  - intros s acc v rest Hacc. rewrite read_elements_S.
    destruct (PyJson.read_value fuel s) as [[x rest0]|] eqn:Ex; [|discriminate].
    apply IHv in Ex.
    destruct (PyJson.skip_ws rest0) as [|c r]; [discriminate|].
    destruct (code c =? 44).
    { apply IHe. constructor; assumption. }
    destruct (code c =? 93); [|discriminate].
    intros [= <- _]. apply well_formed_array.
    unfold all_well_formed. apply Forall_app.
    split; [apply Forall_rev; exact Hacc | constructor; [exact Ex | constructor]].
  - intros s acc v rest Hacc. rewrite read_members_S.
    destruct s as [|q r]; [discriminate|].
    destruct (code q =? 34); [|discriminate].
    destruct (PyJson.read_string r) as [[k rest0]|]; [|discriminate].
    destruct (PyJson.skip_ws rest0) as [|c r1]; [discriminate|].
    destruct (code c =? 58); [|discriminate].
    destruct (PyJson.read_value fuel r1) as [[x rest1]|] eqn:Ex; [|discriminate].
    apply IHv in Ex.
    destruct (PyJson.skip_ws rest1) as [|c2 r2]; [discriminate|].
    destruct (code c2 =? 44).
    { apply IHm. apply items_set_well_formed; assumption. }
    destruct (code c2 =? 125); [|discriminate].
    intros [= <- _]. apply well_formed_object.
    apply items_set_well_formed; assumption.
Qed.

Lemma parse_well_formed (s : string) (v : value) :
  PyJson.parse s = Some v -> well_formed v = true.
Proof.
  unfold PyJson.parse.
  destruct (PyJson.read_value (S (String.length s)) s) as [[x rest]|] eqn:E;
    [|discriminate].
  destruct (PyJson.skip_ws rest); [|discriminate].
  intros [= <-]. exact (proj1 (readers_well_formed _) _ _ _ E).
Qed.

(** *** Reading the text of a value *)

Lemma value_induction (P : value -> Prop) :
  P JNull -> (forall b, P (JBool b)) -> (forall n, P (JNum n)) ->
  (forall s, P (JStr s)) ->
  (forall l, Forall P l -> P (JArr l)) ->
  (forall items, Forall (fun kv => P (snd kv)) items -> P (JObj items)) ->
  forall v, P v.
Proof.
  intros HNull HBool HNum HStr HArr HObj.
  fix IH 1. intros [ | b | n | s | l | items].
  - exact HNull.
  - apply HBool.
  - apply HNum.
  - apply HStr.
  - apply HArr. revert l. fix IHl 1. intros [|x l].
    + constructor.
    + constructor; [apply IH | apply IHl].
  - apply HObj. revert items. fix IHl 1. intros [|[k x] l].
    + constructor.
    + constructor; [apply IH | apply IHl].
Qed.

Lemma reads_array (l : list value) : reads (JArr l) = S (element_reads l).
Proof. reflexivity. Qed.

Lemma reads_object (items : list (string * value)) :
  reads (JObj items) = S (member_reads items).
Proof.
  cbn [reads]. apply f_equal. induction items as [|[k x] l IH]; [reflexivity|].
  cbn [member_reads fold_right snd]. rewrite IH. reflexivity.
Qed.

Lemma print_array (l : list value) :
  PyJson.print (JArr l)
  = ("[" ++ PyJson.join ", " (map PyJson.print l) ++ "]")%string.
Proof. reflexivity. Qed.

Lemma print_object (items : list (string * value)) :
  PyJson.print (JObj items)
  = ("{" ++ PyJson.join ", " (map member_text items) ++ "}")%string.
Proof. reflexivity. Qed.

Lemma join_map_cons {A} (f : A -> string) (sep : string) (x y : A)
    (l : list A) :
  PyJson.join sep (map f (x :: y :: l))
  = (f x ++ sep ++ PyJson.join sep (map f (y :: l)))%string.
Proof. reflexivity. Qed.

Lemma read_value_space (fuel : nat) (s : string) :
  PyJson.read_value fuel (String " " s) = PyJson.read_value fuel s.
Proof. destruct fuel; reflexivity. Qed.

Lemma read_elements_space (fuel : nat) (s : string) (acc : list value) :
  PyJson.read_elements fuel (String " " s) acc
  = PyJson.read_elements fuel s acc.
Proof.
  destruct fuel; [reflexivity|].
  rewrite !read_elements_S, read_value_space. reflexivity.
Qed.

Lemma skip_ws_head (c : ascii) (r : string) :
  PyJson.is_ws c = false -> PyJson.skip_ws (String c r) = String c r.
Proof. intros H. cbn [PyJson.skip_ws]. rewrite H. reflexivity. Qed.

Lemma substring_all (s : string) (m : nat) :
  (String.length s <= m)%nat -> substring 0 m s = s.
Proof.
  revert m. induction s as [|c s IH]; intros [|m] H; cbn in *;
    try reflexivity; [lia|].
  rewrite IH by lia. reflexivity.
Qed.

Lemma read_value_number (fuel : nat) (c : ascii) (t : string) :
  isdigit c = true \/ code c = 45 ->
  PyJson.read_value (S fuel) (String c t) = PyJson.read_number (String c t).
Proof.
  intros H.
  destruct c as [[] [] [] [] [] [] [] []];
    first [reflexivity | destruct H as [H | H]; cbv in H; discriminate H].
Qed.

Lemma number_head (c : ascii) :
  isdigit c = true \/ code c = 45 ->
  PyJson.is_ws c = false /\ code c <> 93.
Proof.
  unfold isdigit, PyJson.is_ws. intros [H | H].
  - apply andb_prop in H as [H1 H2]. apply Z.leb_le in H1, H2.
    split; [|lia].
    repeat (apply orb_false_intro); apply Z.eqb_neq; lia.
  - rewrite H. split; [reflexivity | lia].
Qed.

(** The text of a value starts with a character that is no white space
    and closes no array. *)
Lemma print_head (v : value) :
  exists c t,
    PyJson.print v = String c t /\ PyJson.is_ws c = false /\ code c <> 93.
Proof.
  destruct v as [ | [|] | n | s | l | items];
    try (eexists _, _; split; [reflexivity | split; [reflexivity | discriminate]]).
  destruct (str_head n) as (c & t & Hs & Hc).
  exists c, t. split; [exact Hs | apply number_head; exact Hc].
Qed.

Lemma read_elements_join (l : list value) :
  l <> [] -> Forall reads_back l -> all_well_formed l ->
  forall fuel acc rest,
    (element_reads l <= fuel)%nat ->
    PyJson.read_elements fuel
      (PyJson.join ", " (map PyJson.print l) ++ String "]" rest) acc
    = Some (JArr (rev acc ++ l), rest).
Proof.
  induction l as [|x l IH]; [congruence|].
  intros _ Hback Hwf fuel acc rest Hfuel.
  inversion Hback as [|? ? Hx Hl]. inversion Hwf as [|? ? Wx Wl]. subst.
  cbn [element_reads fold_right] in Hfuel.
  destruct fuel as [|fuel]; [lia|].
  rewrite read_elements_S.
  destruct l as [|y l].
  - cbn [map PyJson.join]. rewrite (Hx Wx); [reflexivity | lia | reflexivity].
  - rewrite join_map_cons, !append_assoc.
    rewrite (Hx Wx); [|lia|reflexivity].
    cbn [append PyJson.skip_ws].
    change (PyJson.is_ws ",") with false. cbn beta iota.
    change (code "," =? 44) with true. cbn beta iota.
    rewrite read_elements_space.
    rewrite (IH ltac:(discriminate) Hl Wl)
      by (unfold element_reads in *; cbn [fold_right] in *; lia).
    cbn [rev]. rewrite <- app_assoc. reflexivity.
Qed.

Lemma member_text_head (kv : string * value) (rest : string) :
  (member_text kv ++ rest)%string
  = String (chr 34)
      (PyJson.escape (fst kv) ++ PyJson.dquote
       ++ String ":" (String " " (PyJson.print (snd kv) ++ rest)))%string.
Proof.
  unfold member_text, PyJson.quote.
  rewrite !append_assoc. reflexivity.
Qed.

Lemma read_members_join (items : list (string * value)) :
  items <> [] ->
  Forall (fun kv => reads_back (snd kv)) items ->
  forall fuel acc rest,
    NoDup (map fst (acc ++ items)) ->
    Forall (fun kv => well_formed (snd kv) = true) items ->
    (member_reads items <= fuel)%nat ->
    PyJson.read_members fuel
      (PyJson.join ", " (map member_text items) ++ String "}" rest) acc
    = Some (JObj (acc ++ items), rest).
Proof.
  induction items as [|[k x] l IH]; [congruence|].
  intros _ Hback fuel acc rest Hkeys Hwf Hfuel.
  inversion Hback as [|? ? Hx Hl]. inversion Hwf as [|? ? Wx Wl]. subst.
  cbn [snd] in Hx, Wx.
  unfold member_reads in Hfuel. cbn [fold_right snd] in Hfuel.
  destruct fuel as [|fuel]; [lia|].
  assert (Hfresh : items_set acc k x = (acc ++ [(k, x)])%list).
  { apply items_set_fresh. rewrite map_app in Hkeys. cbn [map fst] in Hkeys.
    apply NoDup_remove_2 in Hkeys. intros Hin. apply Hkeys.
    apply in_or_app. left. exact Hin. }
  rewrite read_members_S.
  destruct l as [|kv l].
  - cbn [map PyJson.join]. rewrite member_text_head.
    change (code (chr 34) =? 34) with true. cbn beta iota.
    cbn [fst snd]. rewrite read_string_escape.
    cbn [PyJson.skip_ws].
    change (PyJson.is_ws ":") with false. cbn beta iota.
    change (code ":" =? 58) with true. cbn beta iota.
    rewrite read_value_space.
    rewrite (Hx Wx); [|lia|reflexivity].
    rewrite Hfresh. reflexivity.
  - rewrite join_map_cons, !append_assoc, member_text_head.
    change (code (chr 34) =? 34) with true. cbn beta iota.
    cbn [fst snd]. rewrite read_string_escape.
    cbn [PyJson.skip_ws].
    change (PyJson.is_ws ":") with false. cbn beta iota.
    change (code ":" =? 58) with true. cbn beta iota.
    rewrite read_value_space.
    rewrite (Hx Wx); [|lia|reflexivity].
    cbn [append PyJson.skip_ws].
    change (PyJson.is_ws ",") with false. cbn beta iota.
    change (code "," =? 44) with true. cbn beta iota.
    change (PyJson.skip_ws (String " " ?X)) with (PyJson.skip_ws X).
    assert (Hskip : forall X,
              PyJson.skip_ws
                (PyJson.join ", " (map member_text (kv :: l)) ++ X)
              = (PyJson.join ", " (map member_text (kv :: l)) ++ X)%string).
    { intros X. destruct l as [|kv' l'].
      - cbn [map PyJson.join]. rewrite member_text_head. reflexivity.
      - rewrite join_map_cons, !append_assoc, member_text_head. reflexivity. }
    rewrite Hskip, Hfresh.
    rewrite (IH ltac:(discriminate) Hl).
    + rewrite <- app_assoc. reflexivity.
    + rewrite <- app_assoc. exact Hkeys.
    + exact Wl.
    + unfold member_reads. cbn [fold_right] in *. lia.
Qed.

(** Every well-formed value is read back from its text. *)
Lemma read_value_print (v : value) : reads_back v.
Proof.
  induction v as [ | b | n | s | l IH | items IH] using value_induction;
    intros Hwf fuel rest Hfuel Hrest.
  - destruct fuel as [|fuel]; [cbn in Hfuel; lia|].
    cbn [PyJson.print append]. rewrite read_value_S.
    cbn [PyJson.skip_ws]. change (PyJson.is_ws "n") with false.
    cbn beta iota zeta.
    change (code "n" =? 123) with false. change (code "n" =? 91) with false.
    change (code "n" =? 34) with false. change (code "n" =? 116) with false.
    change (code "n" =? 102) with false. change (code "n" =? 110) with true.
    cbn beta iota. unfold PyJson.read_literal.
    cbn [startswith Ascii.eqb Bool.eqb andb String.length substring].
    rewrite substring_all by lia. reflexivity.
  - destruct fuel as [|fuel]; [cbn in Hfuel; lia|].
    destruct b; cbn [PyJson.print append]; rewrite read_value_S;
      cbn [PyJson.skip_ws].
    + change (PyJson.is_ws "t") with false. cbn beta iota zeta.
      change (code "t" =? 123) with false. change (code "t" =? 91) with false.
      change (code "t" =? 34) with false. change (code "t" =? 116) with true.
      cbn beta iota. unfold PyJson.read_literal.
      cbn [startswith Ascii.eqb Bool.eqb andb String.length substring].
      rewrite substring_all by lia. reflexivity.
    + change (PyJson.is_ws "f") with false. cbn beta iota zeta.
      change (code "f" =? 123) with false. change (code "f" =? 91) with false.
      change (code "f" =? 34) with false. change (code "f" =? 116) with false.
      change (code "f" =? 102) with true.
      cbn beta iota. unfold PyJson.read_literal.
      cbn [startswith Ascii.eqb Bool.eqb andb String.length substring].
      rewrite substring_all by lia. reflexivity.
  - destruct fuel as [|fuel]; [cbn in Hfuel; lia|].
    cbn [PyJson.print].
    destruct (str_head n) as (c & t & Hs & Hc).
    pose proof (read_number_str n rest Hrest) as Hn.
    rewrite Hs in *. cbn [append] in *.
    rewrite read_value_number by exact Hc. exact Hn.
  - destruct fuel as [|fuel]; [cbn in Hfuel; lia|].
    cbn [PyJson.print]. unfold PyJson.quote. rewrite !append_assoc.
    change (PyJson.dquote ++ ?X)%string with (String (chr 34) X).
    rewrite read_value_S.
    cbn [PyJson.skip_ws]. change (PyJson.is_ws (chr 34)) with false.
    cbn beta iota zeta.
    change (code (chr 34) =? 123) with false.
    change (code (chr 34) =? 91) with false.
    change (code (chr 34) =? 34) with true. cbn beta iota.
    rewrite read_string_escape. reflexivity.
  - rewrite reads_array in Hfuel.
    destruct fuel as [|fuel]; [lia|].
    apply well_formed_array in Hwf.
    rewrite print_array. cbn [append]. rewrite read_value_S.
    cbn [PyJson.skip_ws]. change (PyJson.is_ws "[") with false.
    cbn beta iota zeta.
    change (code "[" =? 123) with false. change (code "[" =? 91) with true.
    cbn beta iota.
    destruct l as [|x l]; [reflexivity|].
    assert (Hhead : exists c t,
              ((PyJson.join ", " (map PyJson.print (x :: l)) ++ "]") ++ rest)%string
              = String c t
              /\ PyJson.is_ws c = false /\ code c <> 93).
    { destruct (print_head x) as (c & t & Hp & Hc).
      destruct l as [|y l].
      - cbn [map PyJson.join]. rewrite Hp. cbn [append]. eauto.
      - rewrite join_map_cons, Hp. cbn [append]. eauto. }
    destruct Hhead as (c & t & Hp & Hws & H93).
    rewrite Hp. rewrite skip_ws_head by exact Hws.
    apply Z.eqb_neq in H93. rewrite H93. rewrite <- Hp.
    rewrite append_assoc. cbn [append].
    rewrite (read_elements_join (x :: l) ltac:(discriminate) IH Hwf)
      by lia.
    reflexivity.
  - rewrite reads_object in Hfuel.
    destruct fuel as [|fuel]; [lia|].
    apply well_formed_object in Hwf. destruct Hwf as [Hkeys Hvals].
    rewrite print_object. cbn [append]. rewrite read_value_S.
    cbn [PyJson.skip_ws]. change (PyJson.is_ws "{") with false.
    cbn beta iota zeta.
    change (code "{" =? 123) with true. cbn beta iota.
    destruct items as [|kv l]; [reflexivity|].
    assert (Hhead : forall X,
              (PyJson.join ", " (map member_text (kv :: l)) ++ X)%string
              = String (chr 34)
                  (substring 1
                     (String.length
                        (PyJson.join ", " (map member_text (kv :: l)) ++ X))
                     (PyJson.join ", " (map member_text (kv :: l)) ++ X))).
    { intros X. destruct l as [|kv' l'].
      - cbn [map PyJson.join]. rewrite member_text_head.
        cbn [String.length substring]. rewrite substring_all by lia.
        reflexivity.
      - rewrite join_map_cons, !append_assoc, member_text_head.
        cbn [String.length substring]. rewrite substring_all by lia.
        reflexivity. }
    rewrite append_assoc. cbn [append].
    rewrite (Hhead (String "}" rest)).
    cbn [PyJson.skip_ws]. change (PyJson.is_ws (chr 34)) with false.
    cbn beta iota.
    change (code (chr 34) =? 125) with false. cbn beta iota.
    rewrite <- (Hhead (String "}" rest)).
    rewrite (read_members_join (kv :: l) ltac:(discriminate) IH fuel []
               rest Hkeys Hvals) by lia.
    reflexivity.
Qed.

Lemma append_empty (s : string) : (s ++ "")%string = s.
Proof. induction s as [|c s IH]; simpl; [reflexivity | rewrite IH; reflexivity]. Qed.

Lemma join_length_elements (l : list value) :
  Forall (fun x => (reads x <= String.length (PyJson.print x))%nat) l ->
  (element_reads l
   <= String.length (PyJson.join ", " (map PyJson.print l)) + 1)%nat.
Proof.
  induction l as [|x l IH]; intros H; [cbn; lia|].
  inversion H as [|? ? Hx Hl]. subst. specialize (IH Hl).
  unfold element_reads in *. cbn [fold_right].
  destruct l as [|y l].
  - cbn [map PyJson.join fold_right]. lia.
  - rewrite join_map_cons, !length_append.
    change (String.length ", ") with 2%nat. lia.
Qed.

Lemma join_length_members (items : list (string * value)) :
  Forall (fun kv => (reads (snd kv) <= String.length (PyJson.print (snd kv)))%nat)
    items ->
  (member_reads items
   <= String.length (PyJson.join ", " (map member_text items)) + 1)%nat.
Proof.
  induction items as [|x l IH]; intros H; [cbn; lia|].
  inversion H as [|? ? Hx Hl]. subst. specialize (IH Hl).
  unfold member_reads in *. cbn [fold_right].
  assert (Hm : (reads (snd x) <= String.length (member_text x))%nat).
  { unfold member_text. rewrite !length_append. lia. }
  destruct l as [|y l].
  - cbn [map PyJson.join fold_right]. lia.
  - rewrite join_map_cons, !length_append.
    change (String.length ", ") with 2%nat. lia.
Qed.

Lemma reads_le_length (v : value) :
  (reads v <= String.length (PyJson.print v))%nat.
Proof.
  induction v as [ | b | n | s | l IH | items IH] using value_induction.
  - cbn. lia.
  - destruct b; cbn; lia.
  - cbn [reads PyJson.print]. destruct (str_head n) as (c & t & -> & _).
    cbn. lia.
  - cbn [reads PyJson.print]. unfold PyJson.quote.
    rewrite !length_append. cbn. lia.
  - rewrite reads_array, print_array, !length_append.
    pose proof (join_length_elements l IH). cbn [String.length]. lia.
  - rewrite reads_object, print_object, !length_append.
    pose proof (join_length_members items IH). cbn [String.length]. lia.
Qed.

(** [json.loads(json.dumps(v)) == v], for every value Python can hold. *)
Lemma parse_print (v : value) :
  well_formed v = true -> PyJson.parse (PyJson.print v) = Some v.
Proof.
  intros Hwf. unfold PyJson.parse.
  pose proof (read_value_print v Hwf (S (String.length (PyJson.print v)))
                EmptyString) as H.
  rewrite append_empty in H.
  rewrite H; [reflexivity | | exact I].
  pose proof (reads_le_length v). lia.
Qed.

Lemma print_nonempty (v : value) : PyJson.print v <> EmptyString.
Proof.
  destruct (print_head v) as (c & t & H & _). rewrite H. discriminate.
Qed.

(** *** The results of [get_readings] are well formed *)

Lemma table_well_formed_true : table_well_formed = true.
Proof. vm_compute. reflexivity. Qed.

Lemma builtin_from_table (day_name : string) :
  _lookup_builtin day_name = JNull
  \/ exists e,
       In e BUILTIN_YEAR_A /\ _lookup_builtin day_name = builtin_result (snd e).
Proof.
  unfold _lookup_builtin.
  destruct (negb (truthy day_name)); [now left|].
  destruct (find _ BUILTIN_YEAR_A) as [[p r]|] eqn:Ef.
  - right. apply find_some in Ef as [He _]. exists (p, r). auto.
  - destruct (partial_scan (strip (lower day_name)) BUILTIN_YEAR_A (JNull, 0))
      as [[Hout _] | (i & e & Hi & _ & _ & Hout & _)].
    + left. rewrite Hout. reflexivity.
    + right. apply nth_error_In in Hi. exists e.
      split; [exact Hi | rewrite Hout; reflexivity].
Qed.

Lemma tier_result_well_formed (s : string) (x : value) :
  well_formed x = true ->
  well_formed (JObj [("source", JStr s); ("readings", x)]) = true.
Proof.
  intros Hx. cbn [well_formed map fst]. rewrite Hx. reflexivity.
Qed.

Lemma builtin_well_formed (day_name : string) :
  well_formed (_lookup_builtin day_name) = true.
Proof.
  destruct (builtin_from_table day_name) as [-> | (e & He & ->)];
    [reflexivity|].
  apply tier_result_well_formed.
  pose proof table_well_formed_true as H. unfold table_well_formed in H.
  rewrite forallb_forall in H. exact (H e He).
Qed.

Lemma find_office_In (l : list value) (target : string) (office : value) :
  find_office l target = Some (Some office) -> In office l.
Proof.
  induction l as [|a l IH]; cbn [find_office]; [discriminate|].
  destruct (get a "day" (JStr "")) as [d|]; [|discriminate].
  destruct (eq_str d target).
  - intros [= <-]. left. reflexivity.
  - intros H. right. apply IH. exact H.
Qed.

Lemma iterate_well_formed (v : value) (l : list value) :
  well_formed v = true -> iterate v = Some l -> all_well_formed l.
Proof.
  unfold all_well_formed.
  destruct v as [ | b | n | s | a | items]; cbn [iterate]; try discriminate;
    intros Hv [= <-].
  - apply Forall_forall. intros x Hx.
    apply in_map_iff in Hx as (c & <- & _). reflexivity.
  - apply well_formed_array. exact Hv.
  - apply Forall_forall. intros x Hx.
    apply in_map_iff in Hx as (kv & <- & _). reflexivity.
Qed.

Lemma daily_office_well_formed (self : service) (dt : date) :
  well_formed (_lookup_daily_office (json := PyJson.codec) self dt) = true.
Proof.
  unfold _lookup_daily_office.
  destruct (daily_office_path self); [|reflexivity].
  destruct (new (year dt) 11 27); [|reflexivity]. cbn beta iota zeta.
  destruct (files self _); try reflexivity.
  destruct (loads text) as [offices|] eqn:Hl; [|reflexivity].
  cbn beta iota.
  destruct (iterate offices) as [elements|] eqn:Hi; [|reflexivity].
  cbn beta iota.
  destruct (find_office elements _) as [[office|]|] eqn:Hf; try reflexivity.
  cbn beta iota. apply tier_result_well_formed.
  apply parse_well_formed in Hl.
  pose proof (iterate_well_formed _ _ Hl Hi) as Hall.
  apply find_office_In in Hf.
  unfold all_well_formed in Hall. rewrite Forall_forall in Hall.
  exact (Hall office Hf).
Qed.

Lemma lectserve_well_formed (self : service) (dt : date) :
  well_formed (_lookup_lectserve (json := PyJson.codec) self dt) = true.
Proof.
  unfold _lookup_lectserve.
  destruct (has_httpx self); [|reflexivity].
  destruct (http_get self _) as [[status body]|]; [|reflexivity].
  cbn. destruct (status =? 200); [|reflexivity].
  destruct (PyJson.parse body) as [data|] eqn:Hl; [|reflexivity].
  apply tier_result_well_formed. exact (parse_well_formed _ _ Hl).
Qed.

Lemma cache_get_well_formed (self : service) (key : string) :
  well_formed (_cache_get (json := PyJson.codec) self key) = true.
Proof.
  unfold _cache_get.
  destruct (redis_client self) as [client|]; [|reflexivity].
  destruct (redis_get client key) as [[data|]|]; try reflexivity.
  destruct (truthy data); [|reflexivity].
  destruct (loads data) as [v|] eqn:Hl; [|reflexivity].
  exact (parse_well_formed _ _ Hl).
Qed.

(** Whatever [get_readings] returns is a value Python can hold. *)
Lemma get_readings_well_formed (self self' : service) (arg : date_arg)
    (day_name : option string) (r : value) :
  get_readings (json := PyJson.codec) self arg day_name = (Returned r, self') ->
  well_formed r = true.
Proof.
  unfold get_readings.
  destruct (to_date arg) as [dt|]; [|discriminate]. cbv zeta.
  pose proof (cache_get_well_formed self ("rcl:" ++ isoformat dt)) as Hc.
  destruct (truth (_cache_get self ("rcl:" ++ isoformat dt))).
  - destruct (_cache_get self ("rcl:" ++ isoformat dt)) as [ | | | | |items];
      cbn [setitem]; try discriminate.
    intros [= <- _]. apply well_formed_object.
    apply items_set_well_formed; [|reflexivity].
    apply well_formed_object. exact Hc.
  - pose proof (daily_office_well_formed self dt) as H2.
    pose proof (lectserve_well_formed self dt) as H3.
    assert (H23 : well_formed
                    (if negb (truth (_lookup_daily_office
                                       (json := PyJson.codec) self dt))
                     then _lookup_lectserve (json := PyJson.codec) self dt
                     else _lookup_daily_office (json := PyJson.codec) self dt)
                  = true)
      by (destruct (negb _); assumption).
    destruct day_name as [name|].
    + pose proof (builtin_well_formed name) as H4.
      destruct (_ && _).
      * destruct (truth (_lookup_builtin name)); intros H;
          apply (f_equal fst) in H; cbn [fst] in H; injection H as <-;
          [exact H4 | reflexivity].
      * match goal with
        | |- (if truth ?X then _ else _) = _ -> _ => destruct (truth X)
        end; intros H;
          apply (f_equal fst) in H; cbn [fst] in H; injection H as <-;
          [exact H23 | reflexivity].
    + match goal with
      | |- (if truth ?X then _ else _) = _ -> _ => destruct (truth X)
      end; intros H;
        apply (f_equal fst) in H; cbn [fst] in H; injection H as <-;
        [exact H23 | reflexivity].
Qed.

(** C8 as the claim words it fails when there is no cache to write to:
    without a cache client the first call answers from the built-in tier,
    nothing is stored, and the repeated call answers from the built-in
    tier again, not from the cache. *)
Lemma no_cache_counterexample :
  let call :=
    get_readings (json := PyJson.codec) offline_service (ArgStr "2026-01-25")
      (Some "The Third Sunday after the Epiphany") in
  fst call = Returned (builtin_result epiphany_3_readings)
  /\ cache_entry (snd call) (cache_key (mkdate 2026 1 25)) = None
  /\ exists r2,
       fst (get_readings (json := PyJson.codec) (snd call)
              (ArgStr "2026-01-25")
              (Some "The Third Sunday after the Epiphany"))
       = Returned r2
       /\ getitem r2 "source" = Some (JStr "builtin-year-a")
       /\ getitem r2 "source" <> Some (JStr "redis-cache").
Proof.
  split; [reflexivity|]. split; [reflexivity|].
  eexists. split; [vm_compute; reflexivity|].
  split; [reflexivity | discriminate].
Qed.

(** C8, for a cache that answers.  For every date and day name, if the
    service has a cache client whose commands succeed, and a first call
    is not served by the cache and returns a result [r] of tiers 2 to 4,
    then after the call the cache holds the JSON text of [r] under the
    key of the date with a time-to-live of seven days, and the same call
    repeated returns source ["redis-cache"] with the readings of the
    first call: what [json.loads] reads from the cache is what
    [json.dumps] wrote. *)
Theorem result_cached_for_next_call (self self' : service)
    (client : redis) (arg : date_arg) (dt : date)
    (day_name : option string) (r : value) :
  to_date arg = Some dt ->
  redis_client self = Some client ->
  redis_up client = true ->
  truth (_cache_get (json := PyJson.codec) self (cache_key dt)) = false ->
  get_readings (json := PyJson.codec) self arg day_name = (Returned r, self') ->
  r <> no_readings ->
  cache_entry self' (cache_key dt) = Some (7 * 86400, PyJson.print r)
  /\ exists r2,
       get_readings (json := PyJson.codec) self' arg day_name
       = (Returned r2, self')
       /\ getitem r2 "source" = Some (JStr "redis-cache")
       /\ getitem r2 "readings" = getitem r "readings".
Proof.
  intros Harg Hclient Hup Hmiss Hcall Hfound.
  pose proof (get_readings_well_formed _ _ _ _ _ Hcall) as Hwf.
  pose proof (parse_print r Hwf) as Hrt.
  pose proof (print_nonempty r) as Hne.
  unfold get_readings in Hcall. rewrite Harg in Hcall.
  fold (cache_key dt) in Hcall. rewrite Hmiss in Hcall. cbv zeta in Hcall.
  pose proof (lower_tiers_shape (json := PyJson.codec) self dt day_name)
    as Hshape.
  match type of Hshape with tier_result ?x => set (res := x) in * end.
  destruct (truth res) eqn:Et.
  2: { injection Hcall as <- _. congruence. }
  injection Hcall as <- <-.
  rewrite (cache_set_up self client _ _ Hclient Hup).
  split; [apply cache_entry_after_set|].
  destruct Hshape as [Hnull | (s & x & Hobj)];
    [rewrite Hnull in Et; discriminate|].
  exists (JObj [("source", JStr "redis-cache"); ("readings", x)]).
  split; [|split].
  - unfold get_readings. rewrite Harg. fold (cache_key dt).
    rewrite cache_get_after_set.
    change (@dumps PyJson.codec res) with (PyJson.print res).
    rewrite (truthy_nonempty _ Hne).
    change (@loads PyJson.codec (PyJson.print res))
      with (PyJson.parse (PyJson.print res)).
    rewrite Hrt, Et.
    rewrite Hobj. reflexivity.
  - reflexivity.
  - rewrite Hobj. reflexivity.
Qed.

Lemma result_cached_for_next_call_witness :
  let call :=
    get_readings (json := PyJson.codec) cached_service (ArgStr "2026-01-25")
      (Some "The Third Sunday after the Epiphany") in
  fst call = Returned (builtin_result epiphany_3_readings)
  /\ cache_entry (snd call) (cache_key (mkdate 2026 1 25))
     = Some (7 * 86400, PyJson.print (builtin_result epiphany_3_readings))
  /\ exists r2,
       get_readings (json := PyJson.codec) (snd call) (ArgStr "2026-01-25")
         (Some "The Third Sunday after the Epiphany")
       = (Returned r2, snd call)
       /\ getitem r2 "source" = Some (JStr "redis-cache")
       /\ getitem r2 "readings"
          = getitem (builtin_result epiphany_3_readings) "readings".
Proof.
  split; [reflexivity|].
  apply (result_cached_for_next_call cached_service _
           (mkredis true []) (ArgStr "2026-01-25") (mkdate 2026 1 25)
           (Some "The Third Sunday after the Epiphany")
           (builtin_result epiphany_3_readings)).
  - reflexivity.
  - reflexivity.
  - reflexivity.
  - reflexivity.
  - vm_compute. reflexivity.
  - discriminate.
Defined.

(** The reference codec reads back what it writes for every result of the
    built-in tier. *)
Lemma builtin_results_round_trip :
  Forall (fun e =>
            PyJson.parse (PyJson.print (builtin_result (snd e)))
            = Some (builtin_result (snd e))) BUILTIN_YEAR_A.
Proof.
  unfold BUILTIN_YEAR_A.
  repeat (constructor; [vm_compute; reflexivity|]). constructor.
Qed.

Example print_ex :
  PyJson.print
    (JObj [("source", JStr "builtin-year-a");
           ("readings",
            JObj [("a", JStr (String "x" (String (chr 34) (String (chr 92)
                               (String (chr 10) (String (chr 127)
                                  (String (chr 233) EmptyString)))))));
                  ("n", JNum (-3));
                  ("l", JArr [JNum 1; JBool true; JNull])])])
  = ("{" ++ PyJson.dquote ++ "source" ++ PyJson.dquote ++ ": " ++ PyJson.dquote ++ "builtin-year-a"
     ++ PyJson.dquote ++ ", " ++ PyJson.dquote ++ "readings" ++ PyJson.dquote ++ ": {" ++ PyJson.dquote
     ++ "a" ++ PyJson.dquote ++ ": " ++ PyJson.dquote ++ "x\" ++ PyJson.dquote ++ "\\\n\u007f\u00e9"
     ++ PyJson.dquote ++ ", " ++ PyJson.dquote ++ "n" ++ PyJson.dquote ++ ": -3, " ++ PyJson.dquote ++ "l"
     ++ PyJson.dquote ++ ": [1, true, null]}}")%string.
Proof. reflexivity. Qed.

(** A cache entry that is JSON but no [dict] is taken for a hit and makes
    the call raise [TypeError]: the assignment of the source is outside
    the tier's own [try]. *)
Lemma cache_hit_not_dict_raises :
  get_readings (json := PyJson.codec)
    (mkservice (Some (mkredis true [("rcl:2026-01-25", (604800, "[1]"))])) None
       "https://lectserve.com" (fun _ => Missing) false (fun _ => None))
    (ArgStr "2026-01-25") None
  = (Raised TypeError,
     mkservice (Some (mkredis true [("rcl:2026-01-25", (604800, "[1]"))])) None
       "https://lectserve.com" (fun _ => Missing) false (fun _ => None)).
Proof. reflexivity. Qed.

(* ================================================================== *)
(** * Further properties of the code                                   *)
(* ================================================================== *)

(** ** The calendar computations over all years *)

Lemma new_out_of_range (y m d : Z) : y < 1 \/ 9999 < y -> new y m d = None.
Proof.
  intros Hy. unfold new, valid_fields, MINYEAR, MAXYEAR.
  destruct (Z.leb_spec 1 y); [|reflexivity].
  destruct (Z.leb_spec y 9999); [lia | reflexivity].
Qed.

(** X1.  For every year a [date] can hold, 1 to 9999, [_computus] returns
    a Sunday of that year between March 22 and April 25; for every other
    year it raises (the [ValueError] of [date(...)]). *)
Theorem computus_every_year (Y : Z) :
  (1 <= Y <= 9999 ->
   exists d,
     _computus Y = Some d /\ year d = Y /\ between 3 22 4 25 d
     /\ weekday d = 6)
  /\ (Y < 1 \/ 9999 < Y -> _computus Y = None).
Proof.
  split.
  - intros HY.
    destruct (computus_defined Y HY) as (e & _ & _ & He & Hy & Hw & Hb & _).
    exists e. repeat split; try assumption; apply Hb.
  - intros HY. unfold _computus. apply new_out_of_range, HY.
Qed.

(** X2.  For every year from 1 to 9999, [_first_sunday_of_advent] returns
    a Sunday of that year from November 28 to December 4: the first
    Sunday of Advent (four Sundays before Christmas Day) unless Christmas
    Day is a Sunday, and then a week after it, December 4.  For every
    other year it raises. *)
Theorem first_sunday_of_advent_every_year (Y : Z) :
  (1 <= Y <= 9999 ->
   exists a c,
     first_sunday_of_advent Y = Some a
     /\ _first_sunday_of_advent Y = Some c
     /\ year c = Y /\ weekday c = 6 /\ between 11 28 12 4 c
     /\ (weekday (mkdate Y 12 25) <> 6 -> c = a)
     /\ (weekday (mkdate Y 12 25) = 6 ->
         a = mkdate Y 11 27 /\ c = mkdate Y 12 4))
  /\ (Y < 1 \/ 9999 < Y -> _first_sunday_of_advent Y = None).
Proof.
  split.
  - intros HY.
    destruct (advent_agreement Y HY) as (a & c & Ha & Hc & _ & _ & _ & Hsun & Hweek).
    destruct (advent_defined Y HY) as (c' & Hc' & Hy & Hw & Hb).
    assert (c' = c) by congruence. subst c'.
    exists a, c. repeat split; try assumption; try apply Hb.
    + intros H. symmetry. apply Hweek, H.
    + apply Hsun, H.
    + apply Hsun, H.
  - intros HY. unfold _first_sunday_of_advent.
    rewrite new_out_of_range by exact HY. reflexivity.
Qed.

Lemma ltb_key (a b : date) :
  1 <= month a <= 12 -> 1 <= day a <= 31 ->
  1 <= month b <= 12 -> 1 <= day b <= 31 ->
  ltb a b = (date_key a <? date_key b).
Proof.
  intros Hma Hda Hmb Hdb. unfold ltb, compare, date_key.
  destruct (Z.compare_spec (year a) (year b));
    [destruct (Z.compare_spec (month a) (month b));
     [destruct (Z.compare_spec (day a) (day b))|..]|..];
    symmetry; first [apply Z.ltb_lt; lia | apply Z.ltb_ge; lia].
Qed.

Lemma geb_key (a b : date) :
  1 <= month a <= 12 -> 1 <= day a <= 31 ->
  1 <= month b <= 12 -> 1 <= day b <= 31 ->
  geb a b = (date_key b <=? date_key a).
Proof.
  intros Hma Hda Hmb Hdb. unfold geb. rewrite ltb_key by assumption.
  destruct (Z.ltb_spec (date_key a) (date_key b));
    symmetry; [apply Z.leb_gt | apply Z.leb_le]; lia.
Qed.

Lemma season_order_all :
  forallb season_order_check (Zrange 1 (Z.to_nat 9999)) = true.
Proof. vm_compute. reflexivity. Qed.

Lemma season_order (y : Z) :
  1 <= y <= 9999 ->
  exists e ash pent adv,
    _computus y = Some e /\ sub_days e 46 = Some ash
    /\ add_days e 49 = Some pent /\ _first_sunday_of_advent y = Some adv
    /\ valid e = true /\ valid ash = true /\ valid pent = true
    /\ valid adv = true /\ weekday ash = 2 /\ weekday pent = 6
    /\ date_key (mkdate y 1 6) < date_key ash < date_key e
    /\ date_key e < date_key pent < date_key adv
    /\ date_key adv < date_key (mkdate y 12 25).
Proof.
  intros Hy.
  pose proof (forallb_Zrange _ _ _ season_order_all y ltac:(lia)) as H.
  unfold season_order_check in H.
  destruct (_computus y) as [e|]; [|discriminate].
  destruct (_first_sunday_of_advent y) as [adv|]; [|discriminate].
  destruct (sub_days e 46) as [ash|] eqn:Eash; [|discriminate].
  destruct (add_days e 49) as [pent|] eqn:Epent; [|discriminate].
  apply andb_prop in H as [H H9]. apply andb_prop in H as [H H8].
  apply andb_prop in H as [H H7]. apply andb_prop in H as [H H6].
  apply andb_prop in H as [H H5].
  apply andb_prop in H as [H Hwp]. apply andb_prop in H as [H Hwa].
  apply andb_prop in H as [H H4].
  apply andb_prop in H as [H H3]. apply andb_prop in H as [H1 H2].
  apply Z.ltb_lt in H5, H6, H7, H8, H9. apply Z.eqb_eq in Hwa, Hwp.
  exists e, ash, pent, adv.
  repeat split; try assumption; try reflexivity.
Qed.

Lemma valid_bounds (d : date) :
  valid d = true -> 1 <= month d <= 12 /\ 1 <= day d <= 31.
Proof. apply valid_month_day. Qed.

(** Comparisons of keys as propositions, in the context and in the
    goal. *)
Ltac key_props :=
  repeat match goal with
         | H : _ /\ _ |- _ => destruct H
         | H : (_ <? _) = true |- _ => apply Z.ltb_lt in H
         | H : (_ <=? _) = true |- _ => apply Z.leb_le in H
         end.

Ltac key_goal :=
  repeat split; first [apply Z.ltb_lt | apply Z.leb_le]; lia.

Ltac season_case :=
  eexists; repeat split; cbv beta iota; intros;
  first [ assumption
        | reflexivity
        | match goal with H : @eq string _ _ |- _ => discriminate H end
        | key_goal
        | exfalso; key_props; lia ].

(** X3.  For every calendar date the built-in calculator names exactly
    one season.  Ash Wednesday (Easter - 46 days) is a Wednesday and
    Pentecost (Easter + 49 days) a Sunday; the dates that bound the
    seasons follow one another within the year (January 6, Ash
    Wednesday, Easter, Pentecost, the Sunday computed for Advent), and
    the season is Christmas before
    January 6, then the season after the Epiphany up to Ash Wednesday,
    Lent up to Easter, Easter up to Pentecost, the season after Pentecost
    up to the Advent Sunday, and Advent from there to December 31. *)
Theorem fallback_seasons_partition (D : date) :
  valid D = true ->
  exists e ash pent adv s,
    _computus (year D) = Some e /\ sub_days e 46 = Some ash
    /\ add_days e 49 = Some pent
    /\ _first_sunday_of_advent (year D) = Some adv
    /\ weekday ash = 2 /\ weekday pent = 6
    /\ mkdate (year D) 1 6 <d ash /\ ash <d e /\ e <d pent /\ pent <d adv
    /\ fallback_season D = Some s
    /\ (s = "Christmas" <-> D <d mkdate (year D) 1 6)
    /\ (s = "The Season after the Epiphany"
        <-> mkdate (year D) 1 6 <=d D /\ D <d ash)
    /\ (s = "Lent" <-> ash <=d D /\ D <d e)
    /\ (s = "Easter" <-> e <=d D /\ D <d pent)
    /\ (s = "The Season after Pentecost" <-> pent <=d D /\ D <d adv)
    /\ (s = "Advent" <-> adv <=d D).
Proof.
  intros HD. pose proof (valid_year D HD) as Hy.
  destruct (season_order (year D) Hy)
    as (e & ash & pent & adv & He & Hash & Hpent & Hadv & Hve & Hva & Hvp
        & Hvd & Hwa & Hwp & [Hk1 Hk2] & [Hk3 Hk4] & Hk5).
  pose proof (valid_bounds D HD) as [HmD HdD].
  pose proof (valid_bounds e Hve) as [Hme Hde].
  pose proof (valid_bounds ash Hva) as [Hma Hda].
  pose proof (valid_bounds pent Hvp) as [Hmp Hdp].
  pose proof (valid_bounds adv Hvd) as [Hmv Hdv].
  assert (Hm6 : 1 <= month (mkdate (year D) 1 6) <= 12
                /\ 1 <= day (mkdate (year D) 1 6) <= 31) by (simpl; lia).
  assert (Hm25 : 1 <= month (mkdate (year D) 12 25) <= 12
                 /\ 1 <= day (mkdate (year D) 12 25) <= 31) by (simpl; lia).
  destruct Hm6 as [Hm6 Hd6]. destruct Hm25 as [Hm25 Hd25].
  unfold fallback_season. rewrite He, Hash, Hpent, Hadv.
  rewrite !new_in_range by lia.
  exists e, ash, pent, adv.
  rewrite !geb_key, !ltb_key by assumption.
  destruct (Z.leb_spec (date_key adv) (date_key D)) as [C1|C1].
  { season_case. }
  destruct (Z.leb_spec (date_key (mkdate (year D) 12 25)) (date_key D)) as [C2|C2];
    [lia|].
  destruct (Z.ltb_spec (date_key D) (date_key (mkdate (year D) 1 6))) as [C3|C3].
  { season_case. }
  destruct (Z.ltb_spec (date_key D) (date_key ash)) as [C4|C4].
  { season_case. }
  destruct (Z.ltb_spec (date_key D) (date_key e)) as [C5|C5].
  { season_case. }
  destruct (Z.ltb_spec (date_key D) (date_key pent)) as [C6|C6].
  { season_case. }
  season_case.
Qed.

Lemma fallback_seasons_partition_witness :
  valid (mkdate 2026 2 18) = true
  /\ exists ash e s,
       sub_days e 46 = Some ash /\ _computus 2026 = Some e
       /\ fallback_season (mkdate 2026 2 18) = Some s
       /\ (s = "Lent" <-> ash <=d mkdate 2026 2 18 /\ mkdate 2026 2 18 <d e).
Proof.
  split; [reflexivity|].
  destruct (fallback_seasons_partition (mkdate 2026 2 18) eq_refl)
    as (e & ash & pent & adv & s & He & Hash & _ & _ & _ & _ & _ & _ & _
        & _ & Hs & _ & _ & Hlent & _).
  exists ash, e, s.
  split; [exact Hash|]. split; [exact He|]. split; [exact Hs|]. exact Hlent.
Defined.

(** ** [get_calendar_info] and [_map_episcopal_name] *)

Lemma colour_range (x : string) :
  In (dict_get String.eqb COLOUR_MAP x "Green") ["Purple"; "White"; "Green"].
Proof.
  unfold dict_get, COLOUR_MAP, dict_lookup.
  repeat match goal with
         | |- context [String.eqb ?k x] => destruct (String.eqb k x)
         end; simpl; auto.
Qed.

(** The result of [get_calendar_info] for a date, with and without the
    package. *)
Lemma calendar_info_fields (pkg : authority) (D : date) :
  valid D = true ->
  exists r r0,
    get_calendar_info pkg (ArgDate D) = Some r
    /\ get_calendar_info no_authority (ArgDate D) = Some r0
    /\ info_date r = isoformat D
    /\ info_date r = info_date r0
    /\ is_sunday r = is_sunday r0
    /\ rcl_year r = rcl_year r0
    /\ lectionary_year r = lectionary_year r0
    /\ easter_date r = easter_date r0
    /\ In (colour r) ["Purple"; "White"; "Green"].
Proof.
  intros HD.
  destruct (cycles_of_valid_date D HD)
    as (_ & _ & (rcl & Hrcl) & (lect & Hlect) & _).
  destruct (computus_defined _ (valid_year D HD)) as (e & _ & _ & He & _).
  destruct (fallback_season_defined D HD) as (s0 & Hs0).
  unfold get_calendar_info, to_date.
  rewrite Hrcl, Hlect, He, Hs0. cbn [HAS_LITURGICAL_PKG no_authority].
  destruct (HAS_LITURGICAL_PKG pkg).
  - destruct (package_path pkg D (isoformat D) (weekday D =? 6) rcl lect
                (isoformat e)) as [r|] eqn:Ep.
    + unfold package_path in Ep.
      destruct (liturgical_calendar pkg (strftime_Y_m_d D)) as [cal|];
        [|discriminate].
      destruct (_map_episcopal_name _ _ _) as [dn|]; [|discriminate].
      injection Ep as <-.
      eexists; eexists. split; [reflexivity|]. split; [reflexivity|].
      cbn [info_date is_sunday rcl_year lectionary_year easter_date colour].
      repeat split; try reflexivity. apply colour_range.
    + eexists; eexists. split; [reflexivity|]. split; [reflexivity|].
      cbn [info_date is_sunday rcl_year lectionary_year easter_date colour].
      repeat split; try reflexivity. apply colour_range.
  - eexists; eexists. split; [reflexivity|]. split; [reflexivity|].
    cbn [info_date is_sunday rcl_year lectionary_year easter_date colour].
    repeat split; try reflexivity. apply colour_range.
Qed.

(** X4.  [get_calendar_info] never raises for a date object, whatever the
    calendar package does.  The date, the Sunday flag, both cycles and
    the date of Easter of its result are those computed without the
    package, the date being in ISO form, and the colour is one of
    Purple, White and Green. *)
Theorem calendar_info_never_fails (pkg : authority) (D : date) :
  valid D = true ->
  exists r r0,
    get_calendar_info pkg (ArgDate D) = Some r
    /\ get_calendar_info no_authority (ArgDate D) = Some r0
    /\ info_date r = isoformat D
    /\ info_date r = info_date r0
    /\ is_sunday r = is_sunday r0
    /\ rcl_year r = rcl_year r0
    /\ lectionary_year r = lectionary_year r0
    /\ easter_date r = easter_date r0
    /\ In (colour r) ["Purple"; "White"; "Green"].
Proof. apply calendar_info_fields. Qed.

Lemma calendar_info_never_fails_witness :
  valid (mkdate 2026 1 25) = true
  /\ exists r,
       get_calendar_info raising_authority (ArgDate (mkdate 2026 1 25)) = Some r
       /\ info_date r = "2026-01-25"
       /\ In (colour r) ["Purple"; "White"; "Green"].
Proof.
  split; [reflexivity|].
  destruct (calendar_info_never_fails raising_authority (mkdate 2026 1 25)
              eq_refl)
    as (r & r0 & Hr & _ & Hd & _ & _ & _ & _ & _ & Hc).
  exists r. repeat split; assumption.
Defined.

Lemma season_maps_to_advent (s : string) :
  dict_get String.eqb SEASON_MAP s s = "Advent" <-> s = "Advent".
Proof.
  unfold dict_get, SEASON_MAP, dict_lookup.
  repeat match goal with
         | |- context [String.eqb ?k s] =>
             destruct (String.eqb_spec k s);
             [subst s; split; intros H; first [reflexivity | discriminate H]|]
         end.
  tauto.
Qed.

(** The name in Advent, by the place of [weekno]. *)
Lemma advent_name (w : Z) (cal_name : string) :
  _map_episcopal_name "Advent" w cal_name
  = if w =? 0 then Some "Advent"
    else match PyStr.getitem ["First"; "Second"; "Third"; "Fourth"]
                 (Z.min (w - 1) 3) with
         | Some o => Some ("The " ++ o ++ " Sunday of Advent")%string
         | None => None
         end.
Proof.
  unfold _map_episcopal_name.
  change (dict_get String.eqb SEASON_MAP "Advent" "Advent") with "Advent".
  change ("Advent" =? "Advent")%string with true. cbv iota.
  destruct (w =? 0); reflexivity.
Qed.

Lemma advent_ordinal (w : Z) :
  PyStr.getitem ["First"; "Second"; "Third"; "Fourth"] (Z.min (w - 1) 3)
  = if w <=? -4 then None
    else if w =? -3 then Some "First"
    else if w =? -2 then Some "Second"
    else if w =? -1 then Some "Third"
    else if w =? 0 then Some "Fourth"
    else if w =? 1 then Some "First"
    else if w =? 2 then Some "Second"
    else if w =? 3 then Some "Third"
    else Some "Fourth".
Proof.
  destruct (Z.leb_spec w (-4)) as [H|H].
  - unfold PyStr.getitem.
    change (Z.of_nat (List.length ["First"; "Second"; "Third"; "Fourth"]))
      with 4.
    rewrite Z.min_l by lia.
    destruct (Z.leb_spec 0 (w - 1)); [lia|]. cbn [andb].
    destruct (Z.leb_spec (Z.opp 4) (w - 1)); [lia|]. reflexivity.
  - assert (Hc : w = -3 \/ w = -2 \/ w = -1 \/ w = 0 \/ w = 1 \/ w = 2
                 \/ w = 3 \/ 4 <= w) by lia.
    repeat (destruct Hc as [-> | Hc]; [reflexivity|]).
    rewrite Z.min_r by lia.
    repeat match goal with
           | |- context [Z.eqb w ?k] => destruct (Z.eqb_spec w k); [lia|]
           end.
    reflexivity.
Qed.

(** X5.  [_map_episcopal_name] raises (the [IndexError] of the list of
    ordinals) exactly when the season is Advent and the week number is -4
    or less.  In Advent a week number of 4 or more names the fourth
    Sunday, and the week numbers -3, -2 and -1 name the first, second and
    third Sunday, by the negative index. *)
Theorem map_episcopal_name_raises (season : string) (weekno : Z)
    (cal_name : string) :
  (_map_episcopal_name season weekno cal_name = None
   <-> season = "Advent" /\ weekno <= -4)
  /\ (season = "Advent" -> 4 <= weekno ->
      _map_episcopal_name season weekno cal_name
      = Some "The Fourth Sunday of Advent")
  /\ (season = "Advent" -> -3 <= weekno <= -1 ->
      _map_episcopal_name season weekno cal_name
      = _map_episcopal_name season (weekno + 4) cal_name).
Proof.
  split; [|split].
  - destruct (String.eqb_spec season "Advent") as [->|Hne].
    + rewrite advent_name, advent_ordinal.
      destruct (Z.eqb_spec weekno 0) as [->|H0];
        [split; [discriminate | lia]|].
      destruct (Z.leb_spec weekno (-4));
        [split; [intros _; split; [reflexivity | assumption] | reflexivity]|].
      repeat match goal with
             | |- context [Z.eqb weekno ?k] => destruct (Z.eqb weekno k)
             end; (split; [discriminate | lia]).
    + assert (Hm : (dict_get String.eqb SEASON_MAP season season =? "Advent")%string
                   = false).
      { apply String.eqb_neq. intros H.
        apply (proj1 (season_maps_to_advent season)) in H. contradiction. }
      unfold _map_episcopal_name. rewrite Hm.
      repeat match goal with
             | |- context [if ?b then _ else _] => destruct b
             end; (split; [discriminate | intros [? _]; contradiction]).
  - intros -> Hw. rewrite advent_name, advent_ordinal.
    repeat match goal with
           | |- context [Z.eqb weekno ?k] => destruct (Z.eqb_spec weekno k); [lia|]
           end.
    destruct (Z.leb_spec weekno (-4)); [lia | reflexivity].
  - intros -> Hw. rewrite !advent_name, !advent_ordinal.
    assert (Hc : weekno = -3 \/ weekno = -2 \/ weekno = -1) by lia.
    destruct Hc as [-> | [-> | ->]]; reflexivity.
Qed.

(** X6.  When the calendar package answers Advent with a week number of
    -4 or less, the [IndexError] is caught and [get_calendar_info]
    answers as it does without the package. *)
Theorem index_error_falls_back (pkg : authority) (D : date) (cal : cal_dict)
    (weekno : Z) :
  valid D = true ->
  HAS_LITURGICAL_PKG pkg = true ->
  liturgical_calendar pkg (strftime_Y_m_d D) = Some cal ->
  cal_season cal = Some "Advent" ->
  cal_weekno cal = Some weekno ->
  weekno <= -4 ->
  get_calendar_info pkg (ArgDate D) = get_calendar_info no_authority (ArgDate D)
  /\ get_calendar_info pkg (ArgDate D) <> None.
Proof.
  intros HD Hhas Hcal Hs Hw Hle.
  destruct (calendar_info_fields no_authority D HD) as (r0 & _ & Hr0 & _).
  assert (Hname : _map_episcopal_name "Advent" weekno
                    (or_default (cal_name cal) "") = None).
  { rewrite advent_name, advent_ordinal.
    destruct (Z.eqb_spec weekno 0); [lia|].
    destruct (Z.leb_spec weekno (-4)); [reflexivity | lia]. }
  assert (Heq : get_calendar_info pkg (ArgDate D)
                = get_calendar_info no_authority (ArgDate D)).
  { unfold get_calendar_info, to_date.
    destruct (calculate_rcl_year D) as [rcl|]; [|reflexivity].
    destruct (calculate_lectionary_year D) as [lect|]; [|reflexivity].
    destruct (_computus (year D)) as [e|]; [|reflexivity].
    rewrite Hhas. unfold package_path.
    rewrite Hcal, Hs, Hw. cbn [or_default]. rewrite Hname. reflexivity. }
  split; [exact Heq|]. rewrite Heq, Hr0. discriminate.
Qed.

Lemma index_error_falls_back_witness :
  valid (mkdate 2025 12 7) = true
  /\ get_calendar_info
       (mkauthority true
          (fun _ => Some (mkcal (Some "Advent") (Some (-5)) (Some "Advent 2"))))
       (ArgDate (mkdate 2025 12 7))
     = get_calendar_info no_authority (ArgDate (mkdate 2025 12 7)).
Proof.
  split; [reflexivity|].
  apply (index_error_falls_back
           (mkauthority true
              (fun _ => Some (mkcal (Some "Advent") (Some (-5)) (Some "Advent 2"))))
           (mkdate 2025 12 7) (mkcal (Some "Advent") (Some (-5)) (Some "Advent 2"))
           (-5)); try reflexivity. lia.
Defined.

(** ** Deciding the equality of values *)

Lemma value_eqb_eq : forall a b, value_eqb a b = true -> a = b.
Proof.
  fix IH 1. intros [ | x | x | x | l | l] [ | y | y | y | m | m];
    simpl; try discriminate; intros H.
  - reflexivity.
  - apply Bool.eqb_prop in H. congruence.
  - apply Z.eqb_eq in H. congruence.
  - apply String.eqb_eq in H. congruence.
  - f_equal. revert m H.
    induction l as [|x l IHl]; intros [|y m] H; try discriminate.
    + reflexivity.
    + apply andb_prop in H as [H1 H2].
      f_equal; [apply IH, H1 | apply IHl, H2].
  - f_equal. revert m H.
    induction l as [|[k x] l IHl]; intros [|[k' y] m] H; try discriminate.
    + reflexivity.
    + apply andb_prop in H as [H H3]. apply andb_prop in H as [H1 H2].
      apply String.eqb_eq in H1.
      f_equal; [f_equal; [exact H1 | apply IH, H2] | apply IHl, H3].
Qed.

(** ** The cycles between two computed Advent Sundays *)

(** X7.  Both cycles are constant from the Sunday the service computes
    for Advent of a year Y through the day before the Sunday it computes
    for the year after: the letter of [Y mod 3], and Year One when Y is
    odd, Year Two when Y is even. *)
Theorem cycles_constant_between_computed_advents (Y : Z) (D a a' : date) :
  valid D = true ->
  _first_sunday_of_advent Y = Some a ->
  _first_sunday_of_advent (Y + 1) = Some a' ->
  a <=d D -> D <d a' ->
  calculate_rcl_year D = Some (sunday_cycle Y)
  /\ calculate_lectionary_year D = Some (daily_cycle Y).
Proof.
  intros HD Ha Ha' Hge Hlt.
  destruct (advent_some_year _ _ Ha) as [_ Hya].
  destruct (advent_some_year _ _ Ha') as [_ Hya'].
  pose proof (geb_year _ _ Hge) as H1.
  pose proof (ltb_year _ _ Hlt) as H2.
  unfold calculate_rcl_year, calculate_lectionary_year.
  assert (Hc : year D = Y \/ year D = Y + 1) by lia.
  destruct Hc as [Hc | Hc]; rewrite Hc.
  - rewrite Ha, Hge. split; [apply rcl_table_lookup|].
    unfold daily_cycle. rewrite mod_2_odd. reflexivity.
  - rewrite Ha'. unfold geb. rewrite Hlt. cbn [negb].
    replace (Y + 1 - 1) with Y by lia.
    split; [apply rcl_table_lookup|].
    unfold daily_cycle. rewrite mod_2_odd. reflexivity.
Qed.

Lemma cycles_constant_between_computed_advents_witness :
  valid (mkdate 2022 11 27) = true
  /\ _first_sunday_of_advent 2021 = Some (mkdate 2021 11 28)
  /\ _first_sunday_of_advent (2021 + 1) = Some (mkdate 2022 12 4)
  /\ calculate_rcl_year (mkdate 2022 11 27) = Some (sunday_cycle 2021)
  /\ calculate_lectionary_year (mkdate 2022 11 27) = Some (daily_cycle 2021).
Proof.
  split; [reflexivity|]. split; [reflexivity|]. split; [reflexivity|].
  apply (cycles_constant_between_computed_advents 2021 (mkdate 2022 11 27)
           (mkdate 2021 11 28) (mkdate 2022 12 4)); reflexivity.
Defined.

(** ** The Sunday names of the calendar in the built-in table *)

Lemma sunday_names_all :
  forallb sunday_name_check calendar_sunday_names = true.
Proof. vm_compute. reflexivity. Qed.

(** X8.  For every Sunday name the calendar takes from its tables (the
    four Sundays of Advent and the names of [EPIPHANY_NAMES],
    [LENT_NAMES] and [EASTER_NAMES]): if the name of an entry of the
    built-in table starts the Sunday name, [_lookup_builtin] gives the
    readings of that entry; if no entry's name starts it, the lookup
    gives nothing, except for the eighth Sunday after the Epiphany, which
    gets the readings of the entry "The Epiphany". *)
Theorem calendar_sunday_names_resolve (name : string) :
  In name calendar_sunday_names ->
  (forall e, In e BUILTIN_YEAR_A -> startswith (fst e) name = true ->
             _lookup_builtin name = builtin_result (snd e))
  /\ ((forall e, In e BUILTIN_YEAR_A -> startswith (fst e) name = false) ->
      if (name =? "The Eighth Sunday after the Epiphany")%string
      then exists x, table_readings "The Epiphany" = Some x
                     /\ _lookup_builtin name = builtin_result x
      else _lookup_builtin name = JNull).
Proof.
  intros Hin. pose proof sunday_names_all as Hall.
  rewrite forallb_forall in Hall. specialize (Hall name Hin).
  unfold sunday_name_check in Hall. apply andb_prop in Hall as [Hpre Horphan].
  split.
  - intros e He Hstart.
    rewrite forallb_forall in Hpre. specialize (Hpre e He).
    unfold prefix_entry_check in Hpre. rewrite Hstart in Hpre.
    apply value_eqb_eq, Hpre.
  - intros Hnone.
    assert (Hex : existsb (fun e => startswith (fst e) name) BUILTIN_YEAR_A
                  = false).
    { destruct (existsb _ BUILTIN_YEAR_A) eqn:E; [|reflexivity].
      apply existsb_exists in E as (e & He & Hstart).
      rewrite (Hnone e He) in Hstart. discriminate. }
    rewrite Hex in Horphan. cbn [orb] in Horphan.
    unfold orphan_name_check in Horphan.
    destruct (name =? "The Eighth Sunday after the Epiphany")%string.
    + destruct (table_readings "The Epiphany") as [x|]; [|discriminate].
      exists x. split; [reflexivity | apply value_eqb_eq, Horphan].
    + apply value_eqb_eq, Horphan.
Qed.

Lemma calendar_sunday_names_resolve_witness :
  In "The First Sunday after the Epiphany: The Baptism of our Lord"
    calendar_sunday_names
  /\ _lookup_builtin
       "The First Sunday after the Epiphany: The Baptism of our Lord"
     = builtin_result
         (JObj [("first_lesson", JStr "Isaiah 42:1-9");
                ("psalm", JStr "Psalm 29");
                ("second_lesson", JStr "Acts 10:34-43");
                ("gospel", JStr "Matthew 3:13-17")]).
Proof.
  assert (Hin : In "The First Sunday after the Epiphany: The Baptism of our Lord"
                  calendar_sunday_names).
  { unfold calendar_sunday_names. simpl. do 4 right. left. reflexivity. }
  split; [exact Hin|].
  apply (proj1 (calendar_sunday_names_resolve _ Hin)
           ("The First Sunday after the Epiphany",
            JObj [("first_lesson", JStr "Isaiah 42:1-9");
                  ("psalm", JStr "Psalm 29");
                  ("second_lesson", JStr "Acts 10:34-43");
                  ("gospel", JStr "Matthew 3:13-17")])).
  - unfold BUILTIN_YEAR_A. do 6 right. left. reflexivity.
  - reflexivity.
Defined.

(** ** Dates as text *)

Lemma first_some_map {A B C} (F : A -> option C) (G : A -> option B)
    (g : B -> C) (l : list A) :
  (forall a, F a = option_map g (G a)) ->
  first_some F l = option_map g (first_some G l).
Proof.
  intros H. induction l as [|a l IH]; [reflexivity|].
  simpl. rewrite H. destruct (G a); [reflexivity | exact IH].
Qed.

Lemma year_text_all :
  forallb year_text_check (Zrange 1 (Z.to_nat 9999)) = true.
Proof. vm_compute. reflexivity. Qed.

Lemma month_day_text_all :
  forallb (fun m => forallb (month_day_text_check m) (Zrange 1 31))
    (Zrange 1 12) = true.
Proof. vm_compute. reflexivity. Qed.

Lemma month_day_text (m d : Z) :
  1 <= m <= 12 -> 1 <= d <= 31 ->
  match_m_d (zfill 2 m ++ "-" ++ zfill 2 d) = Some (m, d, EmptyString).
Proof.
  intros Hm Hd.
  pose proof (forallb_Zrange _ _ _ month_day_text_all m ltac:(lia)) as H.
  cbv beta in H.
  pose proof (forallb_Zrange _ _ _ H d ltac:(lia)) as H'.
  unfold month_day_text_check in H'.
  destruct (match_m_d (zfill 2 m ++ "-" ++ zfill 2 d))
    as [[[m' d'] rest]|]; [|discriminate].
  destruct rest; [|discriminate].
  apply andb_prop in H' as [H1 H2]. apply Z.eqb_eq in H1, H2. congruence.
Qed.

Lemma month_day_text_consed (m d : Z) :
  1 <= m <= 12 -> 1 <= d <= 31 ->
  match_m_d (zfill 2 m ++ String "-" (zfill 2 d)) = Some (m, d, EmptyString).
Proof. exact (month_day_text m d). Qed.

(** After a year of four digits and a dash, the match goes on with the
    month and the day. *)
Lemma match_after_year (a b c e : ascii) (rest : string) :
  isdigit a && isdigit b && isdigit c && isdigit e = true ->
  match_Y_m_d (String a (String b (String c (String e (String "-" rest)))))
  = option_map
      (fun '(m, d, s) =>
         (1000 * digit a + 100 * digit b + 10 * digit c + digit e, m, d, s))
      (match_m_d rest).
Proof.
  intros Hdigits. unfold match_Y_m_d, read_Y. rewrite Hdigits.
  cbn [first_some]. change (read_dash (String "-" rest)) with (Some rest).
  cbv iota.
  set (y := 1000 * digit a + 100 * digit b + 10 * digit c + digit e).
  unfold match_m_d.
  rewrite (first_some_map _
             (fun '(m, s3) =>
                s4 <- read_dash s3 ;;
                first_some (fun '(d, s5) => Some (m, d, s5)) (read_d s4))
             (fun '(m, d, s) => (y, m, d, s))).
  - destruct (first_some _ (read_m rest)) as [[[m d] s]|]; reflexivity.
  - intros [m s3]. destruct (read_dash s3) as [s4|]; [|reflexivity].
    apply first_some_map. intros [d s5]. reflexivity.
Qed.

Lemma strptime_isoformat (d : date) :
  valid d = true -> strptime_date (isoformat d) = Some d.
Proof.
  intros Hv. pose proof (valid_year d Hv) as Hy.
  pose proof (valid_month_day d Hv) as [Hm Hd].
  pose proof (forallb_Zrange _ _ _ year_text_all (year d) ltac:(lia)) as Hyt.
  unfold year_text_check in Hyt. unfold strptime_date, isoformat.
  destruct (zfill 4 (year d)) as [|a [|b [|c [|e [|? ?]]]]]; try discriminate.
  apply andb_prop in Hyt as [Hdigits Hval]. apply Z.eqb_eq in Hval.
  cbn [append].
  rewrite match_after_year by exact Hdigits.
  rewrite month_day_text_consed by assumption. cbn [option_map].
  rewrite Hval. unfold new. unfold valid in Hv. rewrite Hv.
  destruct d; reflexivity.
Qed.

(** X9.  The ISO text of a calendar date, which keys the cache and goes
    to the remote service, reads back as that date through the format
    the services parse their date argument with; two different dates
    never have the same text, nor the same cache key. *)
Theorem isoformat_round_trip (d : date) :
  valid d = true ->
  strptime_date (isoformat d) = Some d
  /\ to_date (ArgStr (isoformat d)) = Some d
  /\ forall d', valid d' = true ->
       (isoformat d' = isoformat d -> d' = d)
       /\ (cache_key d' = cache_key d -> d' = d).
Proof.
  intros Hv. pose proof (strptime_isoformat d Hv) as Hrt.
  split; [exact Hrt|]. split; [exact Hrt|].
  intros d' Hv'. pose proof (strptime_isoformat d' Hv') as Hrt'.
  assert (Hinj : isoformat d' = isoformat d -> d' = d).
  { intros Heq. rewrite Heq in Hrt'. congruence. }
  split; [exact Hinj|].
  unfold cache_key. intros Heq. apply Hinj.
  cbn [append] in Heq. congruence.
Qed.

Lemma isoformat_round_trip_witness :
  valid (mkdate 2026 1 5) = true
  /\ strptime_date (isoformat (mkdate 2026 1 5)) = Some (mkdate 2026 1 5)
  /\ isoformat (mkdate 2026 1 5) = "2026-01-05".
Proof.
  split; [reflexivity|].
  split; [|reflexivity].
  apply (proj1 (isoformat_round_trip (mkdate 2026 1 5) eq_refl)).
Defined.

(** ** The outcomes of [get_readings] *)

Lemma items_set_lookup (items : list (string * value)) (k : string)
    (x : value) :
  dict_lookup String.eqb (items_set items k x) k = Some x.
Proof.
  induction items as [|[k' v] r IH]; simpl.
  - rewrite String.eqb_refl. reflexivity.
  - destruct (String.eqb_spec k' k) as [->|Hne]; simpl.
    + rewrite String.eqb_refl. reflexivity.
    + apply String.eqb_neq in Hne. rewrite Hne. exact IH.
Qed.

Lemma contains_refl (p : string) : contains p p = true.
Proof.
  assert (H : startswith p p = true).
  { induction p as [|c p IH]; simpl; [reflexivity|].
    rewrite Ascii.eqb_refl. exact IH. }
  destruct p; simpl; [reflexivity|].
  simpl in H. rewrite H. reflexivity.
Qed.

Section Outcomes.
Context {json : Codec}.

Lemma get_readings_steps (self : service) (arg : date_arg)
    (day_name : option string) :
  get_readings self arg day_name
  = match to_date arg with
    | None => (Raised ValueError, self)
    | Some dt =>
        if truth (_cache_get self (cache_key dt)) then
          match setitem (_cache_get self (cache_key dt)) "source"
                  (JStr "redis-cache") with
          | Some cached' => (Returned cached', self)
          | None => (Raised TypeError, self)
          end
        else if truth (lower_tiers self dt day_name)
             then (Returned (lower_tiers self dt day_name),
                   _cache_set self (cache_key dt) (lower_tiers self dt day_name))
             else (Returned no_readings, self)
    end.
Proof. reflexivity. Qed.

Lemma daily_office_source (self : service) (dt : date) :
  _lookup_daily_office self dt = JNull
  \/ exists office,
       _lookup_daily_office self dt
       = JObj [("source", JStr "daily-office-json"); ("readings", office)].
Proof.
  unfold _lookup_daily_office.
  destruct (daily_office_path self); [|now left].
  destruct (new (year dt) 11 27); [|now left].
  destruct (files self _); try (now left).
  destruct (loads text); [|now left].
  destruct (iterate v); [|now left].
  destruct (find_office l _) as [[office|]|]; try (now left).
  right. eauto.
Qed.

Lemma lectserve_source (self : service) (dt : date) :
  _lookup_lectserve self dt = JNull
  \/ exists data,
       _lookup_lectserve self dt
       = JObj [("source", JStr "lectserve"); ("readings", data)].
Proof.
  unfold _lookup_lectserve.
  destruct (has_httpx self); [|now left].
  destruct (http_get self _) as [[status body]|]; [|now left].
  simpl. destruct (status =? 200); [|now left].
  destruct (loads body); [|now left].
  right. eauto.
Qed.

End Outcomes.

Lemma builtin_source (day_name : string) :
  _lookup_builtin day_name = JNull
  \/ exists e,
       In e BUILTIN_YEAR_A
       /\ _lookup_builtin day_name = builtin_result (snd e)
       /\ candidate day_name e.
Proof.
  unfold _lookup_builtin.
  destruct (negb (truthy day_name)); [now left|].
  destruct (find _ BUILTIN_YEAR_A) as [[p r]|] eqn:Ef.
  - right. apply find_some in Ef as [He Heq]. simpl in Heq.
    apply String.eqb_eq in Heq.
    exists (p, r). split; [exact He|]. split; [reflexivity|].
    unfold candidate. rewrite <- (candidate_stripped day_name (p, r) He).
    simpl fst. rewrite Heq. apply contains_refl.
  - destruct (partial_scan (strip (lower day_name)) BUILTIN_YEAR_A (JNull, 0))
      as [[Hout _] | (i & e & Hi & Hc & _ & Hout & _)].
    + left. rewrite Hout. reflexivity.
    + right. apply nth_error_In in Hi. exists e.
      split; [exact Hi|]. split; [rewrite Hout; reflexivity|].
      unfold candidate. rewrite <- (candidate_stripped day_name e Hi). exact Hc.
Qed.

Lemma table_citations_all :
  forallb (fun e => four_citations_check (snd e)) BUILTIN_YEAR_A = true.
Proof. vm_compute. reflexivity. Qed.

Lemma four_citations_check_sound (v : value) :
  four_citations_check v = true -> four_citations v.
Proof.
  unfold four_citations_check, four_citations.
  destruct v as [ | | | | |items]; try discriminate.
  destruct items as [|[k1 [ | | |a| | ]] items]; try discriminate.
  destruct items as [|[k2 [ | | |b| | ]] items]; try discriminate.
  destruct items as [|[k3 [ | | |c| | ]] items]; try discriminate.
  destruct items as [|[k4 [ | | |d| | ]] items]; try discriminate.
  destruct items; try discriminate.
  intros H.
  repeat (apply andb_prop in H; destruct H as [H ?]).
  repeat match goal with
         | H : (_ =? _)%string = true |- _ => apply String.eqb_eq in H; subst
         end.
  exists a, b, c, d.
  repeat split; try reflexivity;
    intros ->; discriminate.
Qed.

(** X10.  Whenever [_lookup_builtin] finds something, it is the result
    of an entry of the table whose name occurs in the day name, case
    apart, and its readings carry a citation in each of the four slots:
    first lesson, psalm, second lesson and gospel. *)
Theorem lookup_builtin_well_formed (day_name : string) :
  _lookup_builtin day_name = JNull
  \/ exists e,
       In e BUILTIN_YEAR_A
       /\ _lookup_builtin day_name
          = JObj [("source", JStr "builtin-year-a"); ("readings", snd e)]
       /\ contains (lower (fst e)) (lower day_name) = true
       /\ four_citations (snd e).
Proof.
  destruct (builtin_source day_name) as [H | (e & He & Hres & Hc)];
    [left; exact H|].
  right. exists e. repeat split; try assumption.
  apply four_citations_check_sound.
  pose proof table_citations_all as Hall. rewrite forallb_forall in Hall.
  apply (Hall e He).
Qed.

Section OutcomesOfTiers.
Context {json : Codec}.

Lemma lower_tiers_source (self : service) (dt : date)
    (day_name : option string) :
  lower_tiers self dt day_name = JNull
  \/ exists s x,
       lower_tiers self dt day_name
       = JObj [("source", JStr s); ("readings", x)]
       /\ In s found_labels.
Proof.
  unfold lower_tiers.
  destruct (daily_office_source self dt) as [H2 | [office H2]]; rewrite H2.
  - cbn [truth negb].
    destruct (lectserve_source self dt) as [H3 | [data H3]]; rewrite H3.
    + cbn [truth negb andb].
      destruct day_name as [name|]; [|left; reflexivity].
      destruct (truthy name); [|left; reflexivity].
      destruct (builtin_source name) as [H4 | (e & _ & H4 & _)]; rewrite H4.
      * left. reflexivity.
      * right. exists "builtin-year-a", (snd e).
        split; [reflexivity|]. simpl. auto.
    + right. exists "lectserve", data.
      split; [destruct day_name; reflexivity|]. simpl. auto.
  - right. exists "daily-office-json", office.
    split; [destruct day_name; reflexivity|]. simpl. auto.
Qed.

Lemma with_redis_fields (self : service) (r : redis) :
  daily_office_path (with_redis self r) = daily_office_path self
  /\ lectserve_base (with_redis self r) = lectserve_base self
  /\ files (with_redis self r) = files self
  /\ has_httpx (with_redis self r) = has_httpx self
  /\ http_get (with_redis self r) = http_get self.
Proof. repeat split. Qed.

Lemma cache_set_fields (self : service) (key : string) (data : value) :
  daily_office_path (_cache_set self key data) = daily_office_path self
  /\ lectserve_base (_cache_set self key data) = lectserve_base self
  /\ files (_cache_set self key data) = files self
  /\ has_httpx (_cache_set self key data) = has_httpx self
  /\ http_get (_cache_set self key data) = http_get self.
Proof.
  unfold _cache_set.
  destruct (redis_client self) as [client|]; [|repeat split].
  destruct (redis_setex client key default_ttl (dumps data));
    repeat split.
Qed.

Lemma lookup_filter_other {V : Type} (l : list (string * V)) (k1 k2 : string) :
  k1 <> k2 ->
  dict_lookup String.eqb
    (filter (fun e => negb (fst e =? k1)%string) l) k2
  = dict_lookup String.eqb l k2.
Proof.
  intros Hne. induction l as [|[k v] r IH]; [reflexivity|].
  cbn [filter fst dict_lookup].
  destruct (String.eqb_spec k k1) as [->|Hk]; cbn [negb].
  - apply String.eqb_neq in Hne. rewrite Hne. exact IH.
  - cbn [dict_lookup]. rewrite IH. reflexivity.
Qed.

Lemma cache_set_other_key (self : service) (k1 k2 : string) (data : value) :
  k1 <> k2 ->
  cache_entry (_cache_set self k1 data) k2 = cache_entry self k2.
Proof.
  intros Hne. unfold _cache_set, redis_setex, cache_entry.
  destruct (redis_client self) as [client|] eqn:Hc; [|rewrite Hc; reflexivity].
  destruct (redis_up client) eqn:Hup.
  - unfold with_redis. cbn [redis_client redis_up redis_data dict_lookup].
    pose proof Hne as Hne'. apply String.eqb_neq in Hne'. rewrite Hne'.
    apply lookup_filter_other. exact Hne.
  - rewrite Hc, Hup. reflexivity.
Qed.

(** X11.  A call of [get_readings] ends in one of three ways.  It raises
    [ValueError] exactly when its argument is no date; it raises
    [TypeError] exactly when the cache holds, for the date, a payload
    that is truthy and no [dict]; otherwise it returns a [dict] whose
    ["source"] is one of the five labels. *)
Theorem get_readings_outcomes (self : service) (arg : date_arg)
    (day_name : option string) :
  (fst (get_readings self arg day_name) = Raised ValueError
   <-> to_date arg = None)
  /\ (fst (get_readings self arg day_name) = Raised TypeError
      <-> exists dt,
            to_date arg = Some dt
            /\ truth (_cache_get self (cache_key dt)) = true
            /\ is_dict (_cache_get self (cache_key dt)) = false)
  /\ (forall r,
        fst (get_readings self arg day_name) = Returned r ->
        is_dict r = true
        /\ exists s, source_of r = Some (JStr s) /\ In s source_labels).
Proof.
  rewrite get_readings_steps.
  destruct (to_date arg) as [dt|].
  2:{ cbn [fst]. repeat split; try discriminate.
      intros (dt & H & _). discriminate. }
  destruct (truth (_cache_get self (cache_key dt))) eqn:Ht.
  - destruct (_cache_get self (cache_key dt)) as [ | b | n | s | l | items]
      eqn:Hc; cbn [setitem fst];
      (split; [split; discriminate|]).
    1-5: split;
      [split; [intros _; exists dt; rewrite Hc; repeat split; exact Ht
              | intros _; reflexivity]
      | discriminate].
    split.
    { split; [discriminate|].
      intros (dt' & Hd & _ & Hdict). injection Hd as <-.
      rewrite Hc in Hdict. discriminate. }
    intros r Hr. injection Hr as <-. split; [reflexivity|].
    exists "redis-cache". unfold source_of. cbn [getitem].
    rewrite items_set_lookup. split; [reflexivity|]. simpl. auto.
  - split; [destruct (truth (lower_tiers self dt day_name)); split; discriminate|].
    split.
    + split.
      * destruct (truth (lower_tiers self dt day_name)); discriminate.
      * intros (dt' & Hd & Ht' & _). injection Hd as <-.
        rewrite Ht in Ht'. discriminate.
    + intros r.
      destruct (lower_tiers_source self dt day_name) as [H | (s & x & H & Hs)];
        rewrite H; cbn [truth fst]; intros Hr; injection Hr as <-.
      * split; [reflexivity|]. exists "none".
        split; [reflexivity|]. do 4 right. left. reflexivity.
      * split; [reflexivity|]. exists s. split; [reflexivity|].
        unfold found_labels in Hs. unfold source_labels.
        simpl in Hs |- *. tauto.
Qed.

(** X12.  What [get_readings] changes.  Only the cache client of the
    service can differ after a call.  A call that raises, that answers
    from the cache or that finds nothing leaves the service as it was;
    any other call returns a result of tiers 2 to 4 and hands exactly
    that result to [_cache_set] under the key of the date. *)
Theorem get_readings_writes (self : service) (arg : date_arg)
    (day_name : option string) :
  let out := fst (get_readings self arg day_name) in
  let after := snd (get_readings self arg day_name) in
  (daily_office_path after = daily_office_path self
   /\ lectserve_base after = lectserve_base self
   /\ files after = files self
   /\ has_httpx after = has_httpx self
   /\ http_get after = http_get self)
  /\ ((forall e, out = Raised e -> after = self)
      /\ (forall r,
            out = Returned r ->
            source_of r = Some (JStr "redis-cache")
            \/ source_of r = Some (JStr "none") ->
            after = self)
      /\ (forall r,
            out = Returned r ->
            source_of r <> Some (JStr "redis-cache") ->
            source_of r <> Some (JStr "none") ->
            exists dt s x,
              to_date arg = Some dt
              /\ r = JObj [("source", JStr s); ("readings", x)]
              /\ In s found_labels
              /\ after = _cache_set self (cache_key dt) r)).
Proof.
  cbv zeta. rewrite get_readings_steps.
  destruct (to_date arg) as [dt|].
  2:{ cbn [fst snd]. repeat split; try discriminate. }
  destruct (truth (_cache_get self (cache_key dt))) eqn:Ht.
  - destruct (setitem (_cache_get self (cache_key dt)) "source"
                (JStr "redis-cache")) as [cached'|] eqn:Hs; cbn [fst snd].
    + repeat split; try discriminate.
      intros r Hr Hn _. injection Hr as <-. exfalso. apply Hn.
      destruct (_cache_get self (cache_key dt)); try discriminate.
      cbn [setitem] in Hs. injection Hs as <-.
      unfold source_of. cbn [getitem]. rewrite items_set_lookup. reflexivity.
    + repeat split; try discriminate.
  - destruct (lower_tiers_source self dt day_name) as [H | (s & x & H & Hin)];
      rewrite H; cbn [truth fst snd].
    + repeat split; try discriminate.
      intros r Hr _ Hn. injection Hr as <-. exfalso. apply Hn. reflexivity.
    + split; [apply cache_set_fields|].
      split; [discriminate|].
      split.
      * intros r Hr Hsrc. injection Hr as <-. exfalso.
        unfold source_of in Hsrc. cbn in Hsrc.
        simpl in Hin.
        destruct Hsrc as [Hsrc | Hsrc]; injection Hsrc as ->;
          repeat (destruct Hin as [Hin | Hin]; [discriminate|]);
          exact Hin.
      * intros r Hr _ _. injection Hr as <-.
        exists dt, s, x. repeat split. exact Hin.
Qed.

(** X13.  A call of [get_readings] for one date leaves the cache entry
    of every other date as it was. *)
Theorem get_readings_keeps_other_dates (self : service) (d1 d2 : date)
    (day_name : option string) :
  valid d1 = true -> valid d2 = true -> d1 <> d2 ->
  cache_entry (snd (get_readings self (ArgDate d1) day_name)) (cache_key d2)
  = cache_entry self (cache_key d2).
Proof.
  intros V1 V2 Hne. rewrite get_readings_steps. cbn [to_date].
  destruct (truth (_cache_get self (cache_key d1))).
  - destruct (setitem _ _ _); reflexivity.
  - destruct (truth (lower_tiers self d1 day_name)); [|reflexivity].
    cbn [snd]. apply cache_set_other_key.
    unfold cache_key. intros Heq.
    apply Hne.
    assert (Hiso : isoformat d1 = isoformat d2).
    { cbn [append] in Heq. congruence. }
    pose proof (strptime_isoformat d1 V1) as H1.
    pose proof (strptime_isoformat d2 V2) as H2.
    congruence.
Qed.

End OutcomesOfTiers.

Lemma get_readings_keeps_other_dates_witness :
  cache_entry
    (snd (get_readings (json := PyJson.codec)
            (with_redis offline_service
               (mkredis true [("rcl:2026-01-26", (5, "{}"))]))
            (ArgDate (mkdate 2026 1 25))
            (Some "The Third Sunday after the Epiphany")))
    (cache_key (mkdate 2026 1 26))
  = cache_entry
      (with_redis offline_service
         (mkredis true [("rcl:2026-01-26", (5, "{}"))]))
      (cache_key (mkdate 2026 1 26)).
Proof.
  apply (get_readings_keeps_other_dates (json := PyJson.codec)
           (with_redis offline_service
              (mkredis true [("rcl:2026-01-26", (5, "{}"))]))
           (mkdate 2026 1 25) (mkdate 2026 1 26)
           (Some "The Third Sunday after the Epiphany"));
    [reflexivity | reflexivity | discriminate].
Defined.

(** ** The local dataset and the remote service *)

Lemma find_office_hit (l : list value) (target : string) (office : value) :
  find_office l target = Some (Some office)
  <-> exists before rest,
        l = (before ++ office :: rest)%list
        /\ Forall (other_day target) before
        /\ names_day target office.
Proof.
  induction l as [|a l IH]; cbn [find_office].
  - split; [discriminate|].
    intros (b & r & H & _). destruct b; discriminate.
  - destruct (get a "day" (JStr "")) as [d|] eqn:Hg.
    + destruct (eq_str d target) eqn:He.
      * split.
        -- intros [= <-]. exists [], l.
           split; [reflexivity|]. split; [constructor|]. exists d. auto.
        -- intros (b & r & Hl & Hb & Hn). destruct b as [|o b].
           ++ injection Hl as -> _. reflexivity.
           ++ injection Hl as -> _. inversion Hb as [|? ? (d' & Hg' & He') _].
              congruence.
      * rewrite IH. split.
        -- intros (b & r & -> & Hb & Hn). exists (a :: b), r.
           split; [reflexivity|]. split; [|exact Hn].
           constructor; [exists d; auto | exact Hb].
        -- intros (b & r & Hl & Hb & Hn). destruct b as [|o b].
           ++ injection Hl as -> _. destruct Hn as (d' & Hg' & He').
              congruence.
           ++ injection Hl as -> ->. exists b, r.
              split; [reflexivity|]. split; [|exact Hn].
              inversion Hb; assumption.
    + split; [discriminate|].
      intros (b & r & Hl & Hb & Hn). destruct b as [|o b].
      * injection Hl as -> _. destruct Hn as (d' & Hg' & _). congruence.
      * injection Hl as -> _. inversion Hb as [|? ? (d' & Hg' & _) _].
        congruence.
Qed.

Section Dataset.
Context {json : Codec}.

Lemma daily_office_steps (self : service) (dt : date) :
  valid dt = true ->
  _lookup_daily_office self dt
  = match daily_office_path self with
    | None => JNull
    | Some path =>
        match files self (dataset_file path dt) with
        | Content text =>
            match loads text with
            | Some offices =>
                match iterate offices with
                | Some elements =>
                    match find_office elements (dataset_day dt) with
                    | Some (Some office) =>
                        JObj [("source", JStr "daily-office-json");
                              ("readings", office)]
                    | _ => JNull
                    end
                | None => JNull
                end
            | None => JNull
            end
        | _ => JNull
        end
    end.
Proof.
  intros Hv. pose proof (valid_year dt Hv) as Hy.
  unfold _lookup_daily_office.
  destruct (daily_office_path self) as [path|]; [|reflexivity].
  rewrite new_in_range by lia.
  change (files self _) with (files self (dataset_file path dt)).
  destruct (files self (dataset_file path dt)); try reflexivity.
  destruct (loads text) as [offices|]; [|reflexivity].
  cbn beta iota. destruct (iterate offices) as [elements|]; [|reflexivity].
  cbn beta iota. unfold dataset_day.
  destruct (find_office elements _) as [[office|]|]; reflexivity.
Qed.

Lemma lectserve_steps (self : service) (dt : date) :
  _lookup_lectserve self dt
  = if has_httpx self then
      match http_get self (lectserve_url self dt) with
      | Some (status, body) =>
          if status =? 200 then
            match loads body with
            | Some data => JObj [("source", JStr "lectserve"); ("readings", data)]
            | None => JNull
            end
          else JNull
      | None => JNull
      end
    else JNull.
Proof.
  unfold _lookup_lectserve, lectserve_url.
  destruct (has_httpx self); [|reflexivity].
  destruct (http_get self _) as [[status body]|]; [|reflexivity].
  cbn. destruct (status =? 200); [|reflexivity].
  destruct (loads body); reflexivity.
Qed.

(** X14.  The local dataset gives an office for a valid date exactly
    when the path is configured, the file of the date's year can be read
    and parsed, and its offices hold one whose ["day"] is the day key of
    the date, behind offices of other days only: the first office of the
    day wins, and an element before it that is no [dict] ends the
    search. *)
Theorem daily_office_first_match (self : service) (dt : date)
    (office : value) :
  valid dt = true ->
  (_lookup_daily_office self dt
   = JObj [("source", JStr "daily-office-json"); ("readings", office)]
   <-> exists path text offices before rest,
         daily_office_path self = Some path
         /\ files self (dataset_file path dt) = Content text
         /\ loads text = Some offices
         /\ iterate offices = Some (before ++ office :: rest)%list
         /\ Forall (other_day (dataset_day dt)) before
         /\ names_day (dataset_day dt) office).
Proof.
  intros Hv. rewrite (daily_office_steps self dt Hv). split.
  - destruct (daily_office_path self) as [path|]; [|discriminate].
    destruct (files self (dataset_file path dt)) as [ | |text] eqn:Hf;
      try discriminate.
    destruct (loads text) as [offices|] eqn:Hl; [|discriminate].
    destruct (iterate offices) as [elements|] eqn:Hi; [|discriminate].
    destruct (find_office elements (dataset_day dt)) as [[o|]|] eqn:Hfind;
      try discriminate.
    intros [= ->]. apply find_office_hit in Hfind as (b & r & -> & Hb & Hn).
    exists path, text, offices, b, r. repeat split; assumption.
  - intros (path & text & offices & b & r & Hp & Hf & Hl & Hi & Hb & Hn).
    rewrite Hp, Hf, Hl, Hi.
    assert (Hfind : find_office (b ++ office :: r)%list (dataset_day dt)
                    = Some (Some office)).
    { apply find_office_hit. exists b, r. auto. }
    rewrite Hfind. reflexivity.
Qed.


(** X16.  When the cache and the local dataset miss and the remote
    service answers with status 200 and a body that parses, the call
    returns that body under source ["lectserve"], whatever it holds, and
    hands it to the cache; the built-in table is not consulted, whatever
    the day name. *)
Theorem remote_answer_is_final (self : service) (arg : date_arg) (dt : date)
    (day_name : option string) (body : string) (data : value) :
  to_date arg = Some dt ->
  truth (_cache_get self (cache_key dt)) = false ->
  truth (_lookup_daily_office self dt) = false ->
  has_httpx self = true ->
  http_get self (lectserve_url self dt) = Some (200, body) ->
  loads body = Some data ->
  get_readings self arg day_name
  = (Returned (JObj [("source", JStr "lectserve"); ("readings", data)]),
     _cache_set self (cache_key dt)
       (JObj [("source", JStr "lectserve"); ("readings", data)])).
Proof.
  intros Hd Hc H2 Hh Hg Hl.
  rewrite get_readings_steps, Hd, Hc.
  assert (Hres : lower_tiers self dt day_name
                 = JObj [("source", JStr "lectserve"); ("readings", data)]).
  { unfold lower_tiers. rewrite H2. cbn [negb].
    rewrite lectserve_steps, Hh, Hg, Z.eqb_refl, Hl.
    destruct day_name; reflexivity. }
  rewrite Hres. reflexivity.
Qed.


End Dataset.

Lemma day_key_all_true : day_key_all = true.
Proof. vm_compute. reflexivity. Qed.

(** X18.  The day key under which the local dataset is searched is, for
    every valid date, the English name of the month, a space and the day
    of the month without padding: replacing [" 0"] touches nothing
    else. *)
Theorem dataset_day_text (dt : date) :
  valid dt = true ->
  dataset_day dt
  = (nth (Z.to_nat (month dt)) month_names "" ++ " " ++ str (day dt))%string.
Proof.
  intros Hv. destruct (valid_month_day dt Hv) as [Hm Hd].
  pose proof day_key_all_true as H. unfold day_key_all in H.
  pose proof (forallb_Zrange _ _ _ H (month dt) ltac:(lia)) as H1.
  cbv beta in H1.
  pose proof (forallb_Zrange _ _ _ H1 (day dt) ltac:(lia)) as H2.
  unfold day_key_check in H2. apply String.eqb_eq in H2. exact H2.
Qed.

Lemma dataset_day_text_witness :
  dataset_day (mkdate 2026 1 5) = "January 5".
Proof.
  exact (dataset_day_text (mkdate 2026 1 5) eq_refl).
Defined.

Lemma daily_office_first_match_witness :
  _lookup_daily_office (json := PyJson.codec) dataset_service
    (mkdate 2026 1 25)
  = JObj [("source", JStr "daily-office-json");
          ("readings",
           JObj [("day", JStr "January 25"); ("psalm", JStr "Psalm 19")])].
Proof.
  apply (proj2
           (daily_office_first_match (json := PyJson.codec) dataset_service
              (mkdate 2026 1 25)
              (JObj [("day", JStr "January 25"); ("psalm", JStr "Psalm 19")])
              eq_refl)).
  exists "/srv/daily-office", (PyJson.print sample_offices), sample_offices,
    [JObj [("day", JStr "January 24"); ("psalm", JStr "Psalm 30")]],
    [JObj [("day", JStr "January 25"); ("psalm", JStr "Psalm 20")];
     JObj [("day", JStr "January 26"); ("psalm", JStr "Psalm 25")]].
  split; [reflexivity|]. split; [reflexivity|].
  split; [vm_compute; reflexivity|]. split; [reflexivity|]. split.
  - constructor; [|constructor].
    exists (JStr "January 24"). split; reflexivity.
  - exists (JStr "January 25"). split; reflexivity.
Defined.

Lemma remote_answer_is_final_witness :
  get_readings (json := PyJson.codec) online_service (ArgStr "2026-01-25")
    (Some "The Third Sunday after the Epiphany")
  = (Returned (JObj [("source", JStr "lectserve"); ("readings", JObj [])]),
     online_service).
Proof.
  apply (remote_answer_is_final (json := PyJson.codec) online_service
           (ArgStr "2026-01-25") (mkdate 2026 1 25)
           (Some "The Third Sunday after the Epiphany") "{}" (JObj []));
    vm_compute; reflexivity.
Defined.


(** ** The year of the local dataset against the year of the calendar *)

Section DatasetYear.
Context {json : Codec}.

(** X19.  The local tier opens one file, named by the parity of the
    year that starts on November 27, while [calculate_lectionary_year]
    starts its year on the Sunday it computes for Advent, which falls
    after November 27.  The file is the one of the calendar's year for
    every valid date outside the days from November 27 up to that
    Sunday, and the other one on those days. *)
Theorem dataset_year_against_calendar (dt : date) :
  valid dt = true ->
  exists adv,
    _first_sunday_of_advent (year dt) = Some adv
    /\ mkdate (year dt) 11 27 <d adv
    /\ (dt <d mkdate (year dt) 11 27 \/ adv <=d dt ->
        (calculate_lectionary_year dt = Some "Year One"
         <-> dataset_filename dt = "year-one.json")
        /\ (calculate_lectionary_year dt = Some "Year Two"
            <-> dataset_filename dt = "year-two.json"))
    /\ (mkdate (year dt) 11 27 <=d dt -> dt <d adv ->
        (calculate_lectionary_year dt = Some "Year One"
         <-> dataset_filename dt = "year-two.json")
        /\ (calculate_lectionary_year dt = Some "Year Two"
            <-> dataset_filename dt = "year-one.json"))
    /\ (forall self other path,
          daily_office_path self = Some path ->
          daily_office_path other = Some path ->
          files self ((path ++ "/json/readings") ++ "/" ++ dataset_filename dt)
          = files other
              ((path ++ "/json/readings") ++ "/" ++ dataset_filename dt) ->
          _lookup_daily_office self dt = _lookup_daily_office other dt).
Proof.
  intros Hv. pose proof (valid_year dt Hv) as Hy.
  destruct (valid_bounds dt Hv) as [Hm Hd].
  destruct (season_order (year dt) Hy)
    as (e & ash & pent & adv & _ & _ & _ & Ha & _ & _ & _ & Hva & _).
  destruct (advent_defined (year dt) Hy) as (adv' & Ha' & Hya & _ & Hb).
  rewrite Ha in Ha'. injection Ha' as <-.
  destruct (valid_bounds adv Hva) as [Hma Hda].
  assert (Hk : date_key (mkdate (year dt) 11 27) < date_key adv).
  { unfold between in Hb. unfold date_key. cbn [year month day].
    rewrite Hya. lia. }
  exists adv. split; [exact Ha|].
  split; [rewrite ltb_key by (cbn [month day]; lia); apply Z.ltb_lt; exact Hk|].
  assert (Hpar : (year dt mod 2 =? 1) = negb ((year dt - 1) mod 2 =? 1)).
  { rewrite !mod_2_odd. replace (year dt) with (Z.succ (year dt - 1)) at 1 by lia.
    rewrite Z.odd_succ, <- Z.negb_odd. reflexivity. }
  split; [|split].
  - intros Hout.
    unfold calculate_lectionary_year, dataset_filename. rewrite Ha.
    cbn beta iota.
    rewrite !geb_key, !ltb_key in * by (cbn [month day]; lia).
    assert (Hsame : (date_key adv <=? date_key dt)
                    = negb (date_key dt <? date_key (mkdate (year dt) 11 27))).
    { destruct Hout as [Hout | Hout].
      - rewrite Hout. apply Z.ltb_lt in Hout. apply Z.leb_gt. lia.
      - rewrite Hout. apply Z.leb_le in Hout. symmetry.
        apply Bool.negb_true_iff. apply Z.ltb_ge. lia. }
    rewrite Hsame.
    destruct (date_key dt <? date_key (mkdate (year dt) 11 27)); cbn [negb];
      [destruct ((year dt - 1) mod 2 =? 1) | destruct (year dt mod 2 =? 1)];
      split; split; (reflexivity || discriminate).
  - intros Hlo Hhi.
    unfold calculate_lectionary_year, dataset_filename. rewrite Ha.
    cbn beta iota.
    rewrite !geb_key, !ltb_key in * by (cbn [month day]; lia).
    apply Z.leb_le in Hlo. apply Z.ltb_lt in Hhi.
    assert (H1 : (date_key adv <=? date_key dt) = false)
      by (apply Z.leb_gt; lia).
    assert (H2 : (date_key dt <? date_key (mkdate (year dt) 11 27)) = false)
      by (apply Z.ltb_ge; lia).
    rewrite H1, H2, Hpar.
    destruct ((year dt - 1) mod 2 =? 1); cbn [negb];
      split; split; (reflexivity || discriminate).
  - intros self other path Hs Ho Hf.
    change ((path ++ "/json/readings") ++ "/" ++ dataset_filename dt)%string
      with (dataset_file path dt) in Hf.
    rewrite !daily_office_steps by exact Hv.
    rewrite Hs, Ho, Hf. reflexivity.
Qed.

End DatasetYear.

Lemma dataset_year_against_calendar_witness :
  exists adv,
    _first_sunday_of_advent 2026 = Some adv
    /\ (calculate_lectionary_year (mkdate 2026 11 28) = Some "Year One"
        <-> dataset_filename (mkdate 2026 11 28) = "year-two.json").
Proof.
  destruct (dataset_year_against_calendar (json := PyJson.codec)
              (mkdate 2026 11 28) eq_refl)
    as (adv & Ha & Hlt & _ & Hin & _).
  exists adv. split; [exact Ha|].
  assert (Hadv : adv = mkdate 2026 11 29)
    by (vm_compute in Ha; congruence).
  subst adv. apply Hin; reflexivity.
Defined.

(** ** The constructor and the endpoints *)

Lemma strptime_valid (s : string) (dt : date) :
  strptime_date s = Some dt -> valid dt = true.
Proof.
  intros H. apply (to_date_valid (ArgStr s) dt H).
  intros d t [Hd | Hd]; discriminate.
Qed.

Lemma fallback_season_names (dt : date) (s : string) :
  fallback_season dt = Some s -> In s season_names.
Proof.
  unfold fallback_season, season_names.
  destruct (_computus (year dt)) as [e|]; [|discriminate]. cbn beta iota.
  destruct (sub_days e 46) as [ash|]; [|discriminate]. cbn beta iota.
  destruct (add_days e 49) as [pent|]; [|discriminate]. cbn beta iota.
  destruct (_first_sunday_of_advent (year dt)) as [adv|]; [|discriminate].
  cbn beta iota.
  destruct (new (year dt) 1 6) as [epi|]; [|discriminate]. cbn beta iota.
  destruct (geb dt adv); [intros [= H]; rewrite <- H; simpl; tauto|].
  destruct (new (year dt) 12 25) as [chr|]; [|discriminate]. cbn beta iota.
  destruct (geb dt chr); [intros [= H]; rewrite <- H; simpl; tauto|].
  repeat (match goal with
          | |- context [if ?b then _ else _] => destruct b
          end; [intros [= H]; rewrite <- H; simpl; tauto|]).
  intros [= H]; rewrite <- H; simpl; tauto.
Qed.

Lemma fallback_info (dt : date) :
  valid dt = true ->
  exists cal,
    get_calendar_info no_authority (ArgDate dt) = Some cal
    /\ fallback_season dt = Some (season cal)
    /\ day_name cal = season cal.
Proof.
  intros Hv.
  destruct (calendar_info_fields no_authority dt Hv) as (r & _ & Hr & _).
  exists r. split; [exact Hr|].
  unfold get_calendar_info in Hr. cbn [to_date] in Hr. cbn beta iota in Hr.
  destruct (calculate_rcl_year dt); [|discriminate]. cbn beta iota in Hr.
  destruct (calculate_lectionary_year dt); [|discriminate].
  cbn beta iota in Hr.
  destruct (_computus (year dt)); [|discriminate]. cbn beta iota in Hr.
  cbn [HAS_LITURGICAL_PKG no_authority] in Hr.
  destruct (fallback_season dt) as [sn|]; [|discriminate].
  injection Hr as <-. split; reflexivity.
Qed.

Lemma season_readings_all :
  forallb season_readings_check season_names = true.
Proof. vm_compute. reflexivity. Qed.

(** X20.  [LectionaryService(...)] is left without a cache client
    exactly when no URL is given, the URL is empty, the connection
    cannot be made or [ping()] fails, and without a dataset path exactly
    when none or an empty one is given; a service without a cache client
    reads nothing from the cache and is never changed by
    [get_readings]. *)
Theorem service_without_cache {json : Codec} (env : environment)
    (redis_url daily_office_path : option string) (lectserve_base : string) :
  let s := LectionaryService env redis_url daily_office_path lectserve_base in
  (redis_client s = None
   <-> redis_url = None \/ redis_url = Some EmptyString
       \/ (exists url, redis_url = Some url /\ redis_from_url env url = None)
       \/ (exists url r,
             redis_url = Some url /\ redis_from_url env url = Some r
             /\ redis_up r = false))
  /\ (Lectionary.daily_office_path s = None
      <-> daily_office_path = None \/ daily_office_path = Some EmptyString)
  /\ (redis_client s = None ->
      forall arg day_name key,
        _cache_get s key = JNull
        /\ snd (get_readings s arg day_name) = s).
Proof.
  cbv zeta. split; [|split].
  - unfold LectionaryService. cbn [redis_client].
    destruct redis_url as [url|]; [|split; auto].
    destruct url as [|c url]; cbn [truthy]; [split; auto|].
    destruct (redis_from_url env (String c url)) as [r|] eqn:Hf.
    + destruct (redis_up r) eqn:Hup.
      * split; [discriminate|].
        intros [H | [H | [(u & [= <-] & H) | (u & r' & [= <-] & H & Hd)]]];
          try discriminate; congruence.
      * split; [|reflexivity]. intros _. right. right. right.
        exists (String c url), r. auto.
    + split; [|reflexivity]. intros _. right. right. left.
      exists (String c url). auto.
  - unfold LectionaryService. cbn [Lectionary.daily_office_path].
    destruct daily_office_path as [[|c p]|]; cbn [truthy].
    + split; auto.
    + split; [discriminate|]. intros [H | H]; discriminate.
    + split; auto.
  - intros Hc arg day_name key.
    assert (Hset : forall k v, _cache_set
        (LectionaryService env redis_url daily_office_path lectserve_base) k v
        = LectionaryService env redis_url daily_office_path lectserve_base).
    { intros k v. unfold _cache_set. rewrite Hc. reflexivity. }
    split; [unfold _cache_get; rewrite Hc; reflexivity|].
    rewrite get_readings_steps.
    destruct (to_date arg) as [dt|]; [|reflexivity].
    destruct (truth (_cache_get _ (cache_key dt))).
    + destruct (setitem _ _ _); reflexivity.
    + destruct (truth (lower_tiers _ dt day_name)); [|reflexivity].
      cbn [snd]. apply Hset.
Qed.

(** X21.  [/api/calendar/{date_str}] answers 400 exactly when the text
    is no date of the form year-month-day; for every other text it
    returns the calendar of the date, under the date's ISO text, and
    lets no exception through, whatever the calendar package does. *)
Theorem get_calendar_replies (pkg : authority) (date_str : string) :
  (get_calendar pkg date_str = HTTPException 400 invalid_date
   <-> strptime_date date_str = None)
  /\ (forall dt,
        strptime_date date_str = Some dt ->
        exists cal,
          get_calendar pkg date_str = Return cal
          /\ get_calendar_info pkg (ArgStr date_str) = Some cal
          /\ info_date cal = isoformat dt
          /\ strptime_date (info_date cal) = Some dt)
  /\ get_calendar pkg date_str <> Unhandled.
Proof.
  unfold get_calendar.
  destruct (strptime_date date_str) as [dt|] eqn:Hs.
  - pose proof (strptime_valid _ _ Hs) as Hv.
    destruct (calendar_info_fields pkg dt Hv) as (r & _ & Hr & _ & Hd & _).
    rewrite Hr. split; [split; discriminate|]. split; [|discriminate].
    intros dt' [= <-]. exists r. split; [reflexivity|].
    split; [|split; [exact Hd|]].
    + unfold get_calendar_info in *. cbn [to_date] in *. rewrite Hs. exact Hr.
    + rewrite Hd. apply strptime_isoformat. exact Hv.
  - split; [split; reflexivity|]. split; [discriminate|discriminate].
Qed.

Section Endpoint.
Context {json : Codec}.

(** X22.  [/api/lectionary/{date_str}] answers 400, and leaves the
    service alone, exactly when the text is no date; otherwise it lets
    an exception through exactly when the cache holds for the date a
    payload that is truthy and no [dict], and in every other case
    returns the ISO text of the date, the calendar of the date and the
    readings [get_readings] gives for the calendar's day name. *)
Theorem get_lectionary_replies (pkg : authority) (_lectionary : service)
    (date_str : string) :
  (fst (get_lectionary pkg _lectionary date_str)
   = HTTPException 400 invalid_date
   <-> strptime_date date_str = None)
  /\ (strptime_date date_str = None ->
      snd (get_lectionary pkg _lectionary date_str) = _lectionary)
  /\ (forall dt,
        strptime_date date_str = Some dt ->
        (fst (get_lectionary pkg _lectionary date_str) = Unhandled
         <-> truth (_cache_get _lectionary (cache_key dt)) = true
             /\ is_dict (_cache_get _lectionary (cache_key dt)) = false)
        /\ (is_dict (_cache_get _lectionary (cache_key dt)) = true
            \/ truth (_cache_get _lectionary (cache_key dt)) = false ->
            exists cal readings,
              get_calendar_info pkg (ArgDate dt) = Some cal
              /\ get_readings _lectionary (ArgDate dt) (Some (day_name cal))
                 = (Returned readings,
                    snd (get_lectionary pkg _lectionary date_str))
              /\ fst (get_lectionary pkg _lectionary date_str)
                 = Return (mkbody (isoformat dt) cal readings))).
Proof.
  unfold get_lectionary.
  destruct (strptime_date date_str) as [dt|] eqn:Hs.
  2:{ split; [split; reflexivity|]. split; [reflexivity|]. discriminate. }
  pose proof (strptime_valid _ _ Hs) as Hv.
  destruct (calendar_info_fields pkg dt Hv) as (cal & _ & Hr & _).
  rewrite Hr.
  split.
  { destruct (get_readings _ _ _) as [[e|r] after]; split; discriminate. }
  split; [discriminate|].
  intros dt' [= <-].
  pose proof (get_readings_steps _lectionary (ArgDate dt)
                (Some (day_name cal))) as Hcall.
  cbn [to_date] in Hcall.
  destruct (truth (_cache_get _lectionary (cache_key dt))) eqn:Ht.
  - destruct (_cache_get _lectionary (cache_key dt))
      as [ | b | n | s | l | items]; cbn [setitem] in Hcall;
      rewrite Hcall; cbn [is_dict fst snd].
    1-5: split; [split; [intros _; split; reflexivity | reflexivity]|];
      intros [H | H]; discriminate.
    split; [split; [discriminate | intros [_ H]; discriminate]|].
    intros _. eexists cal, _. split; [exact Hr|].
    rewrite Hcall. split; reflexivity.
  - destruct (truth (lower_tiers _lectionary dt (Some (day_name cal))));
      rewrite Hcall; cbn [fst snd].
    + split; [split; [discriminate | intros [H _]; discriminate]|].
      intros _. eexists cal, _. split; [exact Hr|].
      rewrite Hcall. split; reflexivity.
    + split; [split; [discriminate | intros [H _]; discriminate]|].
      intros _. eexists cal, _. split; [exact Hr|].
      rewrite Hcall. split; reflexivity.
Qed.

(** X23.  Without the calendar package, and with nothing in the cache,
    the local dataset and the remote service for the date,
    [/api/lectionary/{date_str}] looks the season up as a day name: it
    serves the readings of Christmas on every day the calculator puts in
    Christmas, the readings of the Epiphany on every day of the season
    after the Epiphany, and no readings in the other four seasons. *)
Theorem offline_lectionary (_lectionary : service) (date_str : string)
    (dt : date) :
  strptime_date date_str = Some dt ->
  truth (_cache_get _lectionary (cache_key dt)) = false ->
  truth (_lookup_daily_office _lectionary dt) = false ->
  truth (_lookup_lectserve _lectionary dt) = false ->
  exists cal readings,
    fst (get_lectionary no_authority _lectionary date_str)
    = Return (mkbody (isoformat dt) cal readings)
    /\ fallback_season dt = Some (season cal)
    /\ day_name cal = season cal
    /\ ((season cal = "Christmas"
         /\ exists x, table_readings "Christmas" = Some x
                      /\ readings = builtin_result x)
        \/ (season cal = "The Season after the Epiphany"
            /\ exists x, table_readings "The Epiphany" = Some x
                         /\ readings = builtin_result x)
        \/ (In (season cal)
              ["Advent"; "Lent"; "Easter"; "The Season after Pentecost"]
            /\ readings = no_readings)).
Proof.
  intros Hs Hc H2 H3.
  pose proof (strptime_valid _ _ Hs) as Hv.
  destruct (fallback_info dt Hv) as (cal & Hcal & Hseason & Hname).
  pose proof (fallback_season_names dt _ Hseason) as Hin.
  unfold get_lectionary. rewrite Hs, Hcal.
  rewrite get_readings_steps. cbn [to_date]. rewrite Hc.
  assert (Hl : lower_tiers _lectionary dt (Some (day_name cal))
               = _lookup_builtin (season cal)).
  { unfold lower_tiers. rewrite H2. cbn [negb]. rewrite H3. cbn [negb andb].
    rewrite Hname.
    destruct (season cal) eqn:E; [|reflexivity].
    simpl in Hin. repeat (destruct Hin as [Hin | Hin]; [discriminate|]).
    contradiction. }
  rewrite Hl.
  pose proof season_readings_all as Hall. rewrite forallb_forall in Hall.
  specialize (Hall _ Hin). unfold season_readings_check in Hall.
  simpl in Hin.
  destruct Hin as [E | [E | [E | [E | [E | [E | []]]]]]];
    rewrite <- E in Hall |- *; cbn [String.eqb Ascii.eqb Bool.eqb] in Hall.
  - apply value_eqb_eq in Hall. rewrite Hall. cbn [truth fst].
    eexists cal, _. split; [reflexivity|]. split; [exact Hseason|].
    split; [exact Hname|]. right. right. split; [|reflexivity].
    rewrite <- E. simpl. tauto.
  - destruct (table_readings "Christmas") as [x|] eqn:Ex; [|discriminate].
    apply value_eqb_eq in Hall. rewrite Hall. cbn [truth builtin_result fst].
    eexists cal, _. split; [reflexivity|]. split; [exact Hseason|].
    split; [exact Hname|]. left. split; [symmetry; exact E|].
    exists x. split; reflexivity.
  - destruct (table_readings "The Epiphany") as [x|] eqn:Ex; [|discriminate].
    apply value_eqb_eq in Hall. rewrite Hall. cbn [truth builtin_result fst].
    eexists cal, _. split; [reflexivity|]. split; [exact Hseason|].
    split; [exact Hname|]. right. left. split; [symmetry; exact E|].
    exists x. split; reflexivity.
  - apply value_eqb_eq in Hall. rewrite Hall. cbn [truth fst].
    eexists cal, _. split; [reflexivity|]. split; [exact Hseason|].
    split; [exact Hname|]. right. right. split; [|reflexivity].
    rewrite <- E. simpl. tauto.
  - apply value_eqb_eq in Hall. rewrite Hall. cbn [truth fst].
    eexists cal, _. split; [reflexivity|]. split; [exact Hseason|].
    split; [exact Hname|]. right. right. split; [|reflexivity].
    rewrite <- E. simpl. tauto.
  - apply value_eqb_eq in Hall. rewrite Hall. cbn [truth fst].
    eexists cal, _. split; [reflexivity|]. split; [exact Hseason|].
    split; [exact Hname|]. right. right. split; [|reflexivity].
    rewrite <- E. simpl. tauto.
Qed.

End Endpoint.

Lemma offline_lectionary_witness :
  exists cal readings,
    fst (get_lectionary (json := PyJson.codec) no_authority offline_service
           "2026-01-25")
    = Return (mkbody (isoformat (mkdate 2026 1 25)) cal readings)
    /\ fallback_season (mkdate 2026 1 25) = Some (season cal)
    /\ day_name cal = season cal
    /\ ((season cal = "Christmas"
         /\ exists x, table_readings "Christmas" = Some x
                      /\ readings = builtin_result x)
        \/ (season cal = "The Season after the Epiphany"
            /\ exists x, table_readings "The Epiphany" = Some x
                         /\ readings = builtin_result x)
        \/ (In (season cal)
              ["Advent"; "Lent"; "Easter"; "The Season after Pentecost"]
            /\ readings = no_readings)).
Proof.
  apply (offline_lectionary (json := PyJson.codec) offline_service
           "2026-01-25" (mkdate 2026 1 25));
    vm_compute; reflexivity.
Defined.
